(** * Velorum market: carts, orders, payments and shipments

    A shallow embedding of the order / cart / payment state machine of
    [market/views.py] and [market/serializer.py].  The database is an
    explicit [Store] of tables; every view action is a function from a
    store to a store and a response, so that writes which survive a failed
    request stay visible. *)

From stdpp Require Import gmap strings list fin_maps.

Local Open Scope string_scope.
Local Open Scope Z_scope.

(** ** Rows of the tables *)

(** Money is a [DecimalField] with two decimal places: amounts are counted
    in hundredths. *)

Module Product.
Record t := mk {
  nombre : string;
  precio : Z;
  precio_final : Z;
  stock : Z;
  stock_proveedor : Z;
  stock_vendido : Z;
  stock_ilimitado : bool
}.

(** Modelled from the spec: the property [Product.stock_disponible] of
    [market/models.py], which is not part of the sources at hand.  The
    specification gives [available = unlimited ? infinity : base - sold];
    the base count is the supplier column [stock_proveedor], the counter
    of sold units is [stock_vendido].  [None] stands for "no bound". *)
Definition stock_disponible (p : t) : option Z :=
  if stock_ilimitado p then None
  else Some (stock_proveedor p - stock_vendido p).

Definition set_stock (n : Z) (p : t) : t :=
  mk (nombre p) (precio p) (precio_final p) n (stock_proveedor p)
     (stock_vendido p) (stock_ilimitado p).

Definition set_stock_vendido (n : Z) (p : t) : t :=
  mk (nombre p) (precio p) (precio_final p) (stock p) (stock_proveedor p)
     n (stock_ilimitado p).
End Product.

(** [cantidad > producto.stock_disponible], the comparison every stock
    check of the views makes. *)
Definition exceeds_stock (cantidad : Z) (p : Product.t) : bool :=
  match Product.stock_disponible p with
  | None => false
  | Some d => d <? cantidad
  end.

Module User.
Record t := mk { id : Z; role : string; address : string }.

(** [getattr(user, 'role', None) in ['admin', 'operator']] *)
Definition is_staff (u : t) : bool :=
  String.eqb (role u) "admin" || String.eqb (role u) "operator".
End User.

Module CartItem.
Record t := mk { producto : Z; cantidad : Z }.
End CartItem.

Module Order.
Record t := mk {
  usuario : Z;
  estado : string;
  total : Z;
  direccion_envio : string
}.

Definition set_estado (e : string) (o : t) : t :=
  mk (usuario o) e (total o) (direccion_envio o).
Definition set_total (n : Z) (o : t) : t :=
  mk (usuario o) (estado o) n (direccion_envio o).
End Order.

Module OrderDetail.
Record t := mk { pedido : Z; producto : Z; cantidad : Z; subtotal : Z }.
End OrderDetail.

(** The states of a payment.  The views name the two open ones
    (['pendiente'], ['en_revision']); the two closed ones are set by
    [Pay.complete] and [Pay.fail]. *)
Inductive PayEstado := pendiente | en_revision | completado | fallido.

#[global] Instance PayEstado_eq_dec : EqDecision PayEstado.
Proof. solve_decision. Defined.

(** Values that [json.loads] returns, and that a metadata dictionary may
    hold. *)
Unset Elimination Schemes.
Inductive JSON :=
| JNull
| JBool (b : bool)
| JNum (n : Z)
| JStr (s : string)
| JArr (l : list JSON)
| JObj (kv : list (string * JSON)).
Set Elimination Schemes.

Module Pay.
Record t := mk {
  pedido : Z;
  metodo : string;
  estado : PayEstado;
  monto_pagado : Z;
  metadata : JSON;
  comprobante_archivo : option string;
  comprobante_url : string
}.

Definition set_estado (e : PayEstado) (p : t) : t :=
  mk (pedido p) (metodo p) e (monto_pagado p) (metadata p)
     (comprobante_archivo p) (comprobante_url p).
Definition set_comprobante_archivo (f : string) (p : t) : t :=
  mk (pedido p) (metodo p) (estado p) (monto_pagado p) (metadata p)
     (Some f) (comprobante_url p).
Definition set_comprobante_url (u : string) (p : t) : t :=
  mk (pedido p) (metodo p) (estado p) (monto_pagado p) (metadata p)
     (comprobante_archivo p) u.

(** [estado__in=['pendiente','en_revision']]: the payment is open. *)
Definition is_open (p : t) : bool :=
  match estado p with
  | pendiente | en_revision => true
  | completado | fallido => false
  end.

(** Modelled from the spec: the method [Pay.complete()] of
    [market/models.py], which moves the payment to [completed]. *)
Definition complete (p : t) : t := set_estado completado p.

(** Modelled from the spec: the method [Pay.fail()] of [market/models.py],
    which moves the payment to [failed]. *)
Definition fail (p : t) : t := set_estado fallido p.
End Pay.

Module Shipment.
Record t := mk {
  pedido : Z;
  estado : string;
  direccion_envio : string;
  empresa_envio : string;
  numero_guia : string
}.

Definition set_estado (e : string) (s : t) : t :=
  mk (pedido s) e (direccion_envio s) (empresa_envio s) (numero_guia s).
End Shipment.

(** ** The store *)

(** Carts are keyed by their owner: a cart belongs to exactly one user.
    The [next_*] fields are the auto-increment counters of the tables. *)
Record Store := mkStore {
  products : gmap Z Product.t;
  carts : gmap Z (list CartItem.t);
  orders : gmap Z Order.t;
  next_order : Z;
  details : gmap Z OrderDetail.t;
  next_detail : Z;
  pagos : gmap Z Pay.t;
  next_pago : Z;
  envios : gmap Z Shipment.t;
  next_envio : Z
}.

Definition set_products (m : gmap Z Product.t) (st : Store) : Store :=
  mkStore m (carts st) (orders st) (next_order st) (details st)
          (next_detail st) (pagos st) (next_pago st) (envios st) (next_envio st).
Definition set_carts (m : gmap Z (list CartItem.t)) (st : Store) : Store :=
  mkStore (products st) m (orders st) (next_order st) (details st)
          (next_detail st) (pagos st) (next_pago st) (envios st) (next_envio st).
Definition set_orders (m : gmap Z Order.t) (st : Store) : Store :=
  mkStore (products st) (carts st) m (next_order st) (details st)
          (next_detail st) (pagos st) (next_pago st) (envios st) (next_envio st).
Definition set_details (m : gmap Z OrderDetail.t) (st : Store) : Store :=
  mkStore (products st) (carts st) (orders st) (next_order st) m
          (next_detail st) (pagos st) (next_pago st) (envios st) (next_envio st).
Definition set_pagos (m : gmap Z Pay.t) (st : Store) : Store :=
  mkStore (products st) (carts st) (orders st) (next_order st) (details st)
          (next_detail st) m (next_pago st) (envios st) (next_envio st).
Definition set_envios (m : gmap Z Shipment.t) (st : Store) : Store :=
  mkStore (products st) (carts st) (orders st) (next_order st) (details st)
          (next_detail st) (pagos st) (next_pago st) m (next_envio st).

(** [Order.objects.create(...)]: a new row under the next key. *)
Definition Order_create (o : Order.t) (st : Store) : Z * Store :=
  let k := next_order st in
  (k, mkStore (products st) (carts st) (<[k := o]> (orders st)) (k + 1)
              (details st) (next_detail st) (pagos st) (next_pago st)
              (envios st) (next_envio st)).

(** [OrderDetail.objects.create(...)] with every column given. *)
Definition OrderDetail_create (d : OrderDetail.t) (st : Store) : Store :=
  let k := next_detail st in
  mkStore (products st) (carts st) (orders st) (next_order st)
          (<[k := d]> (details st)) (k + 1) (pagos st) (next_pago st)
          (envios st) (next_envio st).

(** [Pay.objects.create(...)] *)
Definition Pay_create (p : Pay.t) (st : Store) : Z * Store :=
  let k := next_pago st in
  (k, mkStore (products st) (carts st) (orders st) (next_order st)
              (details st) (next_detail st) (<[k := p]> (pagos st)) (k + 1)
              (envios st) (next_envio st)).

(** [Shipment.objects.create(...)] *)
Definition Shipment_create (s : Shipment.t) (st : Store) : Z * Store :=
  let k := next_envio st in
  (k, mkStore (products st) (carts st) (orders st) (next_order st)
              (details st) (next_detail st) (pagos st) (next_pago st)
              (<[k := s]> (envios st)) (k + 1)).

(** [pedido.delete()]: the order owns its details, which go with it. *)
Definition Order_delete (k : Z) (st : Store) : Store :=
  set_details (filter (fun kd => OrderDetail.pedido kd.2 ≠ k) (details st))
              (set_orders (delete k (orders st)) st).

(** [x in [...]] for a list of string literals. *)
Definition in_list (x : string) (l : list string) : bool :=
  existsb (String.eqb x) l.

(** ** Responses *)

(** A rejected request, by the message or the status the view answers
    with.  [FieldErrors] is the answer 400 of the declared fields of a
    serializer, with the names of the fields that were refused.
    [DoesNotExist] and [TypeError] are Python exceptions no view
    catches. *)
Inductive Error :=
| EmptyCart
| InsufficientStock (producto : string)
| OrderLocked (estado : string)
| AlreadyCancelled
| NotCancellable (estado : string)
| DetailNotInOrder
| InvalidMetadata
| ForbiddenSensitiveData
| FieldErrors (fields : list string)
| AlreadyPaid
| DuplicateOpenPayment
| ForeignOrder
| OrderNotPayable (estado : string)
| InvalidStateTransition (from to : PayEstado)
| MissingProof
| Unauthorized
| NotFound
| InvalidEstado
| ShipmentNotAllowed (estado : string)
| DoesNotExist
| TypeError.

Inductive Response (A : Type) :=
| Success (a : A)
| Failure (e : Error).
Arguments Success {A} a.
Arguments Failure {A} e.

(** Modelled from the spec: [Cart.total()] of [market/models.py], the sum
    over the current items of quantity times the product's current final
    price. *)
Fixpoint Cart_total (prods : gmap Z Product.t) (items : list CartItem.t) : Z :=
  match items with
  | [] => 0
  | it :: rest =>
      match prods !! CartItem.producto it with
      | Some p => CartItem.cantidad it * Product.precio_final p
      | None => 0
      end + Cart_total prods rest
  end.

(** Modelled from the spec: the sum that [Order.total_update()] of
    [market/models.py] computes, over the subtotals of the order's
    details. *)
Definition details_total (k : Z) (ds : gmap Z OrderDetail.t) : Z :=
  map_fold (fun _ d acc =>
              if decide (OrderDetail.pedido d = k)
              then acc + OrderDetail.subtotal d else acc) 0 ds.

(** Modelled from the spec: [Order.total_update()] of [market/models.py]
    stores that sum as the total of the order. *)
Definition Order_total_update (k : Z) (st : Store) : Store :=
  match orders st !! k with
  | Some o =>
      set_orders (<[k := Order.set_total (details_total k (details st)) o]>
                    (orders st)) st
  | None => st
  end.

(** ** CartViewSet *)

Module CartViewSet.

(** [Cart.objects.get_or_create(usuario=request.user)] *)
Definition get_or_create (u : Z) (st : Store) : Store * list CartItem.t :=
  match carts st !! u with
  | Some items => (st, items)
  | None => (set_carts (<[u := []]> (carts st)) st, [])
  end.

(** Modelled from the spec: [Cart.limpiar()] of [market/models.py]
    deletes all the items of the cart. *)
Definition limpiar (u : Z) (st : Store) : Store :=
  set_carts (<[u := []]> (carts st)) st.

(** The first loop of [checkout]: it only reads. *)
Fixpoint first_pass (prods : gmap Z Product.t) (items : list CartItem.t)
  : option Error :=
  match items with
  | [] => None
  | it :: rest =>
      match prods !! CartItem.producto it with
      | None => Some DoesNotExist
      | Some p =>
          if exceeds_stock (CartItem.cantidad it) p
          then Some (InsufficientStock (Product.nombre p))
          else first_pass prods rest
      end
  end.

(** One round of the second loop after its stock check: the detail is
    created and the product saved with its sold counter raised. *)
Definition transfer (pedido : Z) (it : CartItem.t) (p : Product.t)
    (st : Store) : Store :=
  let st1 :=
    OrderDetail_create
      (OrderDetail.mk pedido (CartItem.producto it) (CartItem.cantidad it)
         (CartItem.cantidad it * Product.precio p)) st in
  set_products
    (<[CartItem.producto it :=
         Product.set_stock_vendido
           (Product.stock_vendido p + CartItem.cantidad it) p]>
       (products st1)) st1.

(** The second loop of [checkout].  Each round reads the product again
    from the store as it is at that moment ([refresh_from_db]). *)
Fixpoint second_pass (pedido : Z) (items : list CartItem.t) (st : Store)
  : Store * option Error :=
  match items with
  | [] => (st, None)
  | it :: rest =>
      match products st !! CartItem.producto it with
      | None => (st, Some DoesNotExist)
      | Some p =>
          if exceeds_stock (CartItem.cantidad it) p
          then (Order_delete pedido st,
                Some (InsufficientStock (Product.nombre p)))
          else second_pass pedido rest (transfer pedido it p st)
      end
  end.

(** [checkout], for the requesting user [u].  The view runs without a
    transaction or a lock, so other requests may commit between its
    queries: [env] is what they write after the first loop has ended and
    before the order is created.  A successful response carries the key
    and the total of the new order. *)
Definition checkout_with (env : Store -> Store) (u : User.t) (st : Store)
  : Store * Response (Z * Z) :=
  let '(st0, items) := get_or_create (User.id u) st in
  if (length items =? 0)%nat then (st0, Failure EmptyCart)
  else
    match first_pass (products st0) items with
    | Some e => (st0, Failure e)
    | None =>
        let st1 := env st0 in
        let items1 := default [] (carts st1 !! User.id u) in
        let tot := Cart_total (products st1) items1 in
        let '(pedido, st2) :=
          Order_create (Order.mk (User.id u) "pendiente" tot (User.address u))
                       st1 in
        match second_pass pedido items1 st2 with
        | (st3, Some e) => (st3, Failure e)
        | (st3, None) => (limpiar (User.id u) st3, Success (pedido, tot))
        end
    end.

(** The request served alone. *)
Definition checkout (u : User.t) (st : Store) : Store * Response (Z * Z) :=
  checkout_with (fun s => s) u st.

End CartViewSet.

(** ** OrderViewSet *)

Module OrderViewSet.

(** [get_queryset]: staff see every order, a client only their own. *)
Definition get_queryset (u : User.t) (st : Store) : gmap Z Order.t :=
  if User.is_staff u then orders st
  else filter (fun ko => Order.usuario ko.2 = User.id u) (orders st).

(** [self.get_object()]: the order under key [k] of the queryset. *)
Definition get_object (u : User.t) (k : Z) (st : Store) : option Order.t :=
  get_queryset u st !! k.

(** The writable columns of [OrderSerializer], each present or not in
    the request. *)
Record Patch := mkPatch {
  patch_usuario : option Z;
  patch_estado : option string;
  patch_direccion_envio : option string
}.

(** [serializer.save()] on an existing order. *)
Definition serializer_save (p : Patch) (o : Order.t) : Order.t :=
  Order.mk (default (Order.usuario o) (patch_usuario p))
           (default (Order.estado o) (patch_estado p))
           (Order.total o)
           (default (Order.direccion_envio o) (patch_direccion_envio p)).

(** One entry of [request.data['detalles']]; [cantidad] already has its
    default [1] when the key is missing. *)
Record DetalleData := mkDetalleData {
  dd_producto : option Z;
  dd_cantidad : Z;
  dd_id : option Z
}.

(** Python truth of an optional key: missing and [0] are false. *)
Definition truthy (k : option Z) : option Z :=
  match k with
  | Some 0 | None => None
  | Some n => Some n
  end.

(** Modelled from the spec: [OrderDetail.save()] of [market/models.py]
    fills the subtotal, quantity times the unit price of the product of
    the line. *)
Definition OrderDetail_subtotal (prods : gmap Z Product.t)
    (producto cantidad : Z) : Z :=
  match prods !! producto with
  | Some p => cantidad * Product.precio p
  | None => 0
  end.

(** One round of the loop of [_process_order_details]. *)
Definition process_detail (order : Z) (dd : DetalleData) (st : Store)
  : Store * option Error :=
  match truthy (dd_producto dd) with
  | None => (st, None)
  | Some producto_id =>
      match products st !! producto_id with
      | None => (st, None)
      | Some producto =>
          let cantidad := dd_cantidad dd in
          match truthy (dd_id dd) with
          | Some detalle_id =>
              match details st !! detalle_id with
              | Some detalle =>
                  if OrderDetail.pedido detalle =? order then
                    let adjusted :=
                      if OrderDetail.cantidad detalle =? cantidad
                      then Some st
                      else
                        let returned :=
                          Product.stock producto + OrderDetail.cantidad detalle in
                        if returned <? cantidad then None
                        else Some (set_products
                                     (<[producto_id :=
                                          Product.set_stock (returned - cantidad)
                                                            producto]>
                                        (products st)) st) in
                    match adjusted with
                    | None =>
                        (st, Some (InsufficientStock (Product.nombre producto)))
                    | Some st1 =>
                        let d :=
                          OrderDetail.mk order (OrderDetail.producto detalle)
                            cantidad
                            (OrderDetail_subtotal (products st1)
                               (OrderDetail.producto detalle) cantidad) in
                        (set_details (<[detalle_id := d]> (details st1)) st1,
                         None)
                    end
                  else (st, Some DetailNotInOrder)
              | None => (st, Some DetailNotInOrder)
              end
          | None =>
              if Product.stock producto <? cantidad
              then (st, Some (InsufficientStock (Product.nombre producto)))
              else
                (OrderDetail_create
                   (OrderDetail.mk order producto_id cantidad
                      (cantidad * Product.precio producto)) st, None)
          end
      end
  end.

(** [_process_order_details]: the rounds in order; a [ValidationError]
    ends the loop and leaves what the earlier rounds wrote. *)
Fixpoint _process_order_details (order : Z) (detalles_data : list DetalleData)
    (st : Store) : Store * option Error :=
  match detalles_data with
  | [] => (st, None)
  | dd :: rest =>
      match process_detail order dd st with
      | (st1, Some e) => (st1, Some e)
      | (st1, None) => _process_order_details order rest st1
      end
  end.

(** [perform_update] for the order under key [k]. *)
Definition perform_update (u : User.t) (k : Z) (p : Patch)
    (detalles_data : list DetalleData) (st : Store)
  : Store * Response unit :=
  match get_object u k st with
  | None => (st, Failure NotFound)
  | Some instance =>
      if in_list (Order.estado instance) ["entregado"; "cancelado"]
      then (st, Failure (OrderLocked (Order.estado instance)))
      else
        let st1 :=
          set_orders (<[k := serializer_save p instance]> (orders st)) st in
        match _process_order_details k detalles_data st1 with
        | (st2, Some e) => (st2, Failure e)
        | (st2, None) => (Order_total_update k st2, Success tt)
        end
  end.

(** [remove_detail]; a success answers with the updated total. *)
Definition remove_detail (u : User.t) (k detail_id : Z) (st : Store)
  : Store * Response Z :=
  match get_object u k st with
  | None => (st, Failure NotFound)
  | Some order =>
      if in_list (Order.estado order) ["entregado"; "cancelado"]
      then (st, Failure (OrderLocked (Order.estado order)))
      else
        match details st !! detail_id with
        | Some detail =>
            if OrderDetail.pedido detail =? k then
              match products st !! OrderDetail.producto detail with
              | None => (st, Failure DoesNotExist)
              | Some producto =>
                  let st1 :=
                    set_products
                      (<[OrderDetail.producto detail :=
                           Product.set_stock
                             (Product.stock producto + OrderDetail.cantidad detail)
                             producto]> (products st)) st in
                  let st2 := set_details (delete detail_id (details st1)) st1 in
                  let st3 := Order_total_update k st2 in
                  (st3, Success (details_total k (details st2)))
              end
            else (st, Failure DetailNotInOrder)
        | None => (st, Failure DetailNotInOrder)
        end
  end.

(** [cancel] *)
Definition cancel (u : User.t) (k : Z) (st : Store) : Store * Response unit :=
  match get_object u k st with
  | None => (st, Failure NotFound)
  | Some order =>
      if String.eqb (Order.estado order) "cancelado"
      then (st, Failure AlreadyCancelled)
      else if negb (in_list (Order.estado order) ["pendiente"; "procesando"])
      then (st, Failure (NotCancellable (Order.estado order)))
      else
        (set_orders (<[k := Order.set_estado "cancelado" order]> (orders st)) st,
         Success tt)
  end.

End OrderViewSet.

(** ** PaySerializer *)

Module PaySerializer.

(** What [validate] and [create] read of the validated fields.  A
    metadata that came as a Python [str] is [Some (JStr s)], a
    dictionary is [Some (JObj kv)]; [None] is a missing key. *)
Record Attrs := mkAttrs {
  pedido : Z;
  metodo : string;
  estado : PayEstado;
  metadata : option JSON;
  comprobante_archivo : option string;
  comprobante_url : string;
  monto_pagado : option Z
}.

(** What a request sends under the key [metadata]: nothing, a value of
    a JSON body, or the text of the field [metadata] of a form
    (multipart) body. *)
Inductive Metadata :=
| NoMetadata
| JsonMetadata (v : JSON)
| FormMetadata (s : string).

(** The fields a client may send; [estado] is optional, and
    [data_comprobante_url] is the text of the field without the white
    space around it, which the field strips ([""] for a missing key). *)
Record Data := mkData {
  data_pedido : Z;
  data_metodo : string;
  data_estado : option PayEstado;
  data_metadata : Metadata;
  data_comprobante_archivo : option string;
  data_comprobante_url : string
}.

(** [metadata = serializers.DictField(required=False, default=dict)].  A
    missing key takes the default [{}].  The value of a JSON body must be
    a dictionary, whose entries are kept as they are; anything else, a
    string or [null] included, is refused.  Of a form body the field
    reads only keys of the shape [metadata.<key>], so the text sent under
    [metadata] itself is dropped and the result is [{}].  [None] is the
    refusal of the field. *)
Definition metadata_field (m : Metadata) : option JSON :=
  match m with
  | NoMetadata => Some (JObj [])
  | JsonMetadata (JObj kv) => Some (JObj kv)
  | JsonMetadata _ => None
  | FormMetadata _ => Some (JObj [])
  end.

(** [comprobante_url = serializers.URLField(required=False,
    allow_blank=True, default='')]: the blank text is accepted, any other
    text must pass the validator of the field, [is_url]. *)
Definition url_field (is_url : string -> bool) (s : string) : option string :=
  if String.eqb s "" then Some ""
  else if is_url s then Some s else None.

(** The declared fields, which run before [validate]: [pedido] must
    name an order, [estado] has the default ['pendiente'], [metadata] and
    [comprobante_url] are as above, and [monto_pagado] is read-only, so
    no request sets it.  The fields are all tried, and the answer 400
    names every one that was refused. *)
Definition to_internal_value (is_url : string -> bool)
    (pedidos : gmap Z Order.t) (d : Data) : Error + Order.t * Attrs :=
  match pedidos !! data_pedido d, metadata_field (data_metadata d),
        url_field is_url (data_comprobante_url d) with
  | Some pedido, Some m, Some url =>
      inr (pedido,
           mkAttrs (data_pedido d) (data_metodo d)
                   (default pendiente (data_estado d)) (Some m)
                   (data_comprobante_archivo d) url None)
  | p, m, url =>
      inl (FieldErrors
             (match p with Some _ => [] | None => ["pedido"] end ++
              match m with Some _ => [] | None => ["metadata"] end ++
              match url with Some _ => [] | None => ["comprobante_url"] end)%list)
  end.

(** Python truth of a value. *)
Definition py_bool (v : JSON) : bool :=
  match v with
  | JNull => false
  | JBool b => b
  | JNum n => negb (n =? 0)
  | JStr s => negb (String.eqb s "")
  | JArr l => negb (length l =? 0)%nat
  | JObj kv => negb (length kv =? 0)%nat
  end.

(** [k in s] for two strings. *)
Definition is_substring (k s : string) : bool :=
  match String.index 0 k s with
  | Some _ => true
  | None => false
  end.

(** [k in metadata]; [None] is the [TypeError] of a value that is not a
    container. *)
Definition py_in (k : string) (v : JSON) : option bool :=
  match v with
  | JObj kv => Some (existsb (fun e => String.eqb k e.1) kv)
  | JArr l =>
      Some (existsb (fun x => match x with
                              | JStr s => String.eqb k s
                              | _ => false
                              end) l)
  | JStr s => Some (is_substring k s)
  | JNull | JBool _ | JNum _ => None
  end.

Definition forbidden : list string :=
  ["number"; "card_number"; "cvv"; "cvc"; "exp"; "exp_month"; "exp_year"].

(** [any(k in metadata for k in forbidden)] *)
Fixpoint any_in (ks : list string) (v : JSON) : option bool :=
  match ks with
  | [] => Some false
  | k :: rest =>
      match py_in k v with
      | None => None
      | Some true => Some true
      | Some false => any_in rest v
      end
  end.

(** The first lines of [validate]: [attrs.get('metadata') or {}], then
    the decoding of a string.  [loads] is [json.loads], [None] when it
    raises.  The result is the new [attrs['metadata']] and the local
    [metadata]. *)
Definition decode_metadata (loads : string -> option JSON) (m : option JSON)
  : Error + (option JSON * JSON) :=
  let metadata :=
    match m with
    | Some v => if py_bool v then v else JObj []
    | None => JObj []
    end in
  match metadata with
  | JStr s =>
      match loads s with
      | None => inl InvalidMetadata
      | Some v => inr (Some v, v)
      end
  | _ => inr (m, metadata)
  end.

(** [if metodo == 'tarjeta': ...] *)
Definition check_tarjeta (metodo : string) (metadata : JSON) : option Error :=
  if String.eqb metodo "tarjeta" then
    match any_in forbidden metadata with
    | None => Some TypeError
    | Some true => Some ForbiddenSensitiveData
    | Some false => None
    end
  else None.

(** [pedido.pagos.filter(estado__in=['pendiente','en_revision']).exists()] *)
Definition has_open_payment (k : Z) (st : Store) : bool :=
  bool_decide
    (map_Exists (fun _ p => Pay.pedido p = k ∧ Pay.is_open p = true) (pagos st)).

(** [if pedido: ...] *)
Definition check_pedido (k : Z) (pedido : Order.t) (st : Store) : option Error :=
  if String.eqb (Order.estado pedido) "pagado" then Some AlreadyPaid
  else if has_open_payment k st then Some DuplicateOpenPayment
  else None.

(** [validate(attrs)]; [pedido] is the order that [attrs['pedido']]
    names. *)
Definition validate (loads : string -> option JSON) (pedido : Order.t)
    (attrs : Attrs) (st : Store) : Error + Attrs :=
  match decode_metadata loads (metadata attrs) with
  | inl e => inl e
  | inr (m, md) =>
      match check_tarjeta (metodo attrs) md with
      | Some e => inl e
      | None =>
          match check_pedido (PaySerializer.pedido attrs) pedido st with
          | Some e => inl e
          | None =>
              inr (mkAttrs (PaySerializer.pedido attrs) (metodo attrs)
                           (estado attrs) m (comprobante_archivo attrs)
                           (comprobante_url attrs) (monto_pagado attrs))
          end
      end
  end.

(** [validated_data.get('comprobante_archivo') or
    validated_data.get('comprobante_url')] *)
Definition has_proof (archivo : option string) (url : string) : bool :=
  match archivo with
  | Some _ => true
  | None => negb (String.eqb url "")
  end.

(** [create(validated_data)]: the row that [super().create] inserts. *)
Definition create (pedido : Order.t) (vd : Attrs) : Pay.t :=
  let monto :=
    match monto_pagado vd with
    | None | Some 0 => Order.total pedido
    | Some m => m
    end in
  let est :=
    if has_proof (comprobante_archivo vd) (comprobante_url vd)
    then en_revision else estado vd in
  Pay.mk (PaySerializer.pedido vd) (metodo vd) est monto
         (default (JObj []) (metadata vd))
         (comprobante_archivo vd) (comprobante_url vd).

End PaySerializer.

(** ** PayViewSet *)

Module PayViewSet.

(** [role in ['admin', 'operator'] or pedido.usuario == request.user] for
    the order under key [k]; staff are let through before the order is
    read.  The order exists, by the foreign key; [None] is the exception
    of a missing row. *)
Definition staff_or_owner (u : User.t) (k : Z) (st : Store) : option bool :=
  if User.is_staff u then Some true
  else
    match orders st !! k with
    | Some pedido => Some (Order.usuario pedido =? User.id u)
    | None => None
    end.

(** [POST /pay/]: the fields are validated, then [validate] runs,
    [perform_create] makes its own checks, and [serializer.save()]
    inserts the row.  [is_url] is the validator of [URLField], [loads] is
    [json.loads]. *)
Definition create (is_url : string -> bool) (loads : string -> option JSON)
    (u : User.t) (d : PaySerializer.Data) (st : Store) : Store * Response Z :=
  match PaySerializer.to_internal_value is_url (orders st) d with
  | inl e => (st, Failure e)
  | inr (pedido, attrs) =>
      match PaySerializer.validate loads pedido attrs st with
      | inl e => (st, Failure e)
      | inr vd =>
          if negb (User.is_staff u) && negb (Order.usuario pedido =? User.id u)
          then (st, Failure ForeignOrder)
          else if negb (in_list (Order.estado pedido) ["pendiente"])
          then (st, Failure (OrderNotPayable (Order.estado pedido)))
          else
            let '(k, st1) := Pay_create (PaySerializer.create pedido vd) st in
            (st1, Success k)
      end
  end.

(** [pago.save()] *)
Definition save (k : Z) (p : Pay.t) (st : Store) : Store :=
  set_pagos (<[k := p]> (pagos st)) st.

(** [if pedido.estado == from: pedido.estado = to; pedido.save()] for the
    order under key [k]. *)
Definition move_order (k : Z) (from to : string) (st : Store) : Store :=
  match orders st !! k with
  | Some pedido =>
      if String.eqb (Order.estado pedido) from
      then set_orders (<[k := Order.set_estado to pedido]> (orders st)) st
      else st
  | None => st
  end.

Definition complete (u : User.t) (k : Z) (st : Store) : Store * Response Pay.t :=
  match pagos st !! k with
  | None => (st, Failure NotFound)
  | Some pago =>
      if negb (Pay.is_open pago)
      then (st, Failure (InvalidStateTransition (Pay.estado pago) completado))
      else if negb (User.is_staff u) then (st, Failure Unauthorized)
      else (save k (Pay.complete pago) st, Success (Pay.complete pago))
  end.

Definition fail (u : User.t) (k : Z) (st : Store) : Store * Response Pay.t :=
  match pagos st !! k with
  | None => (st, Failure NotFound)
  | Some pago =>
      if negb (Pay.is_open pago)
      then (st, Failure (InvalidStateTransition (Pay.estado pago) fallido))
      else
        match staff_or_owner u (Pay.pedido pago) st with
        | None => (st, Failure DoesNotExist)
        | Some false => (st, Failure Unauthorized)
        | Some true => (save k (Pay.fail pago) st, Success (Pay.fail pago))
        end
  end.

Definition review (u : User.t) (k : Z) (st : Store) : Store * Response Pay.t :=
  match pagos st !! k with
  | None => (st, Failure NotFound)
  | Some pago =>
      if negb (User.is_staff u) then (st, Failure Unauthorized)
      else if negb (bool_decide (Pay.estado pago = pendiente))
      then (st, Failure (InvalidStateTransition (Pay.estado pago) en_revision))
      else
        let pago1 := Pay.set_estado en_revision pago in
        (move_order (Pay.pedido pago) "pendiente" "en_revision" (save k pago1 st),
         Success pago1)
  end.

Definition approve (u : User.t) (k : Z) (st : Store) : Store * Response Pay.t :=
  match pagos st !! k with
  | None => (st, Failure NotFound)
  | Some pago =>
      if negb (User.is_staff u) then (st, Failure Unauthorized)
      else if negb (bool_decide (Pay.estado pago = en_revision))
      then (st, Failure (InvalidStateTransition (Pay.estado pago) completado))
      else (save k (Pay.complete pago) st, Success (Pay.complete pago))
  end.

Definition reject (u : User.t) (k : Z) (st : Store) : Store * Response Pay.t :=
  match pagos st !! k with
  | None => (st, Failure NotFound)
  | Some pago =>
      if negb (User.is_staff u) then (st, Failure Unauthorized)
      else if negb (bool_decide (Pay.estado pago = en_revision))
      then (st, Failure (InvalidStateTransition (Pay.estado pago) fallido))
      else
        (move_order (Pay.pedido pago) "en_revision" "pendiente"
           (save k (Pay.fail pago) st),
         Success (Pay.fail pago))
  end.

(** [proof]; [file] and [url] are the two keys of the request, a blank
    string being as good as a missing key. *)
Definition proof (u : User.t) (k : Z) (file : option string) (url : string)
    (st : Store) : Store * Response Pay.t :=
  match pagos st !! k with
  | None => (st, Failure NotFound)
  | Some pago =>
      match staff_or_owner u (Pay.pedido pago) st with
      | None => (st, Failure DoesNotExist)
      | Some false => (st, Failure Unauthorized)
      | Some true =>
          if negb (bool_decide (Pay.estado pago = pendiente))
          then (st, Failure (InvalidStateTransition (Pay.estado pago) en_revision))
          else if negb (PaySerializer.has_proof file url)
          then (st, Failure MissingProof)
          else
            let pago1 :=
              match file with
              | Some f => Pay.set_comprobante_archivo f pago
              | None => pago
              end in
            let pago2 :=
              if String.eqb url "" then pago1
              else Pay.set_comprobante_url url pago1 in
            let pago3 := Pay.set_estado en_revision pago2 in
            (move_order (Pay.pedido pago) "pendiente" "en_revision"
               (save k pago3 st),
             Success pago3)
      end
  end.

(** The requests on payments, and a sequence of them served one after
    the other. *)
Inductive Op :=
| OpCreate (u : User.t) (d : PaySerializer.Data)
| OpComplete (u : User.t) (k : Z)
| OpFail (u : User.t) (k : Z)
| OpReview (u : User.t) (k : Z)
| OpApprove (u : User.t) (k : Z)
| OpReject (u : User.t) (k : Z)
| OpProof (u : User.t) (k : Z) (file : option string) (url : string).

Definition run (is_url : string -> bool) (loads : string -> option JSON)
    (op : Op) (st : Store) : Store :=
  match op with
  | OpCreate u d => (create is_url loads u d st).1
  | OpComplete u k => (complete u k st).1
  | OpFail u k => (fail u k st).1
  | OpReview u k => (review u k st).1
  | OpApprove u k => (approve u k st).1
  | OpReject u k => (reject u k st).1
  | OpProof u k file url => (proof u k file url st).1
  end.

Definition run_all (is_url : string -> bool) (loads : string -> option JSON)
    (ops : list Op) (st : Store) : Store :=
  fold_left (fun s op => run is_url loads op s) ops st.

End PayViewSet.

(** ** ShipmentSerializer and ShipmentViewSet *)

Module ShipmentSerializer.

(** [validate(data)]; [pedido] is the order that [data['pedido']] names. *)
Definition validate (pedido : Order.t) : option Error :=
  if negb (in_list (Order.estado pedido)
             ["pendiente"; "preparando"; "en camino"; "entregado"])
  then Some (ShipmentNotAllowed (Order.estado pedido))
  else None.

(** [create(validated_data)] *)
Definition create (data : Shipment.t) (pedido : Order.t) (st : Store)
  : Z * Store :=
  let st1 :=
    if String.eqb (Order.estado pedido) "pendiente"
    then set_orders (<[Shipment.pedido data :=
                         Order.set_estado "procesando" pedido]> (orders st)) st
    else st in
  Shipment_create data st1.

End ShipmentSerializer.

Module ShipmentViewSet.

(** [POST /shipment/] with the validated columns [data]. *)
Definition create (data : Shipment.t) (st : Store) : Store * Response Z :=
  match orders st !! Shipment.pedido data with
  | None => (st, Failure NotFound)
  | Some pedido =>
      match ShipmentSerializer.validate pedido with
      | Some e => (st, Failure e)
      | None =>
          let '(k, st1) := ShipmentSerializer.create data pedido st in
          (st1, Success k)
      end
  end.

Definition estados_validos : list string :=
  ["pendiente"; "preparando"; "en camino"; "entregado"].

(** [shipment.pedido.estado = e; shipment.pedido.save()] unless the
    order is in state [e] already. *)
Definition promote_order (k : Z) (e : string) (st : Store) : Store :=
  match orders st !! k with
  | Some pedido =>
      if negb (String.eqb (Order.estado pedido) e)
      then set_orders (<[k := Order.set_estado e pedido]> (orders st)) st
      else st
  | None => st
  end.

(** [update_status]; [nuevo_estado] is [request.data.get('estado')]. *)
Definition update_status (u : User.t) (k : Z) (nuevo_estado : option string)
    (st : Store) : Store * Response unit :=
  if negb (User.is_staff u) then (st, Failure Unauthorized)
  else
    match envios st !! k with
    | None => (st, Failure NotFound)
    | Some shipment =>
        match nuevo_estado with
        | None => (st, Failure InvalidEstado)
        | Some e =>
            if negb (in_list e estados_validos) then (st, Failure InvalidEstado)
            else
              let st1 :=
                if String.eqb e "en camino"
                then promote_order (Shipment.pedido shipment) "enviado" st
                else st in
              let st2 :=
                if String.eqb e "entregado"
                then promote_order (Shipment.pedido shipment) "entregado" st1
                else st1 in
              (set_envios (<[k := Shipment.set_estado e shipment]> (envios st2))
                          st2,
               Success tt)
        end
    end.

End ShipmentViewSet.

(** ** Sample data *)

Module Sample.

(** Five units of the first product and one of the second are
    available; nothing has been sold yet. *)
Definition reloj := Product.mk "Reloj" 1000 1000 5 5 0 false.
Definition correa := Product.mk "Correa" 2500 2500 1 1 0 false.

Definition ana := User.mk 1 "client" "Calle 1".
Definition beto := User.mk 2 "client" "Calle 2".
Definition admin := User.mk 9 "admin" "Oficina".

Definition cart_ana := [CartItem.mk 1 1; CartItem.mk 2 1].
Definition cart_beto := [CartItem.mk 2 1].

Definition empty : Store := mkStore ∅ ∅ ∅ 1 ∅ 1 ∅ 1 ∅ 1.

(** Two products, the second with one unit left, and two carts that both
    hold that unit. *)
Definition shop : Store :=
  set_carts (<[1 := cart_ana]> (<[2 := cart_beto]> ∅))
    (set_products (<[1 := reloj]> (<[2 := correa]> ∅)) empty).

(** A cart asking for three units of the first product. *)
Definition three : Store := set_carts (<[1 := [CartItem.mk 1 3]]> ∅) shop.

(** A cart asking for six units of a product of which five are left, and
    an empty cart. *)
Definition greedy : Store :=
  set_carts (<[1 := [CartItem.mk 1 6]]> (<[2 := []]> ∅)) shop.

(** [json.loads] on the strings the examples give it: the two documents
    below decode to the values Python returns for them, and
    [no_json] makes it raise. *)
Definition dq : string := String (Ascii.ascii_of_nat 34) "".
Definition cvv_json : string :=
  String.append "{" (String.append dq (String.append "cvv"
    (String.append dq ": 123}"))).
Definition no_json : string := "{cvv".
Definition loads (s : string) : option JSON :=
  if String.eqb s "{}" then Some (JObj [])
  else if String.eqb s cvv_json then Some (JObj [("cvv", JNum 123)])
  else None.

(** The validator of [URLField] on the texts the examples give it: the
    address of the receipt passes, the other texts do not. *)
Definition recibo : string := "https://banco.example/recibo/1".
Definition is_url (s : string) : bool := String.eqb s recibo.

(** One pending order of [ana], without and with an open payment. *)
Definition pedido_ana := Order.mk 1 "pendiente" 3500 "Calle 1".
Definition one_order : Store := (Order_create pedido_ana empty).2.
Definition transferencia : PaySerializer.Data :=
  PaySerializer.mkData 1 "transferencia" None PaySerializer.NoMetadata None "".
Definition one_payment : Store :=
  (PayViewSet.create is_url loads ana transferencia one_order).1.

Definition tarjeta (metadata : PaySerializer.Metadata) : PaySerializer.Data :=
  PaySerializer.mkData 1 "tarjeta" None metadata None "".

Definition pago_ana : Pay.t :=
  Pay.mk 1 "transferencia" pendiente 3500 (JObj []) None "".
Definition under_review : Store :=
  (PayViewSet.proof ana 1 None recibo one_payment).1.

(** An order of [ana] with one line of two units, delivered and
    pending. *)
Definition pedido_entregado := Order.mk 1 "entregado" 2000 "Calle 1".
Definition delivered : Store :=
  OrderDetail_create (OrderDetail.mk 1 1 2 2000)
    (Order_create pedido_entregado shop).2.
Definition with_line : Store :=
  OrderDetail_create (OrderDetail.mk 1 1 2 2000)
    (Order_create (Order.mk 1 "pendiente" 2000 "Calle 1") shop).2.

(** A shipment for the pending order, as created and then on its way. *)
Definition envio_ana : Shipment.t :=
  Shipment.mk 1 "pendiente" "Calle 1" "Correo" "AR-0001".
Definition shipped : Store :=
  (ShipmentViewSet.create envio_ana one_order).1.
Definition delivered_shipment : Store :=
  (ShipmentViewSet.update_status admin 1 (Some "entregado") shipped).1.

(** A request without a proof that names the state of the payment. *)
Definition efectivo_completado : PaySerializer.Data :=
  PaySerializer.mkData 1 "efectivo" (Some completado) PaySerializer.NoMetadata
    None "".
Definition con_recibo : PaySerializer.Data :=
  PaySerializer.mkData 1 "transferencia" None PaySerializer.NoMetadata None
    recibo.

(** The other customer's checkout, committed while the first one is
    between its two loops. *)
Definition beto_checks_out (st : Store) : Store :=
  (CartViewSet.checkout beto st).1.

End Sample.

(** ** Well-formed stores *)

(** The auto-increment counter of a table lies beyond its keys. *)
Definition fresh_keys {A} (next : Z) (m : gmap Z A) : Prop :=
  ∀ k, next ≤ k → m !! k = None.


(** At most one payment of the order under key [k] is open. *)
Definition at_most_one_open (k : Z) (st : Store) : Prop :=
  ∀ i j p q,
    pagos st !! i = Some p → pagos st !! j = Some q →
    Pay.pedido p = k → Pay.pedido q = k →
    Pay.is_open p = true → Pay.is_open q = true →
    i = j.

(** A metadata dictionary carries card data when one of its keys is a
    forbidden one. *)
Definition sensitive (kv : list (string * JSON)) : Prop :=
  ∃ k, k ∈ PaySerializer.forbidden ∧ k ∈ kv.*1.

(** The place of a shipment state in the chain pending, preparing, in
    transit, delivered. *)
Definition shipment_rank (estado : string) : nat :=
  if String.eqb estado "preparando" then 1
  else if String.eqb estado "en camino" then 2
  else if String.eqb estado "entregado" then 3
  else 0.

(** ** The other actions of the views *)

(** Answers of the actions on the cart and its items, by the message the
    view sends.  [MultipleObjectsReturned] is the exception of
    [CartItem.objects.get] when two rows match. *)
Inductive CartError :=
| ProductNotFound
| ItemNotFound
| InvalidQuantity
| NotANumber
| StockInsuficiente (disponible : option Z)
| MultipleObjectsReturned
| ProductDoesNotExist.

Module ProductViewSet.

(** [item.cantidad = nueva_cantidad; item.save()] for the row of the
    product in the cart. *)
Definition set_cantidad (producto_id nueva : Z) (it : CartItem.t) : CartItem.t :=
  if bool_decide (CartItem.producto it = producto_id)
  then CartItem.mk producto_id nueva else it.

(** [add_to_cart] for the product under key [pk]; [cantidad] is
    [request.data.get('cantidad')] after [int].  A success tells whether
    the product was in the cart already and gives the new total. *)
Definition add_to_cart (u : User.t) (pk : Z) (cantidad : option Z) (st : Store)
  : Store * (CartError + bool * Z) :=
  match products st !! pk with
  | None => (st, inl ProductNotFound)
  | Some producto =>
      let cantidad := default 1 cantidad in
      if cantidad <=? 0 then (st, inl InvalidQuantity)
      else if exceeds_stock cantidad producto
      then (st, inl (StockInsuficiente (Product.stock_disponible producto)))
      else
        let '(st1, items) := CartViewSet.get_or_create (User.id u) st in
        match filter (fun it => CartItem.producto it = pk) items with
        | [] =>
            let items1 := (items ++ [CartItem.mk pk cantidad])%list in
            (set_carts (<[User.id u := items1]> (carts st1)) st1,
             inr (false, Cart_total (products st1) items1))
        | [item] =>
            let nueva_cantidad := CartItem.cantidad item + cantidad in
            if exceeds_stock nueva_cantidad producto
            then (st1, inl (StockInsuficiente (Product.stock_disponible producto)))
            else
              let items1 := set_cantidad pk nueva_cantidad <$> items in
              (set_carts (<[User.id u := items1]> (carts st1)) st1,
               inr (true, Cart_total (products st1) items1))
        | _ :: _ :: _ => (st1, inl MultipleObjectsReturned)
        end
  end.

End ProductViewSet.

Module CartItemViewSet.

(** [request.data.get('cantidad', instance.cantidad)] before [int]: the
    key may be missing, hold something [int] refuses, or hold a number. *)
Inductive Cantidad :=
| Missing
| Invalid
| Number (n : Z).

(** [partial_update] (and [update], which calls it) for the item at
    position [i] of the cart of [u].  A success tells whether the item was
    deleted. *)
Definition partial_update (u : User.t) (i : nat) (c : Cantidad) (st : Store)
  : Store * (CartError + bool) :=
  match carts st !! User.id u with
  | None => (st, inl ItemNotFound)
  | Some items =>
      match items !! i with
      | None => (st, inl ItemNotFound)
      | Some instance =>
          match c with
          | Invalid => (st, inl NotANumber)
          | _ =>
              let cantidad :=
                match c with
                | Number n => n
                | _ => CartItem.cantidad instance
                end in
              if cantidad <=? 0
              then (set_carts (<[User.id u := delete i items]> (carts st)) st,
                    inr true)
              else
                match products st !! CartItem.producto instance with
                | None => (st, inl ProductDoesNotExist)
                | Some producto =>
                    if exceeds_stock cantidad producto
                    then (st, inl (StockInsuficiente
                                     (Product.stock_disponible producto)))
                    else
                      (set_carts
                         (<[User.id u :=
                              <[i := CartItem.mk (CartItem.producto instance)
                                                 cantidad]> items]>
                            (carts st)) st,
                       inr false)
                end
          end
      end
  end.

(** [destroy]; the name of the product is read before the item is
    deleted. *)
Definition destroy (u : User.t) (i : nat) (st : Store)
  : Store * (CartError + bool) :=
  match carts st !! User.id u with
  | None => (st, inl ItemNotFound)
  | Some items =>
      match items !! i with
      | None => (st, inl ItemNotFound)
      | Some instance =>
          match products st !! CartItem.producto instance with
          | None => (st, inl ProductDoesNotExist)
          | Some _ =>
              (set_carts (<[User.id u := delete i items]> (carts st)) st,
               inr true)
          end
      end
  end.

End CartItemViewSet.

(** [CartViewSet.clear] *)
Definition CartViewSet_clear (u : User.t) (st : Store) : Store :=
  CartViewSet.limpiar (User.id u) (CartViewSet.get_or_create (User.id u) st).1.

(** The requests of one user on their cart, served one after the
    other. *)
Inductive CartOp :=
| OpAdd (pk : Z) (cantidad : option Z)
| OpSetQuantity (i : nat) (c : CartItemViewSet.Cantidad)
| OpRemove (i : nat)
| OpClear.

Definition run_cart (u : User.t) (op : CartOp) (st : Store) : Store :=
  match op with
  | OpAdd pk cantidad => (ProductViewSet.add_to_cart u pk cantidad st).1
  | OpSetQuantity i c => (CartItemViewSet.partial_update u i c st).1
  | OpRemove i => (CartItemViewSet.destroy u i st).1
  | OpClear => CartViewSet_clear u st
  end.

Definition run_cart_all (u : User.t) (ops : list CartOp) (st : Store) : Store :=
  fold_left (fun s op => run_cart u op s) ops st.

(** The units of the product under key [pk] that a cart holds. *)
Fixpoint units_of (pk : Z) (items : list CartItem.t) : Z :=
  match items with
  | [] => 0
  | it :: rest =>
      (if bool_decide (CartItem.producto it = pk) then CartItem.cantidad it else 0)
      + units_of pk rest
  end.

(** A cart in order: a user's cart, if there is one, has one row per
    product, each for a positive quantity of a product of the catalogue
    that the available stock covers. *)
Definition cart_in_order (u : User.t) (st : Store) : Prop :=
  ∀ items, carts st !! User.id u = Some items →
    NoDup (CartItem.producto <$> items) ∧
    Forall (fun it =>
              0 < CartItem.cantidad it ∧
              ∃ p, products st !! CartItem.producto it = Some p ∧
                   exceeds_stock (CartItem.cantidad it) p = false) items.

(** No product is sold beyond its stock. *)
Definition never_oversold (prods : gmap Z Product.t) : Prop :=
  ∀ k p d, prods !! k = Some p → Product.stock_disponible p = Some d → 0 ≤ d.

Module Demo.

(** The catalogue of [Sample.shop] before anybody has a cart. *)
Definition catalogue : Store :=
  set_products (<[1 := Sample.reloj]> (<[2 := Sample.correa]> ∅)) Sample.empty.

(** Two units of the first product, one more, then four in all, and one
    unit of the second product. *)
Definition shopping : list CartOp :=
  [OpAdd 1 (Some 2); OpAdd 1 None; OpSetQuantity 0 (CartItemViewSet.Number 4);
   OpAdd 2 None].

End Demo.





(** A user who owns no order. *)
Definition owns_nothing (u : User.t) (st : Store) : Prop :=
  ∀ k o, orders st !! k = Some o → Order.usuario o ≠ User.id u.


(** ** OrderViewSet: [update_total] and [force_delete] *)

(** [update_total] *)
Definition OrderViewSet_update_total (u : User.t) (k : Z) (st : Store)
  : Store * Response Z :=
  match OrderViewSet.get_object u k st with
  | None => (st, Failure NotFound)
  | Some _ =>
      (Order_total_update k st, Success (details_total k (details st)))
  end.

(** [for p in abiertos: p.fail()], over the open payments of the order
    under key [k]. *)
Definition fail_open (k : Z) (m : gmap Z Pay.t) : gmap Z Pay.t :=
  (fun p => if bool_decide (Pay.pedido p = k) && Pay.is_open p
            then Pay.fail p else p) <$> m.

(** [order.detalles.all()] *)
Definition order_lines (k : Z) (st : Store) : list OrderDetail.t :=
  (map_to_list (filter (fun kd => OrderDetail.pedido kd.2 = k) (details st))).*2.

(** The loop [for det in order.detalles.all()] of [force_delete]: each
    round reads the product of the line from the store, adds the
    quantity of the line to its stock and saves it. *)
Fixpoint restore_stock (dets : list OrderDetail.t) (st : Store)
  : Store * option Error :=
  match dets with
  | [] => (st, None)
  | det :: rest =>
      match products st !! OrderDetail.producto det with
      | None => (st, Some DoesNotExist)
      | Some prod =>
          restore_stock rest
            (set_products
               (<[OrderDetail.producto det :=
                    Product.set_stock
                      (Product.stock prod + OrderDetail.cantidad det) prod]>
                  (products st)) st)
      end
  end.

(** [force_delete] *)
Definition OrderViewSet_force_delete (u : User.t) (k : Z) (st : Store)
  : Store * Response unit :=
  if negb (User.is_staff u) then (st, Failure Unauthorized)
  else
    match OrderViewSet.get_object u k st with
    | None => (st, Failure NotFound)
    | Some order =>
        let st1 := set_pagos (fail_open k (pagos st)) st in
        let '(st2, err) :=
          if negb (String.eqb (Order.estado order) "cancelado")
          then restore_stock (order_lines k st1) st1
          else (st1, None) in
        match err with
        | Some e => (st2, Failure e)
        | None =>
            let st3 :=
              set_pagos (filter (fun kp => Pay.pedido kp.2 ≠ k) (pagos st2))
                        st2 in
            (Order_delete k st3, Success tt)
        end
    end.

(** The requests on orders, and a sequence of them served one after the
    other. *)
Inductive OrderOp :=
| OpUpdate (u : User.t) (k : Z) (p : OrderViewSet.Patch)
           (detalles : list OrderViewSet.DetalleData)
| OpRemoveDetail (u : User.t) (k detail_id : Z)
| OpCancel (u : User.t) (k : Z)
| OpUpdateTotal (u : User.t) (k : Z)
| OpForceDelete (u : User.t) (k : Z).

Definition run_order (op : OrderOp) (st : Store) : Store :=
  match op with
  | OpUpdate u k p detalles => (OrderViewSet.perform_update u k p detalles st).1
  | OpRemoveDetail u k detail_id => (OrderViewSet.remove_detail u k detail_id st).1
  | OpCancel u k => (OrderViewSet.cancel u k st).1
  | OpUpdateTotal u k => (OrderViewSet_update_total u k st).1
  | OpForceDelete u k => (OrderViewSet_force_delete u k st).1
  end.

Definition run_order_all (ops : list OrderOp) (st : Store) : Store :=
  fold_left (fun s op => run_order op s) ops st.

Definition order_op_user (op : OrderOp) : User.t :=
  match op with
  | OpUpdate u _ _ _ | OpRemoveDetail u _ _ | OpCancel u _
  | OpUpdateTotal u _ | OpForceDelete u _ => u
  end.

(** The units of the product under key [j] on the lines [dets]. *)
Fixpoint line_units (j : Z) (dets : list OrderDetail.t) : Z :=
  match dets with
  | [] => 0
  | det :: rest =>
      (if OrderDetail.producto det =? j then OrderDetail.cantidad det else 0)
      + line_units j rest
  end.

(** What is on sale of the product under key [j]: nothing for a missing
    row, else its available stock. *)
Definition available (st : Store) (j : Z) : option (option Z) :=
  Product.stock_disponible <$> products st !! j.

(** ** Requests on shipments *)

Inductive ShipmentOp :=
| OpShip (data : Shipment.t)
| OpStatus (u : User.t) (k : Z) (nuevo_estado : option string).

Definition run_shipment (op : ShipmentOp) (st : Store) : Store :=
  match op with
  | OpShip data => (ShipmentViewSet.create data st).1
  | OpStatus u k nuevo_estado =>
      (ShipmentViewSet.update_status u k nuevo_estado st).1
  end.

Definition run_shipment_all (ops : list ShipmentOp) (st : Store) : Store :=
  fold_left (fun s op => run_shipment op s) ops st.

(** An order before and after: same owner, total and address, and a
    state that is the old one or one of processing, sent, delivered. *)
Definition order_kept (o o' : Order.t) : Prop :=
  Order.usuario o' = Order.usuario o ∧
  Order.total o' = Order.total o ∧
  Order.direccion_envio o' = Order.direccion_envio o ∧
  (Order.estado o' = Order.estado o ∨
   in_list (Order.estado o') ["procesando"; "enviado"; "entregado"] = true).

(** A shipment before and after: same order, address, carrier and
    tracking number, and a state that is the old one or one of the four
    the view accepts. *)
Definition shipment_kept (s s' : Shipment.t) : Prop :=
  Shipment.pedido s' = Shipment.pedido s ∧
  Shipment.direccion_envio s' = Shipment.direccion_envio s ∧
  Shipment.empresa_envio s' = Shipment.empresa_envio s ∧
  Shipment.numero_guia s' = Shipment.numero_guia s ∧
  (Shipment.estado s' = Shipment.estado s ∨
   in_list (Shipment.estado s') ShipmentViewSet.estados_validos = true).

(** The store after [promote_order]: as before, or with the order under
    key [k] saved in state [e]. *)
Definition promote_order_result (k : Z) (e : string) (st st' : Store) : Prop :=
  st' = st ∨
  ∃ pedido, orders st !! k = Some pedido ∧
            st' = set_orders (<[k := Order.set_estado e pedido]> (orders st)) st.

(** ** [reset_stock_vendido] *)

(** [reset_stock_vendido] for the product under key [pk]: [None] is the
    answer 404, a success carries the available stock of the saved
    product. *)
Definition reset_stock_vendido (pk : Z) (st : Store)
  : Store * option (option Z) :=
  match products st !! pk with
  | None => (st, None)
  | Some producto =>
      let producto1 := Product.set_stock_vendido 0 producto in
      (set_products (<[pk := producto1]> (products st)) st,
       Some (Product.stock_disponible producto1))
  end.

(** ** FavoriteViewSet *)

Module Favorite.
Record t := mk { user : Z; product : Z }.
End Favorite.

(** The table of favourites with its auto-increment counter. *)
Record Favorites := mkFavorites {
  favs : gmap Z Favorite.t;
  next_fav : Z
}.

(** Answers of the actions on favourites: the two 400s, the 404, and the
    exceptions of the database for a product that does not exist and of
    [get] for two matching rows. *)
Inductive FavError :=
| ProductIdRequired
| NotAList
| FavoriteNotFound
| IntegrityError
| FavoriteMultipleObjectsReturned.

(** [request.data.get('product_ids')]: missing or falsy, something that
    is not a list, or a list of keys. *)
Inductive ProductIds :=
| IdsFalsy
| IdsNotAList
| Ids (l : list Z).

Module FavoriteViewSet.

(** The rows of [Favorite.objects.filter(user=u, product_id=pid)]. *)
Definition matching (u pid : Z) (fs : Favorites) : list (Z * Favorite.t) :=
  map_to_list
    (filter (fun kf => Favorite.user kf.2 = u ∧ Favorite.product kf.2 = pid)
            (favs fs)).

(** [Favorite.objects.get_or_create(user=u, product_id=pid)]: the key of
    the row and whether it was created.  The product is a foreign key:
    inserting a row for a product that does not exist is refused by the
    database. *)
Definition get_or_create (prods : gmap Z Product.t) (u pid : Z)
    (fs : Favorites) : Favorites * (FavError + Z * bool) :=
  match matching u pid fs with
  | [] =>
      match prods !! pid with
      | None => (fs, inl IntegrityError)
      | Some _ =>
          (mkFavorites (<[next_fav fs := Favorite.mk u pid]> (favs fs))
                       (next_fav fs + 1),
           inr (next_fav fs, true))
      end
  | [(k, _)] => (fs, inr (k, false))
  | _ :: _ :: _ => (fs, inl FavoriteMultipleObjectsReturned)
  end.

(** [get_queryset]; [uid] is the query parameter [user]. *)
Definition get_queryset (u : User.t) (uid : option Z) (fs : Favorites)
  : gmap Z Favorite.t :=
  if User.is_staff u then
    match uid with
    | Some i => filter (fun kf => Favorite.user kf.2 = i) (favs fs)
    | None => favs fs
    end
  else filter (fun kf => Favorite.user kf.2 = User.id u) (favs fs).

(** [create]; a success tells the key of the row and whether the answer
    is 201 rather than 200. *)
Definition create (prods : gmap Z Product.t) (u : User.t)
    (product_id : option Z) (fs : Favorites)
  : Favorites * (FavError + Z * bool) :=
  match OrderViewSet.truthy product_id with
  | None => (fs, inl ProductIdRequired)
  | Some pid => get_or_create prods (User.id u) pid fs
  end.

(** [destroy] of the row under key [pk], or of the row of the product
    that the query parameter [product_id] names. *)
Definition destroy (u : User.t) (uid product_id : option Z) (pk : Z)
    (fs : Favorites) : Favorites * option FavError :=
  match product_id with
  | Some pid =>
      match matching (User.id u) pid fs with
      | [] => (fs, Some FavoriteNotFound)
      | [(k, _)] => (mkFavorites (delete k (favs fs)) (next_fav fs), None)
      | _ :: _ :: _ => (fs, Some FavoriteMultipleObjectsReturned)
      end
  | None =>
      match get_queryset u uid fs !! pk with
      | None => (fs, Some FavoriteNotFound)
      | Some _ => (mkFavorites (delete pk (favs fs)) (next_fav fs), None)
      end
  end.

(** The loop of [bulk]; [created] counts the new rows. *)
Fixpoint merge (prods : gmap Z Product.t) (u : Z) (ids : list Z)
    (created : Z) (fs : Favorites) : Favorites * (FavError + Z) :=
  match ids with
  | [] => (fs, inr created)
  | pid :: rest =>
      match get_or_create prods u pid fs with
      | (fs1, inl e) => (fs1, inl e)
      | (fs1, inr (_, ok)) =>
          merge prods u rest (if ok then created + 1 else created) fs1
      end
  end.

(** [bulk]; a success gives the number of rows it created. *)
Definition bulk (prods : gmap Z Product.t) (u : User.t) (ids : ProductIds)
    (fs : Favorites) : Favorites * (FavError + Z) :=
  match ids with
  | IdsNotAList => (fs, inl NotAList)
  | IdsFalsy => (fs, inr 0)
  | Ids l => merge prods (User.id u) l 0 fs
  end.

End FavoriteViewSet.

(** The product under key [pid] is a favourite of the user [u]. *)
Definition is_fav (u pid : Z) (fs : Favorites) : Prop :=
  ∃ k, favs fs !! k = Some (Favorite.mk u pid).

(** A table of favourites in order: the counter lies beyond the keys and
    no pair of user and product has two rows. *)
Definition favs_in_order (fs : Favorites) : Prop :=
  fresh_keys (next_fav fs) (favs fs) ∧
  ∀ i j f, favs fs !! i = Some f → favs fs !! j = Some f → i = j.

Module DemoFavs.

Definition none : Favorites := mkFavorites ∅ 1.
Definition wishlist : list Z := [1; 2; 1].

End DemoFavs.

(** No product has a negative stock column. *)
Definition stock_not_negative (prods : gmap Z Product.t) : Prop :=
  ∀ j p, prods !! j = Some p → 0 ≤ Product.stock p.

(** * Properties *)

(** ** Checkout *)

Lemma second_pass_ok_orders k items : ∀ st st',
  CartViewSet.second_pass k items st = (st', None) →
  orders st' = orders st ∧ carts st' = carts st.
Proof.
  induction items as [|it rest IH]; intros st st' H; simpl in H.
  - by inversion H.
  - destruct (products st !! CartItem.producto it) as [p|]; [|done].
    destruct (exceeds_stock (CartItem.cantidad it) p); [done|].
    apply IH in H as [-> ->]. done.
Qed.

Lemma first_pass_error prods items e :
  CartViewSet.first_pass prods items = Some e →
  e = DoesNotExist ∨
  ∃ it p, it ∈ items ∧ prods !! CartItem.producto it = Some p ∧
          exceeds_stock (CartItem.cantidad it) p = true ∧
          e = InsufficientStock (Product.nombre p).
Proof.
  induction items as [|it rest IH]; simpl; [done|].
  destruct (prods !! CartItem.producto it) as [p|] eqn:Hp.
  - destruct (exceeds_stock (CartItem.cantidad it) p) eqn:Hx.
    + intros [= <-]. right. exists it, p. repeat split; try done. left.
    + intros H. destruct (IH H) as [?|(it' & p' & Hin & ?)]; [by left|].
      right. exists it', p'. split; [by right | done].
  - intros [= <-]. by left.
Qed.

(** The first loop fails as soon as some item asks for more than there
    is, provided every item names a product of the catalogue. *)
Lemma first_pass_finds prods items :
  Forall (fun it => is_Some (prods !! CartItem.producto it)) items →
  Exists (fun it => ∃ p, prods !! CartItem.producto it = Some p ∧
                         exceeds_stock (CartItem.cantidad it) p = true) items →
  ∃ e, CartViewSet.first_pass prods items = Some e ∧ e ≠ DoesNotExist.
Proof.
  induction items as [|it rest IH]; intros Hfk Hex; [by inversion Hex|].
  inversion Hfk as [|? ? [p Hp] Hfk']; subst. simpl. rewrite Hp.
  destruct (exceeds_stock (CartItem.cantidad it) p) eqn:Hx; [by eexists|].
  inversion Hex as [? ? (p' & Hp' & Hx')|]; subst; [congruence|].
  by apply IH.
Qed.

Lemma first_pass_passes prods items :
  Forall (fun it => ∃ p, prods !! CartItem.producto it = Some p ∧
                         exceeds_stock (CartItem.cantidad it) p = false) items →
  CartViewSet.first_pass prods items = None.
Proof.
  induction 1 as [|it rest (p & Hp & Hx) _ IH]; simpl; [done|].
  by rewrite Hp, Hx.
Qed.

(** Served alone, the second loop cannot fail after the first one has
    passed, as long as no two items of the cart name the same product:
    each round only touches the product of its own item. *)
Lemma second_pass_passes k items : ∀ st,
  NoDup (CartItem.producto <$> items) →
  Forall (fun it => ∃ p, products st !! CartItem.producto it = Some p ∧
                         exceeds_stock (CartItem.cantidad it) p = false) items →
  ∃ st', CartViewSet.second_pass k items st = (st', None).
Proof.
  induction items as [|it rest IH]; intros st Hnd Hall; simpl; [by eexists|].
  apply NoDup_cons in Hnd as [Hnotin Hnd].
  apply Forall_cons in Hall as [(p & Hp & Hx) Hall].
  rewrite Hp, Hx. apply IH; [done|].
  rewrite Forall_forall in Hall |- *.
  intros it' Hin. destruct (Hall it' Hin) as (p' & Hp' & Hx').
  exists p'. split; [|done].
  simpl. rewrite lookup_insert_ne; [done|].
  intros Heq. apply Hnotin. rewrite Heq. by apply list_elem_of_fmap_2.
Qed.

Lemma get_or_create_existing u st items :
  carts st !! u = Some items → CartViewSet.get_or_create u st = (st, items).
Proof. intros H. unfold CartViewSet.get_or_create. by rewrite H. Qed.

(** What a successful checkout leaves, whatever other requests wrote in
    between: the order is the one created before the second loop, with the
    total of the cart as read at that moment, and the cart is empty. *)
Lemma checkout_with_success env u st st' k tot :
  CartViewSet.checkout_with env u st = (st', Success (k, tot)) →
  let st0 := (CartViewSet.get_or_create (User.id u) st).1 in
  let st1 := env st0 in
  tot = Cart_total (products st1) (default [] (carts st1 !! User.id u)) ∧
  k = next_order st1 ∧
  orders st' !! k = Some (Order.mk (User.id u) "pendiente" tot (User.address u)) ∧
  carts st' !! User.id u = Some [].
Proof.
  unfold CartViewSet.checkout_with.
  destruct (CartViewSet.get_or_create (User.id u) st) as [st0 items]. simpl.
  destruct (length items =? 0)%nat; [done|].
  destruct (CartViewSet.first_pass (products st0) items); [done|].
  destruct (CartViewSet.second_pass _ _ _) as [st3 [e|]] eqn:H2; [done|].
  intros [= <- <- <-].
  apply second_pass_ok_orders in H2 as [Ho Hc]. simpl in *.
  repeat split; [|by rewrite lookup_insert_eq].
  by rewrite Ho, lookup_insert_eq.
Qed.

(** C2. Checkout of a cart: an empty cart is refused with [EmptyCart]; a
    cart with an item that asks for more than the available stock is
    refused with [InsufficientStock] naming such a product; neither
    refusal changes the store.  A checkout that succeeds has created an
    order in state pending whose total is the total of the cart, and has
    emptied the cart; and it does succeed when every item is within stock
    and no two items name the same product. *)
Theorem checkout_outcomes (u : User.t) (st : Store) (items : list CartItem.t) :
  carts st !! User.id u = Some items →
  Forall (fun it => is_Some (products st !! CartItem.producto it)) items →
  (items = [] → CartViewSet.checkout u st = (st, Failure EmptyCart)) ∧
  (Exists (fun it => ∃ p, products st !! CartItem.producto it = Some p ∧
                          exceeds_stock (CartItem.cantidad it) p = true) items →
   ∃ it p, it ∈ items ∧ products st !! CartItem.producto it = Some p ∧
           exceeds_stock (CartItem.cantidad it) p = true ∧
           CartViewSet.checkout u st =
             (st, Failure (InsufficientStock (Product.nombre p)))) ∧
  (∀ st' k tot, CartViewSet.checkout u st = (st', Success (k, tot)) →
     tot = Cart_total (products st) items ∧
     orders st' !! k =
       Some (Order.mk (User.id u) "pendiente" tot (User.address u)) ∧
     carts st' !! User.id u = Some []) ∧
  (items ≠ [] →
   NoDup (CartItem.producto <$> items) →
   Forall (fun it => ∃ p, products st !! CartItem.producto it = Some p ∧
                          exceeds_stock (CartItem.cantidad it) p = false) items →
   ∃ st', CartViewSet.checkout u st =
            (st', Success (next_order st, Cart_total (products st) items))).
Proof.
  intros Hcart Hfk. repeat split.
  - intros ->. unfold CartViewSet.checkout, CartViewSet.checkout_with.
    by rewrite (get_or_create_existing _ _ _ Hcart).
  - intros Hex. unfold CartViewSet.checkout, CartViewSet.checkout_with.
    rewrite (get_or_create_existing _ _ _ Hcart).
    destruct items as [|it0 rest]; [by inversion Hex|]. simpl length. simpl Nat.eqb.
    cbv iota.
    destruct (first_pass_finds _ _ Hfk Hex) as (e & He & Hne).
    rewrite He.
    destruct (first_pass_error _ _ _ He) as [?|(it & p & Hin & Hp & Hx & ->)];
      [done|].
    by exists it, p.
  - unfold CartViewSet.checkout in *.
    apply checkout_with_success in H as (Ht & _ & _ & _). simpl in Ht.
    rewrite (get_or_create_existing _ _ _ Hcart) in Ht. simpl in Ht.
    by rewrite Hcart in Ht.
  - unfold CartViewSet.checkout in *.
    by apply checkout_with_success in H as (_ & _ & Ho & _).
  - unfold CartViewSet.checkout in *.
    by apply checkout_with_success in H as (_ & _ & _ & Hc).
  - intros Hne Hnd Hall.
    unfold CartViewSet.checkout, CartViewSet.checkout_with.
    rewrite (get_or_create_existing _ _ _ Hcart).
    destruct items as [|it0 rest]; [done|]. simpl length. simpl Nat.eqb. cbv iota.
    rewrite (first_pass_passes _ _ Hall). rewrite Hcart. simpl default.
    unfold Order_create.
    edestruct (second_pass_passes (next_order st) (it0 :: rest)) as [st3 H3];
      [exact Hnd | | rewrite H3; by eexists].
    exact Hall.
Qed.

Lemma checkout_outcomes_witness :
  (carts Sample.greedy !! User.id Sample.beto = Some [] ∧
   CartViewSet.checkout Sample.beto Sample.greedy =
     (Sample.greedy, Failure EmptyCart)) ∧
  (carts Sample.greedy !! User.id Sample.ana = Some [CartItem.mk 1 6] ∧
   ∃ it p, it ∈ [CartItem.mk 1 6] ∧
           products Sample.greedy !! CartItem.producto it = Some p ∧
           exceeds_stock (CartItem.cantidad it) p = true ∧
           CartViewSet.checkout Sample.ana Sample.greedy =
             (Sample.greedy, Failure (InsufficientStock (Product.nombre p)))) ∧
  (carts Sample.shop !! User.id Sample.ana = Some Sample.cart_ana ∧
   ∃ st', CartViewSet.checkout Sample.ana Sample.shop =
            (st', Success (1, 3500))).
Proof.
  split; [|split].
  - split; [reflexivity|].
    apply (checkout_outcomes Sample.beto Sample.greedy []);
      [reflexivity | constructor | reflexivity].
  - split; [reflexivity|].
    apply (checkout_outcomes Sample.ana Sample.greedy [CartItem.mk 1 6]).
    + reflexivity.
    + repeat constructor. exists Sample.reloj. reflexivity.
    + constructor. exists Sample.reloj. split; reflexivity.
  - split; [reflexivity|].
    apply (checkout_outcomes Sample.ana Sample.shop Sample.cart_ana).
    + reflexivity.
    + repeat constructor; [exists Sample.reloj | exists Sample.correa]; reflexivity.
    + discriminate.
    + by apply (bool_decide_unpack _).
    + repeat constructor;
        [exists Sample.reloj | exists Sample.correa]; split; reflexivity.
Defined.

(** A user without a cart gets an empty one and the same refusal; the
    products, the orders and their details stay as they are. *)
Lemma checkout_without_cart env u st :
  carts st !! User.id u = None →
  CartViewSet.checkout_with env u st =
    (set_carts (<[User.id u := []]> (carts st)) st, Failure EmptyCart).
Proof.
  intros H. unfold CartViewSet.checkout_with, CartViewSet.get_or_create.
  by rewrite H.
Qed.

(** Three units out of five: the order totals three times the price and
    two units are left. *)
Example checkout_three_of_five :
  (CartViewSet.checkout Sample.ana Sample.three).2 = Success (1, 3000) ∧
  (Product.stock_disponible <$>
     products (CartViewSet.checkout Sample.ana Sample.three).1 !! 1)
  = Some (Some 2).
Proof. split; vm_compute; reflexivity. Qed.

(** Two customers want the last unit, one after the other: the second is
    refused by the first loop and no order is created for them. *)
Example checkout_last_unit :
  let st1 := (CartViewSet.checkout Sample.beto Sample.shop).1 in
  (CartViewSet.checkout Sample.beto Sample.shop).2 = Success (1, 2500) ∧
  CartViewSet.checkout Sample.ana st1 =
    (st1, Failure (InsufficientStock "Correa")).
Proof. split; vm_compute; reflexivity. Qed.

(** The rollback of the second loop: when a round refuses its item, the
    order created for this checkout is gone and so is every detail the
    earlier rounds created for it. *)
Lemma second_pass_rollback k items : ∀ st st' e,
  fresh_keys (next_detail st) (details st) →
  CartViewSet.second_pass k items st = (st', Some e) →
  e ≠ DoesNotExist →
  orders st' = delete k (orders st) ∧
  details st' = filter (fun kd => OrderDetail.pedido kd.2 ≠ k) (details st).
Proof.
  induction items as [|it rest IH]; intros st st' e Hfresh H Hne; simpl in H;
    [done|].
  destruct (products st !! CartItem.producto it) as [p|]; [|congruence].
  destruct (exceeds_stock (CartItem.cantidad it) p).
  - by inversion H.
  - apply IH in H as [Ho Hd]; [|clear H|done].
    + split; [done|]. rewrite Hd. simpl.
      rewrite map_filter_insert_False by (simpl; tauto).
      rewrite delete_id; [done|]. apply Hfresh. lia.
    + intros j Hj. simpl in *. rewrite lookup_insert_ne by lia.
      apply Hfresh. lia.
Qed.

(** A checkout whose second loop refuses an item leaves the tables of
    orders and of details as they were when the order was created. *)
Lemma checkout_with_rollback env u st st' items nombre :
  carts st !! User.id u = Some items →
  let st1 := env st in
  fresh_keys (next_order st1) (orders st1) →
  fresh_keys (next_detail st1) (details st1) →
  (∀ j d, details st1 !! j = Some d →
          is_Some (orders st1 !! OrderDetail.pedido d)) →
  items ≠ [] →
  CartViewSet.first_pass (products st) items = None →
  CartViewSet.checkout_with env u st = (st', Failure (InsufficientStock nombre)) →
  orders st' = orders st1 ∧ details st' = details st1.
Proof.
  intros Hcart st1 Hfo Hfd Hfk Hne H1.
  unfold CartViewSet.checkout_with.
  rewrite (get_or_create_existing _ _ _ Hcart).
  destruct items as [|it0 rest]; [done|]. simpl length. simpl Nat.eqb. cbv iota.
  rewrite H1. fold st1. unfold Order_create.
  destruct (CartViewSet.second_pass _ _ _) as [st3 [e|]] eqn:H2; [|done].
  intros [= <- ->].
  apply second_pass_rollback in H2 as [Ho Hd]; [|done|done]. simpl in *.
  split.
  - rewrite Ho. apply delete_insert_id, Hfo. lia.
  - rewrite Hd. apply map_filter_id. intros j d Hj. simpl.
    destruct (Hfk j d Hj) as [o Ho']. intros Heq. rewrite Heq in Ho'.
    rewrite Hfo in Ho' by lia. done.
Qed.

(** The second loop never touches a product that none of its items
    names. *)
Lemma second_pass_other_products k items : ∀ st st' r j,
  j ∉ CartItem.producto <$> items →
  CartViewSet.second_pass k items st = (st', r) →
  products st' !! j = products st !! j.
Proof.
  induction items as [|it rest IH]; intros st st' r j Hj H; simpl in H.
  - by inversion H.
  - rewrite fmap_cons, not_elem_of_cons in Hj. destruct Hj as [Hne Hj].
    destruct (products st !! CartItem.producto it) as [p|]; [|by inversion H].
    destruct (exceeds_stock (CartItem.cantidad it) p); [by inversion H|].
    rewrite (IH _ _ _ _ Hj H). simpl. by rewrite lookup_insert_ne.
Qed.

(** What the rollback leaves behind: once the loop has accepted an item,
    the raised sold counter of its product stays, whatever happens to the
    items after it. *)
Lemma second_pass_keeps_sale k it rest st st' r p :
  products st !! CartItem.producto it = Some p →
  exceeds_stock (CartItem.cantidad it) p = false →
  CartItem.producto it ∉ CartItem.producto <$> rest →
  CartViewSet.second_pass k (it :: rest) st = (st', r) →
  products st' !! CartItem.producto it =
    Some (Product.set_stock_vendido
            (Product.stock_vendido p + CartItem.cantidad it) p).
Proof.
  intros Hp Hx Hnotin H. simpl in H. rewrite Hp, Hx in H.
  rewrite (second_pass_other_products _ _ _ _ _ _ Hnotin H). simpl.
  by rewrite lookup_insert_eq.
Qed.

(** C1. Checkout is meant to be all or nothing; the code is not.  Two
    carts hold the last unit of one product, and the second customer's
    checkout commits between the two loops of the first customer's.  The
    first customer's second loop accepts its first item, then refuses the
    second one: the request fails with [InsufficientStock], the order and
    its details are gone, but the sold counter of the first product stays
    raised. *)
Theorem checkout_rollback_keeps_sold_counter :
  let st1 := Sample.beto_checks_out Sample.shop in
  let out := CartViewSet.checkout_with Sample.beto_checks_out Sample.ana Sample.shop in
  CartViewSet.first_pass (products Sample.shop) Sample.cart_ana = None ∧
  out.2 = Failure (InsufficientStock "Correa") ∧
  orders out.1 = orders st1 ∧
  details out.1 = details st1 ∧
  Product.stock_vendido <$> products st1 !! 1 = Some 0 ∧
  Product.stock_vendido <$> products out.1 !! 1 = Some 1 ∧
  products out.1 ≠ products st1.
Proof.
  assert (Hv : Product.stock_vendido <$>
                 products (CartViewSet.checkout_with Sample.beto_checks_out
                             Sample.ana Sample.shop).1 !! 1 = Some 1)
    by (vm_compute; reflexivity).
  assert (Hv0 : Product.stock_vendido <$>
                  products (Sample.beto_checks_out Sample.shop) !! 1 = Some 0)
    by (vm_compute; reflexivity).
  repeat split; try (vm_compute; reflexivity).
  simpl. intros Heq. rewrite Heq in Hv. congruence.
Qed.

(** ** Payments *)

Lemma has_open_payment_true k st :
  PaySerializer.has_open_payment k st = true ↔
  ∃ i p, pagos st !! i = Some p ∧ Pay.pedido p = k ∧ Pay.is_open p = true.
Proof.
  unfold PaySerializer.has_open_payment. rewrite bool_decide_eq_true.
  unfold map_Exists. naive_solver.
Qed.

Lemma has_open_payment_false k st :
  PaySerializer.has_open_payment k st = false ↔
  ∀ i p, pagos st !! i = Some p → Pay.pedido p = k → Pay.is_open p = false.
Proof.
  rewrite <- not_true_iff_false, has_open_payment_true. split.
  - intros Hn i p Hi Hk. destruct (Pay.is_open p) eqn:Ho; [|done].
    destruct Hn. eauto.
  - intros H (i & p & Hi & Hk & Ho). rewrite (H i p Hi Hk) in Ho. done.
Qed.

(** What [validate] lets through has passed each of its checks. *)
Lemma validate_inr loads pedido attrs st vd :
  PaySerializer.validate loads pedido attrs st = inr vd →
  PaySerializer.pedido vd = PaySerializer.pedido attrs ∧
  PaySerializer.estado vd = PaySerializer.estado attrs ∧
  PaySerializer.comprobante_archivo vd = PaySerializer.comprobante_archivo attrs ∧
  PaySerializer.comprobante_url vd = PaySerializer.comprobante_url attrs ∧
  PaySerializer.monto_pagado vd = PaySerializer.monto_pagado attrs ∧
  Order.estado pedido ≠ "pagado" ∧
  PaySerializer.has_open_payment (PaySerializer.pedido attrs) st = false.
Proof.
  unfold PaySerializer.validate, PaySerializer.check_pedido.
  destruct (PaySerializer.decode_metadata _ _) as [|[m md]]; [done|].
  destruct (PaySerializer.check_tarjeta _ _); [done|].
  destruct (String.eqb_spec (Order.estado pedido) "pagado"); [done|].
  destruct (PaySerializer.has_open_payment _ _); [done|].
  by intros [= <-].
Qed.

(** What the declared fields hand to [validate]: the order that the
    request names and the fields of the request, with a metadata that is
    a dictionary. *)
Lemma to_internal_value_inr is_url pedidos d pedido attrs :
  PaySerializer.to_internal_value is_url pedidos d = inr (pedido, attrs) →
  pedidos !! PaySerializer.data_pedido d = Some pedido ∧
  PaySerializer.pedido attrs = PaySerializer.data_pedido d ∧
  PaySerializer.metodo attrs = PaySerializer.data_metodo d ∧
  PaySerializer.estado attrs =
    default pendiente (PaySerializer.data_estado d) ∧
  PaySerializer.comprobante_archivo attrs =
    PaySerializer.data_comprobante_archivo d ∧
  PaySerializer.comprobante_url attrs = PaySerializer.data_comprobante_url d ∧
  PaySerializer.monto_pagado attrs = None ∧
  ∃ kv, PaySerializer.metadata attrs = Some (JObj kv) ∧
        PaySerializer.metadata_field (PaySerializer.data_metadata d) =
          Some (JObj kv).
Proof.
  unfold PaySerializer.to_internal_value, PaySerializer.url_field.
  destruct (pedidos !! _) as [o|]; [|done].
  destruct (PaySerializer.metadata_field _) as [m|] eqn:Hm.
  - destruct (String.eqb_spec (PaySerializer.data_comprobante_url d) "")
      as [Hu|Hu].
    + intros [= <- <-]. simpl. rewrite Hu. repeat split.
      destruct (PaySerializer.data_metadata d) as [|[]|]; simpl in Hm;
        try done; injection Hm as <-; by eexists.
    + destruct (is_url _); [|done].
      intros [= <- <-]. simpl. repeat split.
      destruct (PaySerializer.data_metadata d) as [|[]|]; simpl in Hm;
        try done; injection Hm as <-; by eexists.
  - by destruct (if String.eqb _ _ then _ else _).
Qed.

(** The fields that pass with a dictionary for metadata. *)
Lemma to_internal_value_ok is_url pedidos d pedido m :
  pedidos !! PaySerializer.data_pedido d = Some pedido →
  PaySerializer.metadata_field (PaySerializer.data_metadata d) = Some m →
  PaySerializer.url_field is_url (PaySerializer.data_comprobante_url d) =
    Some (PaySerializer.data_comprobante_url d) →
  PaySerializer.to_internal_value is_url pedidos d =
    inr (pedido,
         PaySerializer.mkAttrs (PaySerializer.data_pedido d)
           (PaySerializer.data_metodo d)
           (default pendiente (PaySerializer.data_estado d)) (Some m)
           (PaySerializer.data_comprobante_archivo d)
           (PaySerializer.data_comprobante_url d) None).
Proof.
  intros Hp Hm Hu. unfold PaySerializer.to_internal_value.
  by rewrite Hp, Hm, Hu.
Qed.

(** A request that the declared fields refuse creates nothing. *)
Lemma create_field_errors is_url loads u d st e :
  PaySerializer.to_internal_value is_url (orders st) d = inl e →
  PayViewSet.create is_url loads u d st = (st, Failure e).
Proof. intros H. unfold PayViewSet.create. by rewrite H. Qed.

(** Saving a payment that stays with its order and is open only if it
    was open before keeps the invariant; so does any change of the
    orders. *)
Lemma save_at_most_one_open o k pago pago' st :
  pagos st !! k = Some pago →
  Pay.pedido pago' = Pay.pedido pago →
  (Pay.is_open pago' = true → Pay.is_open pago = true) →
  at_most_one_open o st →
  at_most_one_open o (PayViewSet.save k pago' st).
Proof.
  intros Hk Hped Hopen Hinv i j p q Hi Hj Hp Hq Hop Hoq. simpl in Hi, Hj.
  destruct (decide (i = k)) as [->|Hik], (decide (j = k)) as [->|Hjk];
    [done|..].
  - rewrite lookup_insert_eq in Hi. rewrite lookup_insert_ne in Hj by done.
    injection Hi as <-.
    apply (Hinv k j pago q); auto; congruence.
  - rewrite lookup_insert_eq in Hj. rewrite lookup_insert_ne in Hi by done.
    injection Hj as <-.
    apply (Hinv i k p pago); auto; congruence.
  - rewrite lookup_insert_ne in Hi, Hj by done. eauto.
Qed.

Lemma save_fresh k pago pago' st :
  pagos st !! k = Some pago →
  fresh_keys (next_pago st) (pagos st) →
  fresh_keys (next_pago (PayViewSet.save k pago' st))
             (pagos (PayViewSet.save k pago' st)).
Proof.
  intros Hk Hf j Hj. simpl in *.
  destruct (decide (k = j)) as [->|]; [|by rewrite lookup_insert_ne; auto].
  rewrite (Hf j Hj) in Hk. done.
Qed.

Lemma move_order_pagos k from to st :
  pagos (PayViewSet.move_order k from to st) = pagos st ∧
  next_pago (PayViewSet.move_order k from to st) = next_pago st.
Proof.
  unfold PayViewSet.move_order. destruct (orders st !! k); [|done].
  by destruct (String.eqb _ _).
Qed.

Lemma move_order_at_most_one_open o k from to st :
  at_most_one_open o st →
  at_most_one_open o (PayViewSet.move_order k from to st).
Proof.
  unfold at_most_one_open. by rewrite (proj1 (move_order_pagos k from to st)).
Qed.

Lemma move_order_fresh k from to st :
  fresh_keys (next_pago st) (pagos st) →
  fresh_keys (next_pago (PayViewSet.move_order k from to st))
             (pagos (PayViewSet.move_order k from to st)).
Proof.
  destruct (move_order_pagos k from to st) as [-> ->]. done.
Qed.

(** A payment inserted under a new key for an order without an open
    payment keeps the invariant. *)
Lemma Pay_create_at_most_one_open o pago st :
  fresh_keys (next_pago st) (pagos st) →
  PaySerializer.has_open_payment (Pay.pedido pago) st = false →
  at_most_one_open o st →
  at_most_one_open o (Pay_create pago st).2.
Proof.
  intros Hf Hno Hinv i j p q Hi Hj Hp Hq Hop Hoq. simpl in Hi, Hj.
  rewrite has_open_payment_false in Hno.
  assert (Hnew : pagos st !! next_pago st = None) by (apply Hf; lia).
  destruct (decide (i = next_pago st)) as [->|Hik],
           (decide (j = next_pago st)) as [->|Hjk]; [done|..].
  - rewrite lookup_insert_eq in Hi. rewrite lookup_insert_ne in Hj by done.
    injection Hi as <-. rewrite (Hno j q Hj) in Hoq; [done | congruence].
  - rewrite lookup_insert_eq in Hj. rewrite lookup_insert_ne in Hi by done.
    injection Hj as <-. rewrite (Hno i p Hi) in Hop; [done | congruence].
  - rewrite lookup_insert_ne in Hi, Hj by done. eauto.
Qed.

Lemma Pay_create_fresh pago st :
  fresh_keys (next_pago st) (pagos st) →
  fresh_keys (next_pago (Pay_create pago st).2) (pagos (Pay_create pago st).2).
Proof.
  intros Hf j Hj. simpl in *. rewrite lookup_insert_ne by lia. apply Hf. lia.
Qed.

Lemma PaySerializer_create_pedido pedido vd :
  Pay.pedido (PaySerializer.create pedido vd) = PaySerializer.pedido vd.
Proof. reflexivity. Qed.

(** Every request on payments keeps the invariant and the freshness of
    the counter. *)
Lemma run_invariant is_url loads op st :
  fresh_keys (next_pago st) (pagos st) →
  (∀ o, at_most_one_open o st) →
  fresh_keys (next_pago (PayViewSet.run is_url loads op st))
             (pagos (PayViewSet.run is_url loads op st)) ∧
  (∀ o, at_most_one_open o (PayViewSet.run is_url loads op st)).
Proof.
  intros Hf Hinv.
  destruct op as [u d|u k|u k|u k|u k|u k|u k file url]; simpl.
  - unfold PayViewSet.create.
    destruct (PaySerializer.to_internal_value _ _ _) as [e|[pedido attrs]];
      [done|].
    destruct (PaySerializer.validate _ _ _ _) as [e|vd] eqn:Hv; [done|].
    destruct (negb _ && negb _); [done|].
    destruct (negb (in_list _ _)); [done|].
    apply validate_inr in Hv as (Hped & _ & _ & _ & _ & _ & Hno).
    split; [by apply Pay_create_fresh|].
    intros o. apply Pay_create_at_most_one_open; auto.
    by rewrite PaySerializer_create_pedido, Hped.
  - unfold PayViewSet.complete. destruct (pagos st !! k) as [pago|] eqn:Hk; [|done].
    destruct (negb (Pay.is_open pago)); [done|].
    destruct (negb (User.is_staff u)); [done|]. simpl.
    split; [by eapply save_fresh|].
    intros o. by eapply save_at_most_one_open.
  - unfold PayViewSet.fail. destruct (pagos st !! k) as [pago|] eqn:Hk; [|done].
    destruct (negb (Pay.is_open pago)); [done|].
    destruct (PayViewSet.staff_or_owner _ _ _) as [[]|]; try done. simpl.
    split; [by eapply save_fresh|].
    intros o. by eapply save_at_most_one_open.
  - unfold PayViewSet.review. destruct (pagos st !! k) as [pago|] eqn:Hk; [|done].
    destruct (negb (User.is_staff u)); [done|].
    destruct (bool_decide_reflect (Pay.estado pago = pendiente)) as [He|];
      [|done]. simpl.
    split; [by eapply move_order_fresh, save_fresh|].
    intros o. eapply move_order_at_most_one_open, save_at_most_one_open; eauto.
    intros _. unfold Pay.is_open. by rewrite He.
  - unfold PayViewSet.approve. destruct (pagos st !! k) as [pago|] eqn:Hk; [|done].
    destruct (negb (User.is_staff u)); [done|].
    destruct (bool_decide (Pay.estado pago = en_revision)); [|done]. simpl.
    split; [by eapply save_fresh|].
    intros o. by eapply save_at_most_one_open.
  - unfold PayViewSet.reject. destruct (pagos st !! k) as [pago|] eqn:Hk; [|done].
    destruct (negb (User.is_staff u)); [done|].
    destruct (bool_decide (Pay.estado pago = en_revision)); [|done]. simpl.
    split; [by eapply move_order_fresh, save_fresh|].
    intros o. eapply move_order_at_most_one_open, save_at_most_one_open; eauto.
    done.
  - unfold PayViewSet.proof. destruct (pagos st !! k) as [pago|] eqn:Hk; [|done].
    destruct (PayViewSet.staff_or_owner _ _ _) as [[]|]; try done.
    destruct (bool_decide_reflect (Pay.estado pago = pendiente)) as [He|];
      [|done]. simpl.
    destruct (negb (PaySerializer.has_proof file url)); [done|]. simpl.
    split; [by eapply move_order_fresh, save_fresh|].
    intros o. eapply move_order_at_most_one_open, save_at_most_one_open; eauto.
    + by destruct file, (String.eqb url "").
    + intros _. unfold Pay.is_open. by rewrite He.
Qed.

Lemma run_all_invariant is_url loads ops : ∀ st,
  fresh_keys (next_pago st) (pagos st) →
  (∀ o, at_most_one_open o st) →
  fresh_keys (next_pago (PayViewSet.run_all is_url loads ops st))
             (pagos (PayViewSet.run_all is_url loads ops st)) ∧
  (∀ o, at_most_one_open o (PayViewSet.run_all is_url loads ops st)).
Proof.
  induction ops as [|op ops IH]; intros st Hf Hinv; [done|].
  simpl. destruct (run_invariant is_url loads op st Hf Hinv). by apply IH.
Qed.

(** C3. Along every sequence of requests on payments (create, complete and
    fail, and review, approve, reject and proof as well), each order keeps
    at most one payment that is pending or in review.  A payment for an
    order that has one open is never created: the request is refused, and
    with [DuplicateOpenPayment] once it is past the checks that precede
    this one, those of the declared fields and those of [validate].  A
    payment for an order in state ['pagado'] is refused too. *)
Theorem one_open_payment_per_order (is_url : string -> bool)
    (loads : string -> option JSON) :
  (∀ ops st o,
     fresh_keys (next_pago st) (pagos st) →
     (∀ o', at_most_one_open o' st) →
     at_most_one_open o (PayViewSet.run_all is_url loads ops st)) ∧
  (∀ u d st,
     PaySerializer.has_open_payment (PaySerializer.data_pedido d) st = true →
     ∃ e, PayViewSet.create is_url loads u d st = (st, Failure e) ∧
          (∀ pedido attrs m md,
             PaySerializer.to_internal_value is_url (orders st) d
               = inr (pedido, attrs) →
             PaySerializer.decode_metadata loads (PaySerializer.metadata attrs)
               = inr (m, md) →
             PaySerializer.check_tarjeta (PaySerializer.data_metodo d) md = None →
             Order.estado pedido ≠ "pagado" →
             e = DuplicateOpenPayment)) ∧
  (∀ u d st pedido,
     orders st !! PaySerializer.data_pedido d = Some pedido →
     Order.estado pedido = "pagado" →
     ∃ e, PayViewSet.create is_url loads u d st = (st, Failure e)).
Proof.
  repeat split.
  - intros ops st o Hf Hinv. by apply run_all_invariant.
  - intros u d st Hopen. unfold PayViewSet.create.
    destruct (PaySerializer.to_internal_value _ _ _) as [e|[pedido attrs]]
      eqn:Hi; [eexists; split; [reflexivity | intros; congruence]|].
    destruct (to_internal_value_inr _ _ _ _ _ Hi)
      as (_ & Hped & Hmet & _ & _ & _ & _ & _).
    unfold PaySerializer.validate, PaySerializer.check_pedido.
    rewrite Hped, Hmet.
    destruct (PaySerializer.decode_metadata _ _) as [e|[m md]] eqn:Hd;
      [eexists; split; [reflexivity | intros; congruence]|].
    destruct (PaySerializer.check_tarjeta _ _) as [e|] eqn:Ht;
      [eexists; split; [reflexivity | intros; congruence]|].
    rewrite Hopen.
    destruct (String.eqb_spec (Order.estado pedido) "pagado") as [Hp|Hp];
      eexists; (split; [reflexivity | intros; congruence]).
  - intros u d st pedido Ho Hp. unfold PayViewSet.create.
    destruct (PaySerializer.to_internal_value _ _ _) as [e|[pedido' attrs]]
      eqn:Hi; [by eexists|].
    destruct (to_internal_value_inr _ _ _ _ _ Hi) as (Ho' & _).
    assert (pedido' = pedido) as -> by congruence.
    unfold PaySerializer.validate, PaySerializer.check_pedido.
    destruct (PaySerializer.decode_metadata _ _) as [e|[m md]]; [by eexists|].
    destruct (PaySerializer.check_tarjeta _ _) as [e|]; [by eexists|].
    rewrite Hp. by eexists.
Qed.

Lemma one_open_payment_per_order_witness :
  (fresh_keys (next_pago Sample.one_order) (pagos Sample.one_order) ∧
   (∀ o, at_most_one_open o Sample.one_order) ∧
   at_most_one_open 1
     (PayViewSet.run_all Sample.is_url Sample.loads
        [PayViewSet.OpCreate Sample.ana Sample.transferencia;
         PayViewSet.OpCreate Sample.ana Sample.transferencia;
         PayViewSet.OpFail Sample.ana 1;
         PayViewSet.OpCreate Sample.ana Sample.transferencia]
        Sample.one_order)) ∧
  (PaySerializer.has_open_payment 1 Sample.one_payment = true ∧
   ∃ e, PayViewSet.create Sample.is_url Sample.loads Sample.ana Sample.transferencia
          Sample.one_payment = (Sample.one_payment, Failure e) ∧
        e = DuplicateOpenPayment).
Proof.
  assert (Hf : fresh_keys (next_pago Sample.one_order) (pagos Sample.one_order))
    by (intros k _; apply lookup_empty).
  assert (Hi : ∀ o, at_most_one_open o Sample.one_order).
  { intros o i j p q Hp. simpl in Hp. by rewrite lookup_empty in Hp. }
  split.
  - split; [exact Hf|]. split; [exact Hi|].
    apply (proj1 (one_open_payment_per_order Sample.is_url Sample.loads)); assumption.
  - split; [reflexivity|].
    destruct (proj1 (proj2 (one_open_payment_per_order Sample.is_url Sample.loads))
                Sample.ana Sample.transferencia Sample.one_payment)
      as (e & He & Hdup); [reflexivity|].
    exists e. split; [exact He|].
    apply (Hdup Sample.pedido_ana
             (PaySerializer.mkAttrs 1 "transferencia" pendiente
                (Some (JObj [])) None "" None)
             (Some (JObj [])) (JObj [])); [reflexivity..|discriminate].
Defined.

Lemma move_order_lookup k from to st pedido :
  orders st !! k = Some pedido →
  orders (PayViewSet.move_order k from to st) !! k =
    Some (if String.eqb (Order.estado pedido) from
          then Order.set_estado to pedido else pedido).
Proof.
  intros Ho. unfold PayViewSet.move_order. rewrite Ho.
  destruct (String.eqb _ _); [|done]. simpl. by rewrite lookup_insert_eq.
Qed.

(** [proof] by the owner of the order or by staff, with a file or a URL. *)
Lemma proof_spec u k file url st pago pedido :
  pagos st !! k = Some pago →
  orders st !! Pay.pedido pago = Some pedido →
  PayViewSet.staff_or_owner u (Pay.pedido pago) st = Some true →
  PaySerializer.has_proof file url = true →
  match Pay.estado pago with
  | pendiente =>
      ∃ st' pago',
        PayViewSet.proof u k file url st = (st', Success pago') ∧
        pagos st' !! k = Some pago' ∧
        Pay.estado pago' = en_revision ∧
        Pay.comprobante_archivo pago' =
          match file with Some f => Some f | None => Pay.comprobante_archivo pago end ∧
        Pay.comprobante_url pago' =
          (if String.eqb url "" then Pay.comprobante_url pago else url) ∧
        orders st' !! Pay.pedido pago =
          Some (if String.eqb (Order.estado pedido) "pendiente"
                then Order.set_estado "en_revision" pedido else pedido)
  | from =>
      PayViewSet.proof u k file url st =
        (st, Failure (InvalidStateTransition from en_revision))
  end.
Proof.
  intros Hk Ho Hauth Hproof. unfold PayViewSet.proof.
  rewrite Hk, Hauth, Hproof.
  destruct (Pay.estado pago) eqn:He; simpl; try done.
  eexists _, _. split; [reflexivity|].
  rewrite (proj1 (move_order_pagos _ _ _ _)). simpl. rewrite lookup_insert_eq.
  repeat split.
  - by destruct file, (String.eqb url "").
  - by destruct file, (String.eqb url "").
  - by apply move_order_lookup.
Qed.

(** [fail] by the owner of the order or by staff. *)
Lemma fail_spec u k st pago :
  pagos st !! k = Some pago →
  PayViewSet.staff_or_owner u (Pay.pedido pago) st = Some true →
  match Pay.estado pago with
  | pendiente | en_revision =>
      ∃ st',
        PayViewSet.fail u k st = (st', Success (Pay.fail pago)) ∧
        pagos st' !! k = Some (Pay.fail pago) ∧
        Pay.estado (Pay.fail pago) = fallido ∧
        orders st' = orders st
  | from =>
      PayViewSet.fail u k st = (st, Failure (InvalidStateTransition from fallido))
  end.
Proof.
  intros Hk Hauth. unfold PayViewSet.fail, Pay.is_open. rewrite Hk.
  destruct (Pay.estado pago) eqn:He; simpl; try done; rewrite Hauth;
    (eexists; split; [reflexivity|]; simpl; by rewrite lookup_insert_eq).
Qed.

(** [reject] by staff. *)
Lemma reject_spec u k st pago pedido :
  pagos st !! k = Some pago →
  orders st !! Pay.pedido pago = Some pedido →
  User.is_staff u = true →
  match Pay.estado pago with
  | en_revision =>
      ∃ st',
        PayViewSet.reject u k st = (st', Success (Pay.fail pago)) ∧
        pagos st' !! k = Some (Pay.fail pago) ∧
        Pay.estado (Pay.fail pago) = fallido ∧
        orders st' !! Pay.pedido pago =
          Some (if String.eqb (Order.estado pedido) "en_revision"
                then Order.set_estado "pendiente" pedido else pedido)
  | from =>
      PayViewSet.reject u k st =
        (st, Failure (InvalidStateTransition from fallido))
  end.
Proof.
  intros Hk Ho Hstaff. unfold PayViewSet.reject. rewrite Hk, Hstaff.
  destruct (Pay.estado pago) eqn:He; simpl; try done.
  eexists. split; [reflexivity|].
  rewrite (proj1 (move_order_pagos _ _ _ _)). simpl. rewrite lookup_insert_eq.
  repeat split. by apply move_order_lookup.
Qed.

(** C4, as the code has it.  For a caller allowed to act on the payment:
    [proof] succeeds only from pending, attaches the file or the URL,
    moves the payment to in review and the order from pending to in
    review; [fail] succeeds from pending and from in review and moves the
    payment to failed, the orders staying as they are; [reject] succeeds
    only from in review, moves the payment to failed and the order from in
    review back to pending.  From every other state the request is
    refused and the store is unchanged. *)
Theorem payment_transitions u k file url st pago pedido :
  pagos st !! k = Some pago →
  orders st !! Pay.pedido pago = Some pedido →
  PayViewSet.staff_or_owner u (Pay.pedido pago) st = Some true →
  PaySerializer.has_proof file url = true →
  match Pay.estado pago with
  | pendiente =>
      ∃ st' pago',
        PayViewSet.proof u k file url st = (st', Success pago') ∧
        pagos st' !! k = Some pago' ∧
        Pay.estado pago' = en_revision ∧
        Pay.comprobante_archivo pago' =
          match file with Some f => Some f | None => Pay.comprobante_archivo pago end ∧
        Pay.comprobante_url pago' =
          (if String.eqb url "" then Pay.comprobante_url pago else url) ∧
        orders st' !! Pay.pedido pago =
          Some (if String.eqb (Order.estado pedido) "pendiente"
                then Order.set_estado "en_revision" pedido else pedido)
  | from =>
      PayViewSet.proof u k file url st =
        (st, Failure (InvalidStateTransition from en_revision))
  end ∧
  match Pay.estado pago with
  | pendiente | en_revision =>
      ∃ st',
        PayViewSet.fail u k st = (st', Success (Pay.fail pago)) ∧
        pagos st' !! k = Some (Pay.fail pago) ∧
        Pay.estado (Pay.fail pago) = fallido ∧
        orders st' = orders st
  | from =>
      PayViewSet.fail u k st = (st, Failure (InvalidStateTransition from fallido))
  end ∧
  (User.is_staff u = true →
   match Pay.estado pago with
   | en_revision =>
       ∃ st',
         PayViewSet.reject u k st = (st', Success (Pay.fail pago)) ∧
         pagos st' !! k = Some (Pay.fail pago) ∧
         Pay.estado (Pay.fail pago) = fallido ∧
         orders st' !! Pay.pedido pago =
           Some (if String.eqb (Order.estado pedido) "en_revision"
                 then Order.set_estado "pendiente" pedido else pedido)
   | from =>
       PayViewSet.reject u k st =
         (st, Failure (InvalidStateTransition from fallido))
   end).
Proof.
  intros Hk Ho Hauth Hproof. split; [|split].
  - by apply proof_spec.
  - by apply fail_spec.
  - intros Hstaff. by apply reject_spec.
Qed.

(** C4, as stated, fails: staff reject a pending payment and are
    refused, the payment staying pending. *)
Lemma reject_refuses_pending :
  pagos Sample.one_payment !! 1 = Some Sample.pago_ana ∧
  Pay.estado Sample.pago_ana = pendiente ∧
  User.is_staff Sample.admin = true ∧
  PayViewSet.reject Sample.admin 1 Sample.one_payment =
    (Sample.one_payment, Failure (InvalidStateTransition pendiente fallido)).
Proof. repeat split; vm_compute; reflexivity. Qed.

Lemma payment_transitions_witness :
  (pagos Sample.one_payment !! 1 = Some Sample.pago_ana ∧
   orders Sample.one_payment !! 1 = Some Sample.pedido_ana ∧
   (∃ st' pago',
      PayViewSet.proof Sample.admin 1 None Sample.recibo Sample.one_payment =
        (st', Success pago') ∧
      Pay.estado pago' = en_revision ∧
      Pay.comprobante_url pago' = Sample.recibo ∧
      Order.estado <$> orders st' !! 1 = Some "en_revision") ∧
   PayViewSet.reject Sample.admin 1 Sample.one_payment =
     (Sample.one_payment, Failure (InvalidStateTransition pendiente fallido))) ∧
  (∃ st',
     PayViewSet.reject Sample.admin 1 Sample.under_review =
       (st', Success (Pay.fail (Pay.set_estado en_revision
                                 (Pay.set_comprobante_url Sample.recibo
                                    Sample.pago_ana)))) ∧
     Order.estado <$> orders st' !! 1 = Some "pendiente").
Proof.
  split.
  - split; [reflexivity|]. split; [reflexivity|].
    destruct (payment_transitions Sample.admin 1 None Sample.recibo
                Sample.one_payment Sample.pago_ana Sample.pedido_ana)
      as (Hproof & _ & Hreject); [reflexivity..|].
    simpl in Hproof, Hreject. split.
    + destruct Hproof as (st' & pago' & Hp & _ & He & _ & Hu & Ho).
      exists st', pago'. repeat split; [exact Hp | exact He | exact Hu |].
      simpl in Ho. rewrite Ho. reflexivity.
    + apply Hreject. reflexivity.
  - destruct (payment_transitions Sample.admin 1 None Sample.recibo
                Sample.under_review
                (Pay.set_estado en_revision
                   (Pay.set_comprobante_url Sample.recibo Sample.pago_ana))
                (Order.set_estado "en_revision" Sample.pedido_ana))
      as (_ & _ & Hreject); [reflexivity..|].
    destruct (Hreject eq_refl) as (st' & Hr & _ & _ & Ho).
    exists st'. split; [exact Hr|]. simpl in Ho. rewrite Ho. reflexivity.
Defined.

(** ** Orders *)

Lemma get_object_Some u k st o :
  OrderViewSet.get_object u k st = Some o ↔
  orders st !! k = Some o ∧
  (User.is_staff u = true ∨ Order.usuario o = User.id u).
Proof.
  unfold OrderViewSet.get_object, OrderViewSet.get_queryset.
  destruct (User.is_staff u).
  - split; [intros H; split; [done | by left] | by intros [? _]].
  - rewrite map_lookup_filter_Some. simpl.
    split; [intros [? ?]; split; [done | by right] | by intros [? [?|?]]].
Qed.

(** An order that is not locked can lose a line: the two units go back
    to the stock column of the product and the total is recomputed. *)
Example remove_detail_returns_stock :
  let out := OrderViewSet.remove_detail Sample.ana 1 1 Sample.with_line in
  out.2 = Success 0 ∧
  Product.stock <$> products Sample.with_line !! 1 = Some 5 ∧
  Product.stock <$> products out.1 !! 1 = Some 7 ∧
  details out.1 = ∅ ∧
  Order.total <$> orders out.1 !! 1 = Some 0.
Proof. repeat split; vm_compute; reflexivity. Qed.

(** An update of two lines whose second one asks for more than the stock:
    the request is refused, the change of the first line stays. *)
Example perform_update_keeps_earlier_lines :
  let out :=
    OrderViewSet.perform_update Sample.ana 1 (OrderViewSet.mkPatch None None None)
      [OrderViewSet.mkDetalleData (Some 1) 5 (Some 1);
       OrderViewSet.mkDetalleData (Some 2) 3 None] Sample.with_line in
  out.2 = Failure (InsufficientStock "Correa") ∧
  OrderDetail.cantidad <$> details out.1 !! 1 = Some 5 ∧
  Product.stock <$> products out.1 !! 1 = Some 2.
Proof. repeat split; vm_compute; reflexivity. Qed.

(** C5. [cancel] refuses an order that is cancelled already, and one that
    is neither pending nor processing, and leaves the store as it is.
    Otherwise it sets the state to cancelled and touches neither the
    products nor the details: no stock goes back.  Cancelling again is
    refused, the order staying cancelled. *)
Theorem cancel_spec u k st order :
  orders st !! k = Some order →
  (Order.estado order = "cancelado" ∨
   in_list (Order.estado order) ["pendiente"; "procesando"] = false →
   ∃ e, OrderViewSet.cancel u k st = (st, Failure e) ∧
        (OrderViewSet.get_object u k st = Some order →
         e = if String.eqb (Order.estado order) "cancelado"
             then AlreadyCancelled
             else NotCancellable (Order.estado order))) ∧
  (OrderViewSet.get_object u k st = Some order →
   in_list (Order.estado order) ["pendiente"; "procesando"] = true →
   ∃ st',
     OrderViewSet.cancel u k st = (st', Success tt) ∧
     orders st' !! k = Some (Order.set_estado "cancelado" order) ∧
     products st' = products st ∧
     details st' = details st ∧
     OrderViewSet.cancel u k st' = (st', Failure AlreadyCancelled)).
Proof.
  intros Ho. split.
  - intros Hbad. unfold OrderViewSet.cancel.
    destruct (OrderViewSet.get_object u k st) as [o|] eqn:Hget;
      [|eexists; split; [reflexivity | done]].
    assert (o = order) as ->.
    { apply get_object_Some in Hget as [Hget _]. congruence. }
    destruct (String.eqb_spec (Order.estado order) "cancelado") as [He|Hne].
    + eexists. split; [reflexivity | done].
    + destruct Hbad as [He|Hin]; [done|]. rewrite Hin. simpl.
      eexists. split; [reflexivity | done].
  - intros Hget Hin. unfold OrderViewSet.cancel at 1. rewrite Hget, Hin.
    destruct (String.eqb_spec (Order.estado order) "cancelado") as [He|_].
    { rewrite He in Hin. discriminate. }
    eexists. split; [reflexivity|]. simpl.
    split; [by rewrite lookup_insert_eq|]. do 2 (split; [done|]).
    unfold OrderViewSet.cancel.
    apply get_object_Some in Hget as [_ Hvis].
    assert (Hget' : OrderViewSet.get_object u k
                      (set_orders (<[k:=Order.set_estado "cancelado" order]>
                                     (orders st)) st)
                    = Some (Order.set_estado "cancelado" order)).
    { apply get_object_Some. simpl. by rewrite lookup_insert_eq. }
    by rewrite Hget'.
Qed.

Lemma cancel_spec_witness :
  orders Sample.one_order !! 1 = Some Sample.pedido_ana ∧
  OrderViewSet.get_object Sample.ana 1 Sample.one_order = Some Sample.pedido_ana ∧
  in_list (Order.estado Sample.pedido_ana) ["pendiente"; "procesando"] = true ∧
  (∃ st',
     OrderViewSet.cancel Sample.ana 1 Sample.one_order = (st', Success tt) ∧
     orders st' !! 1 = Some (Order.set_estado "cancelado" Sample.pedido_ana) ∧
     products st' = products Sample.one_order ∧
     details st' = details Sample.one_order ∧
     OrderViewSet.cancel Sample.ana 1 st' = (st', Failure AlreadyCancelled)) ∧
  (orders Sample.delivered !! 1 = Some Sample.pedido_entregado ∧
   ∃ e, OrderViewSet.cancel Sample.ana 1 Sample.delivered =
          (Sample.delivered, Failure e) ∧
        e = NotCancellable "entregado").
Proof.
  do 3 (split; [reflexivity|]). split.
  - apply (cancel_spec Sample.ana 1 Sample.one_order Sample.pedido_ana);
      reflexivity.
  - split; [reflexivity|].
    destruct (cancel_spec Sample.ana 1 Sample.delivered Sample.pedido_entregado
                eq_refl) as [Hbad _].
    destruct (Hbad (or_intror eq_refl)) as (e & He & Hwhich).
    exists e. split; [exact He|]. apply Hwhich. reflexivity.
Defined.

(** C6. An order that is delivered or cancelled is locked: [perform_update]
    with any fields and any detail changes, [remove_detail] of any line
    and [cancel] are refused and leave the whole store, so the order, its
    details and the stock of the products, as it was.  The refusal is
    [OrderLocked] for the first two whenever the caller can see the
    order. *)
Theorem terminal_order_locked u k st order :
  orders st !! k = Some order →
  in_list (Order.estado order) ["entregado"; "cancelado"] = true →
  (∀ p detalles_data, ∃ e,
     OrderViewSet.perform_update u k p detalles_data st = (st, Failure e) ∧
     (OrderViewSet.get_object u k st = Some order →
      e = OrderLocked (Order.estado order))) ∧
  (∀ detail_id, ∃ e,
     OrderViewSet.remove_detail u k detail_id st = (st, Failure e) ∧
     (OrderViewSet.get_object u k st = Some order →
      e = OrderLocked (Order.estado order))) ∧
  (∃ e, OrderViewSet.cancel u k st = (st, Failure e)).
Proof.
  intros Ho Hterm.
  assert (Hget : OrderViewSet.get_object u k st = Some order ∨
                 OrderViewSet.get_object u k st = None).
  { destruct (OrderViewSet.get_object u k st) as [o|] eqn:Hg; [|by right].
    left. apply get_object_Some in Hg as [Hg _]. congruence. }
  repeat split.
  - intros p dd. unfold OrderViewSet.perform_update.
    destruct Hget as [-> | ->]; [rewrite Hterm|]; eexists; split; done.
  - intros detail_id. unfold OrderViewSet.remove_detail.
    destruct Hget as [-> | ->]; [rewrite Hterm|]; eexists; split; done.
  - unfold OrderViewSet.cancel.
    destruct Hget as [-> | ->]; [|by eexists].
    destruct (String.eqb (Order.estado order) "cancelado"); [by eexists|].
    assert (in_list (Order.estado order) ["pendiente"; "procesando"] = false)
      as ->; [|by eexists].
    revert Hterm. unfold in_list. simpl.
    destruct (String.eqb_spec (Order.estado order) "entregado") as [->|];
      [done|].
    destruct (String.eqb_spec (Order.estado order) "cancelado") as [->|];
      [done|]. done.
Qed.

Lemma terminal_order_locked_witness :
  orders Sample.delivered !! 1 = Some Sample.pedido_entregado ∧
  in_list (Order.estado Sample.pedido_entregado) ["entregado"; "cancelado"] = true ∧
  (∃ e, OrderViewSet.perform_update Sample.ana 1
          (OrderViewSet.mkPatch None (Some "pendiente") None)
          [OrderViewSet.mkDetalleData (Some 1) 5 (Some 1)] Sample.delivered
        = (Sample.delivered, Failure e) ∧ e = OrderLocked "entregado") ∧
  (∃ e, OrderViewSet.remove_detail Sample.ana 1 1 Sample.delivered
        = (Sample.delivered, Failure e) ∧ e = OrderLocked "entregado").
Proof.
  split; [reflexivity|]. split; [reflexivity|].
  destruct (terminal_order_locked Sample.ana 1 Sample.delivered
              Sample.pedido_entregado) as (Hu & Hr & _); [reflexivity..|].
  split.
  - destruct (Hu (OrderViewSet.mkPatch None (Some "pendiente") None)
                [OrderViewSet.mkDetalleData (Some 1) 5 (Some 1)])
      as (e & He & Hlock).
    exists e. split; [exact He|]. apply Hlock. reflexivity.
  - destruct (Hr 1) as (e & He & Hlock).
    exists e. split; [exact He|]. apply Hlock. reflexivity.
Defined.

(** ** Validation of the metadata *)

Lemma py_in_JObj k kv :
  PaySerializer.py_in k (JObj kv) = Some (bool_decide (k ∈ kv.*1)).
Proof.
  unfold PaySerializer.py_in. f_equal. symmetry.
  destruct (existsb _ kv) eqn:H.
  - apply bool_decide_eq_true.
    apply existsb_exists in H as ([k' v] & Hin & Heq).
    apply String.eqb_eq in Heq. simpl in Heq. subst k'.
    apply list_elem_of_fmap. exists (k, v). split; [done|].
    by apply list_elem_of_In.
  - apply bool_decide_eq_false. intros Hin.
    apply list_elem_of_fmap in Hin as ([k' v] & -> & Hin).
    assert (existsb (fun e => String.eqb k' e.1) kv = true) as Hc; [|simpl in *; congruence].
    apply existsb_exists. exists (k', v).
    split; [by apply list_elem_of_In | apply String.eqb_refl].
Qed.

Lemma any_in_JObj_true ks kv :
  (∃ k, k ∈ ks ∧ k ∈ kv.*1) →
  PaySerializer.any_in ks (JObj kv) = Some true.
Proof.
  induction ks as [|k ks IH]; intros (k' & Hk' & Hin).
  - by apply elem_of_nil in Hk'.
  - cbn [PaySerializer.any_in]. rewrite py_in_JObj.
    destruct (bool_decide_reflect (k ∈ kv.*1)) as [|Hnotin]; [done|].
    apply IH. apply elem_of_cons in Hk' as [->|Hk']; [done|]. by exists k'.
Qed.

Lemma any_in_JObj_false ks kv :
  ¬ (∃ k, k ∈ ks ∧ k ∈ kv.*1) →
  PaySerializer.any_in ks (JObj kv) = Some false.
Proof.
  induction ks as [|k ks IH]; intros Hno; [done|].
  cbn [PaySerializer.any_in]. rewrite py_in_JObj.
  destruct (bool_decide_reflect (k ∈ kv.*1)) as [Hin|_].
  - destruct Hno. exists k. split; [left|done].
  - apply IH. intros (k' & Hk' & Hin). apply Hno. exists k'.
    split; [by right|done].
Qed.

Lemma check_tarjeta_sensitive kv :
  sensitive kv →
  PaySerializer.check_tarjeta "tarjeta" (JObj kv) = Some ForbiddenSensitiveData.
Proof.
  intros Hs. unfold PaySerializer.check_tarjeta. simpl String.eqb. cbv iota.
  by rewrite any_in_JObj_true.
Qed.

Lemma check_tarjeta_clean kv :
  ¬ sensitive kv →
  PaySerializer.check_tarjeta "tarjeta" (JObj kv) = None.
Proof.
  intros Hs. unfold PaySerializer.check_tarjeta. simpl String.eqb. cbv iota.
  by rewrite any_in_JObj_false.
Qed.

(** A decoded value that is no container makes the key test raise. *)
Example check_tarjeta_number :
  PaySerializer.check_tarjeta "tarjeta" (JNum 5) = Some TypeError.
Proof. reflexivity. Qed.

Lemma decode_metadata_JObj loads kv :
  PaySerializer.decode_metadata loads (Some (JObj kv)) =
    inr (Some (JObj kv), JObj kv).
Proof. by destruct kv. Qed.

Lemma decode_metadata_JStr loads s :
  s ≠ "" →
  PaySerializer.decode_metadata loads (Some (JStr s)) =
    match loads s with
    | None => inl InvalidMetadata
    | Some v => inr (Some v, v)
    end.
Proof.
  intros Hs. unfold PaySerializer.decode_metadata. simpl.
  by destruct (String.eqb_spec s "").
Qed.

(** A blank string is taken for no metadata at all; it is not decoded. *)
Lemma decode_metadata_blank loads :
  PaySerializer.decode_metadata loads (Some (JStr "")) =
    inr (Some (JStr ""), JObj []).
Proof. reflexivity. Qed.

(** A request that passes the declared fields and that [validate]
    refuses creates nothing. *)
Lemma create_refused is_url loads u d st pedido attrs e :
  PaySerializer.to_internal_value is_url (orders st) d = inr (pedido, attrs) →
  PaySerializer.validate loads pedido attrs st = inl e →
  PayViewSet.create is_url loads u d st = (st, Failure e).
Proof. intros Hi Hv. unfold PayViewSet.create. by rewrite Hi, Hv. Qed.

(** The text that a form body sends under [metadata] is never read: the
    request is served as if the key were missing. *)
Lemma form_metadata_dropped is_url loads u s st dp dm de da du :
  PayViewSet.create is_url loads u
    (PaySerializer.mkData dp dm de (PaySerializer.FormMetadata s) da du) st =
  PayViewSet.create is_url loads u
    (PaySerializer.mkData dp dm de PaySerializer.NoMetadata da du) st.
Proof. reflexivity. Qed.

(** A string is no dictionary: in a JSON body the field refuses it,
    whatever [json.loads] would make of it. *)
Lemma json_string_metadata_refused is_url loads u d s st :
  PaySerializer.data_metadata d = PaySerializer.JsonMetadata (JStr s) →
  ∃ fields,
    PayViewSet.create is_url loads u d st = (st, Failure (FieldErrors fields)) ∧
    "metadata" ∈ fields.
Proof.
  intros Hm. unfold PayViewSet.create, PaySerializer.to_internal_value.
  rewrite Hm. simpl.
  destruct (orders st !! _), (PaySerializer.url_field _ _); simpl;
    eexists; (split; [reflexivity|]); repeat constructor.
Qed.

(** A payment by card whose metadata dictionary has a forbidden key is
    refused, with [ForbiddenSensitiveData] when the other fields pass. *)
Lemma card_dict_refused is_url loads u d st kv :
  PaySerializer.data_metodo d = "tarjeta" →
  PaySerializer.data_metadata d = PaySerializer.JsonMetadata (JObj kv) →
  sensitive kv →
  ∃ e, PayViewSet.create is_url loads u d st = (st, Failure e) ∧
       (is_Some (orders st !! PaySerializer.data_pedido d) →
        is_Some (PaySerializer.url_field is_url
                   (PaySerializer.data_comprobante_url d)) →
        e = ForbiddenSensitiveData).
Proof.
  intros Hm Hmd Hs.
  destruct (PaySerializer.to_internal_value is_url (orders st) d)
    as [e|[pedido attrs]] eqn:Hi.
  - exists e. split; [by apply create_field_errors|].
    intros [o Ho] [url Hu]. revert Hi.
    unfold PaySerializer.to_internal_value. by rewrite Ho, Hmd, Hu.
  - exists ForbiddenSensitiveData. split; [|done].
    apply (create_refused _ _ _ _ _ pedido attrs); [done|].
    destruct (to_internal_value_inr _ _ _ _ _ Hi)
      as (_ & _ & Hmet & _ & _ & _ & _ & kv' & Hkv & Hf).
    rewrite Hmd in Hf. simpl in Hf. injection Hf as <-.
    unfold PaySerializer.validate. rewrite Hkv, Hmet, Hm.
    rewrite decode_metadata_JObj. by rewrite check_tarjeta_sensitive.
Qed.

(** C7. Card data must not pass, and metadata that arrives as text is to
    be decoded before the check: [validate] has the branch, for the text
    of a multipart body by its own comment, and handed the text of a JSON
    object with the key [cvv] it answers [ForbiddenSensitiveData], handed
    a text that is no JSON [InvalidMetadata].  Behind the endpoint the
    branch is never reached.  [metadata] is declared a [DictField], which
    reads none of the text that a form body sends under that key: the two
    requests by card create the payment, with an empty metadata, as does
    any form request whatever its text.  In a JSON body the same text is
    refused by the field without being decoded; only a dictionary reaches
    the check, and one with the key [cvv] is refused. *)
Theorem raw_metadata_skips_validation :
  let attrs s :=
    PaySerializer.mkAttrs 1 "tarjeta" pendiente (Some (JStr s)) None "" None in
  let post m :=
    PayViewSet.create Sample.is_url Sample.loads Sample.ana (Sample.tarjeta m)
      Sample.one_order in
  PaySerializer.validate Sample.loads Sample.pedido_ana
    (attrs Sample.cvv_json) Sample.one_order = inl ForbiddenSensitiveData ∧
  PaySerializer.validate Sample.loads Sample.pedido_ana
    (attrs Sample.no_json) Sample.one_order = inl InvalidMetadata ∧
  (post (PaySerializer.FormMetadata Sample.cvv_json)).2 = Success 1 ∧
  Pay.metadata <$>
    pagos (post (PaySerializer.FormMetadata Sample.cvv_json)).1 !! 1
    = Some (JObj []) ∧
  (post (PaySerializer.FormMetadata Sample.no_json)).2 = Success 1 ∧
  post (PaySerializer.JsonMetadata (JStr Sample.cvv_json)) =
    (Sample.one_order, Failure (FieldErrors ["metadata"])) ∧
  post (PaySerializer.JsonMetadata (JObj [("cvv", JNum 123)])) =
    (Sample.one_order, Failure ForbiddenSensitiveData) ∧
  (∀ is_url loads u s st dp dm de da du,
     PayViewSet.create is_url loads u
       (PaySerializer.mkData dp dm de (PaySerializer.FormMetadata s) da du) st =
     PayViewSet.create is_url loads u
       (PaySerializer.mkData dp dm de PaySerializer.NoMetadata da du) st).
Proof.
  intros attrs post. subst attrs post. cbv beta.
  split; [vm_compute; reflexivity|].
  split; [vm_compute; reflexivity|].
  split; [vm_compute; reflexivity|].
  split; [vm_compute; reflexivity|].
  split; [vm_compute; reflexivity|].
  split; [vm_compute; reflexivity|].
  split; [vm_compute; reflexivity|].
  intros. apply form_metadata_dropped.
Qed.

(** ** Shipments *)

Lemma promote_order_lookup k e st pedido :
  orders st !! k = Some pedido →
  orders (ShipmentViewSet.promote_order k e st) !! k =
    Some (Order.set_estado e pedido).
Proof.
  intros Ho. unfold ShipmentViewSet.promote_order. rewrite Ho.
  destruct (String.eqb_spec (Order.estado pedido) e) as [<-|_]; simpl.
  - rewrite Ho. by destruct pedido.
  - by rewrite lookup_insert_eq.
Qed.

Lemma promote_order_envios k e st :
  envios (ShipmentViewSet.promote_order k e st) = envios st.
Proof.
  unfold ShipmentViewSet.promote_order. destruct (orders st !! k); [|done].
  by destruct (negb _).
Qed.

(** C8. Creating a shipment for a pending order moves the order to
    processing.  An update of the shipment to ['en camino'] moves the
    order to sent, an update to ['entregado'] moves it to delivered; the
    shipment takes the requested state. *)
Theorem shipment_moves_order :
  (∀ data st pedido,
     orders st !! Shipment.pedido data = Some pedido →
     Order.estado pedido = "pendiente" →
     ∃ k st',
       ShipmentViewSet.create data st = (st', Success k) ∧
       envios st' !! k = Some data ∧
       orders st' !! Shipment.pedido data =
         Some (Order.set_estado "procesando" pedido)) ∧
  (∀ u k st shipment pedido,
     User.is_staff u = true →
     envios st !! k = Some shipment →
     orders st !! Shipment.pedido shipment = Some pedido →
     ∃ st',
       ShipmentViewSet.update_status u k (Some "en camino") st =
         (st', Success tt) ∧
       envios st' !! k = Some (Shipment.set_estado "en camino" shipment) ∧
       orders st' !! Shipment.pedido shipment =
         Some (Order.set_estado "enviado" pedido)) ∧
  (∀ u k st shipment pedido,
     User.is_staff u = true →
     envios st !! k = Some shipment →
     orders st !! Shipment.pedido shipment = Some pedido →
     ∃ st',
       ShipmentViewSet.update_status u k (Some "entregado") st =
         (st', Success tt) ∧
       envios st' !! k = Some (Shipment.set_estado "entregado" shipment) ∧
       orders st' !! Shipment.pedido shipment =
         Some (Order.set_estado "entregado" pedido)).
Proof.
  repeat split.
  - intros data st pedido Ho He. unfold ShipmentViewSet.create.
    rewrite Ho. unfold ShipmentSerializer.validate, ShipmentSerializer.create.
    rewrite He. simpl. eexists _, _. split; [reflexivity|]. simpl.
    by rewrite !lookup_insert_eq.
  - intros u k st shipment pedido Hu Hk Ho.
    unfold ShipmentViewSet.update_status. rewrite Hu, Hk. simpl.
    eexists. split; [reflexivity|]. simpl.
    rewrite promote_order_envios, lookup_insert_eq.
    split; [done|]. by apply promote_order_lookup.
  - intros u k st shipment pedido Hu Hk Ho.
    unfold ShipmentViewSet.update_status. rewrite Hu, Hk. simpl.
    eexists. split; [reflexivity|]. simpl.
    rewrite promote_order_envios, lookup_insert_eq.
    split; [done|]. by apply promote_order_lookup.
Qed.

Lemma shipment_moves_order_witness :
  (orders Sample.one_order !! 1 = Some Sample.pedido_ana ∧
   ∃ k st',
     ShipmentViewSet.create Sample.envio_ana Sample.one_order = (st', Success k) ∧
     Order.estado <$> orders st' !! 1 = Some "procesando") ∧
  (envios Sample.shipped !! 1 = Some Sample.envio_ana ∧
   ∃ st',
     ShipmentViewSet.update_status Sample.admin 1 (Some "en camino")
       Sample.shipped = (st', Success tt) ∧
     Shipment.estado <$> envios st' !! 1 = Some "en camino" ∧
     Order.estado <$> orders st' !! 1 = Some "enviado") ∧
  (∃ st',
     ShipmentViewSet.update_status Sample.admin 1 (Some "entregado")
       Sample.shipped = (st', Success tt) ∧
     Order.estado <$> orders st' !! 1 = Some "entregado").
Proof.
  destruct shipment_moves_order as (Hc & Ht & Hd).
  split; [|split].
  - split; [reflexivity|].
    destruct (Hc Sample.envio_ana Sample.one_order Sample.pedido_ana)
      as (k & st' & Hr & _ & Ho); [reflexivity..|].
    exists k, st'. split; [exact Hr|]. simpl in Ho. rewrite Ho. reflexivity.
  - split; [reflexivity|].
    destruct (Ht Sample.admin 1 Sample.shipped Sample.envio_ana
                (Order.set_estado "procesando" Sample.pedido_ana))
      as (st' & Hr & He & Ho); [reflexivity..|].
    exists st'. split; [exact Hr|]. simpl in Ho. rewrite He, Ho. split; reflexivity.
  - destruct (Hd Sample.admin 1 Sample.shipped Sample.envio_ana
                (Order.set_estado "procesando" Sample.pedido_ana))
      as (st' & Hr & _ & Ho); [reflexivity..|].
    exists st'. split; [exact Hr|]. simpl in Ho. rewrite Ho. reflexivity.
Defined.

(** C9, as stated, fails: a delivered shipment is moved back to pending,
    and the request is accepted. *)
Lemma shipment_status_not_monotonic :
  ¬ (∀ u k e st st' s s',
       envios st !! k = Some s →
       ShipmentViewSet.update_status u k e st = (st', Success tt) →
       envios st' !! k = Some s' →
       (shipment_rank (Shipment.estado s) ≤ shipment_rank (Shipment.estado s'))%nat).
Proof.
  intros H.
  specialize (H Sample.admin 1 (Some "pendiente") Sample.delivered_shipment
                (ShipmentViewSet.update_status Sample.admin 1 (Some "pendiente")
                   Sample.delivered_shipment).1
                (Shipment.set_estado "entregado" Sample.envio_ana)
                (Shipment.set_estado "pendiente" Sample.envio_ana)
                eq_refl eq_refl eq_refl).
  vm_compute in H. lia.
Qed.

(** C9, as the code has it.  A request by staff that names one of the
    four states is accepted whatever the state of the shipment, and the
    shipment takes the requested state; a request that is accepted named
    one of the four.  No order between the states is enforced. *)
Theorem update_status_sets_requested u k st shipment :
  User.is_staff u = true →
  envios st !! k = Some shipment →
  (∀ e, in_list e ShipmentViewSet.estados_validos = true →
        ∃ st', ShipmentViewSet.update_status u k (Some e) st = (st', Success tt) ∧
               envios st' !! k = Some (Shipment.set_estado e shipment)) ∧
  (∀ nuevo_estado st',
     ShipmentViewSet.update_status u k nuevo_estado st = (st', Success tt) →
     ∃ e, nuevo_estado = Some e ∧
          in_list e ShipmentViewSet.estados_validos = true ∧
          envios st' !! k = Some (Shipment.set_estado e shipment)).
Proof.
  intros Hu Hk.
  assert (Hok : ∀ e, in_list e ShipmentViewSet.estados_validos = true →
                ∃ st', ShipmentViewSet.update_status u k (Some e) st
                         = (st', Success tt) ∧
                       envios st' !! k = Some (Shipment.set_estado e shipment)).
  { intros e He. unfold ShipmentViewSet.update_status.
    rewrite Hu, Hk, He. simpl. eexists. split; [reflexivity|]. simpl.
    rewrite lookup_insert_eq. done. }
  split; [exact Hok|].
  intros [e|] st' H.
  - destruct (in_list e ShipmentViewSet.estados_validos) eqn:He.
    + destruct (Hok e He) as (st'' & Hr & Hs). exists e.
      rewrite H in Hr. injection Hr as <-. done.
    + unfold ShipmentViewSet.update_status in H. rewrite Hu, Hk, He in H. done.
  - unfold ShipmentViewSet.update_status in H. rewrite Hu, Hk in H. done.
Qed.

Lemma update_status_sets_requested_witness :
  User.is_staff Sample.admin = true ∧
  envios Sample.delivered_shipment !! 1 =
    Some (Shipment.set_estado "entregado" Sample.envio_ana) ∧
  in_list "pendiente" ShipmentViewSet.estados_validos = true ∧
  ∃ st',
    ShipmentViewSet.update_status Sample.admin 1 (Some "pendiente")
      Sample.delivered_shipment = (st', Success tt) ∧
    Shipment.estado <$> envios st' !! 1 = Some "pendiente".
Proof.
  do 3 (split; [reflexivity|]).
  destruct (update_status_sets_requested Sample.admin 1 Sample.delivered_shipment
              (Shipment.set_estado "entregado" Sample.envio_ana)
              eq_refl eq_refl) as [Hok _].
  destruct (Hok "pendiente" eq_refl) as (st' & Hr & Hs).
  exists st'. split; [exact Hr|]. rewrite Hs. reflexivity.
Defined.

(** ** Creation of a payment *)

(** C10, as stated, fails: a request without a proof that names the
    state [completado] creates a payment that is completed, not pending. *)
Lemma created_without_proof_not_pending :
  PaySerializer.has_proof
    (PaySerializer.data_comprobante_archivo Sample.efectivo_completado)
    (PaySerializer.data_comprobante_url Sample.efectivo_completado) = false ∧
  (PayViewSet.create Sample.is_url Sample.loads Sample.ana Sample.efectivo_completado
     Sample.one_order).2 = Success 1 ∧
  Pay.estado <$>
    pagos (PayViewSet.create Sample.is_url Sample.loads Sample.ana Sample.efectivo_completado
             Sample.one_order).1 !! 1 = Some completado.
Proof. repeat split; vm_compute; reflexivity. Qed.

(** C10, as the code has it.  A payment created from a request with a
    proof, a file or a URL, is in review from the start, whatever state
    the request names.  Without a proof it has the state the request
    names, which is pending when the request names none.  Its amount is
    the total of the order: no request can give another one, and
    [create] falls back on the total when no amount is given. *)
Theorem payment_created_state (is_url : string -> bool)
    (loads : string -> option JSON) :
  (∀ u d st st' k,
     PayViewSet.create is_url loads u d st = (st', Success k) →
     ∃ pago pedido,
       orders st !! PaySerializer.data_pedido d = Some pedido ∧
       pagos st' !! k = Some pago ∧
       Pay.estado pago =
         (if PaySerializer.has_proof (PaySerializer.data_comprobante_archivo d)
                                     (PaySerializer.data_comprobante_url d)
          then en_revision
          else default pendiente (PaySerializer.data_estado d)) ∧
       Pay.monto_pagado pago = Order.total pedido) ∧
  (∀ pedido vd,
     PaySerializer.monto_pagado vd = None →
     Pay.monto_pagado (PaySerializer.create pedido vd) = Order.total pedido) ∧
  (∀ pedido vd,
     Pay.estado (PaySerializer.create pedido vd) =
       if PaySerializer.has_proof (PaySerializer.comprobante_archivo vd)
                                  (PaySerializer.comprobante_url vd)
       then en_revision else PaySerializer.estado vd).
Proof.
  repeat split.
  - intros u d st st' k. unfold PayViewSet.create.
    destruct (PaySerializer.to_internal_value _ _ _) as [e|[pedido attrs]]
      eqn:Hi; [done|].
    destruct (to_internal_value_inr _ _ _ _ _ Hi)
      as (Ho & _ & _ & He' & Ha' & Hu' & Hm' & _).
    destruct (PaySerializer.validate _ _ _ _) as [e|vd] eqn:Hv; [done|].
    destruct (negb _ && negb _); [done|].
    destruct (negb (in_list _ _)); [done|].
    apply validate_inr in Hv as (Hped & He & Ha & Hurl & Hm & _ & _).
    intros [= <- <-]. simpl in *.
    exists (PaySerializer.create pedido vd), pedido.
    split; [done|]. split; [by rewrite lookup_insert_eq|].
    unfold PaySerializer.create. simpl.
    rewrite Ha, Hurl, He, Hm, Ha', Hu', He', Hm'. done.
  - intros pedido vd Hm. unfold PaySerializer.create. simpl. by rewrite Hm.
Qed.

Lemma payment_created_state_witness :
  (∃ st' k pago,
     PayViewSet.create Sample.is_url Sample.loads Sample.ana Sample.con_recibo Sample.one_order
       = (st', Success k) ∧
     pagos st' !! k = Some pago ∧
     Pay.estado pago = en_revision ∧ Pay.monto_pagado pago = 3500) ∧
  (∃ st' k pago,
     PayViewSet.create Sample.is_url Sample.loads Sample.ana Sample.transferencia
       Sample.one_order = (st', Success k) ∧
     pagos st' !! k = Some pago ∧
     Pay.estado pago = pendiente ∧ Pay.monto_pagado pago = 3500).
Proof.
  destruct (payment_created_state Sample.is_url Sample.loads) as (Hc & _ & _).
  split.
  - destruct (Hc Sample.ana Sample.con_recibo Sample.one_order
                (PayViewSet.create Sample.is_url Sample.loads Sample.ana Sample.con_recibo
                   Sample.one_order).1 1 eq_refl)
      as (pago & pedido & Ho & Hk & He & Hm).
    injection Ho as <-.
    eexists _, 1, pago. split; [reflexivity|]. split; [exact Hk|].
    split; [exact He | exact Hm].
  - destruct (Hc Sample.ana Sample.transferencia Sample.one_order
                (PayViewSet.create Sample.is_url Sample.loads Sample.ana Sample.transferencia
                   Sample.one_order).1 1 eq_refl)
      as (pago & pedido & Ho & Hk & He & Hm).
    injection Ho as <-.
    eexists _, 1, pago. split; [reflexivity|]. split; [exact Hk|].
    split; [exact He | exact Hm].
Defined.

(** * Further properties *)

(** ** The cart *)

Lemma units_of_none pk items :
  filter (fun it => CartItem.producto it = pk) items = [] →
  units_of pk items = 0.
Proof.
  induction items as [|it rest IH]; [done|]. rewrite filter_cons. simpl.
  destruct (decide (CartItem.producto it = pk)) as [He|Hne]; [done|].
  intros H. rewrite bool_decide_eq_false_2 by done. rewrite IH by done. lia.
Qed.

Lemma units_of_app pk l1 l2 :
  units_of pk (l1 ++ l2) = units_of pk l1 + units_of pk l2.
Proof. induction l1 as [|it rest IH]; simpl; [done|]. rewrite IH. lia. Qed.

Lemma units_of_other pk j n items :
  j ≠ pk →
  units_of j (ProductViewSet.set_cantidad pk n <$> items) = units_of j items.
Proof.
  intros Hne. induction items as [|it rest IH]; [done|].
  rewrite fmap_cons. cbn [units_of]. rewrite IH. f_equal.
  unfold ProductViewSet.set_cantidad.
  destruct (bool_decide_reflect (CartItem.producto it = pk)) as [He|]; [|done].
  simpl. rewrite !bool_decide_eq_false_2; [done|congruence|congruence].
Qed.

Lemma set_cantidad_none pk n items :
  filter (fun it => CartItem.producto it = pk) items = [] →
  ProductViewSet.set_cantidad pk n <$> items = items.
Proof.
  induction items as [|it rest IH]; [done|]. rewrite filter_cons.
  destruct (decide (CartItem.producto it = pk)) as [He|Hne]; [done|].
  intros H. rewrite fmap_cons, IH by done. f_equal.
  unfold ProductViewSet.set_cantidad. by rewrite bool_decide_eq_false_2.
Qed.

Lemma units_of_single pk n item items :
  filter (fun it => CartItem.producto it = pk) items = [item] →
  units_of pk items = CartItem.cantidad item ∧
  units_of pk (ProductViewSet.set_cantidad pk n <$> items) = n.
Proof.
  induction items as [|it rest IH]; [done|]. rewrite filter_cons.
  destruct (decide (CartItem.producto it = pk)) as [He|Hne].
  - intros [= -> Hrest]. rewrite fmap_cons, (set_cantidad_none _ _ _ Hrest).
    cbn [units_of]. rewrite (units_of_none _ _ Hrest).
    unfold ProductViewSet.set_cantidad.
    repeat (case_bool_decide; simpl in * ); try congruence; lia.
  - intros H. destruct (IH H) as [IH1 IH2]. rewrite fmap_cons. cbn [units_of].
    rewrite IH1, IH2. unfold ProductViewSet.set_cantidad.
    repeat (case_bool_decide; simpl in * ); try congruence; lia.
Qed.

Lemma get_or_create_cart u st :
  let out := CartViewSet.get_or_create u st in
  out.2 = default [] (carts st !! u) ∧
  carts out.1 !! u = Some out.2 ∧
  products out.1 = products st ∧
  (is_Some (carts st !! u) → out.1 = st).
Proof.
  unfold CartViewSet.get_or_create. destruct (carts st !! u) eqn:H; simpl.
  - done.
  - rewrite lookup_insert_eq. repeat split; try done; by intros [? ?].
Qed.

(** X1. [add_to_cart]: a refused request leaves the store as it is.  An
    accepted one asked for a positive quantity; the cart then holds that
    many more units of the product, as many as before of every other
    product, and no more of the product than its available stock; the
    total in the answer is the total of the new cart. *)
Theorem add_to_cart_outcome u pk cantidad st :
  let old := default [] (carts st !! User.id u) in
  let out := ProductViewSet.add_to_cart u pk cantidad st in
  match out.2 with
  | inl _ => out.1 = st
  | inr (_, tot) =>
      ∃ items p,
        carts out.1 !! User.id u = Some items ∧
        products out.1 = products st ∧
        products st !! pk = Some p ∧
        0 < default 1 cantidad ∧
        units_of pk items = units_of pk old + default 1 cantidad ∧
        (∀ j, j ≠ pk → units_of j items = units_of j old) ∧
        exceeds_stock (units_of pk items) p = false ∧
        tot = Cart_total (products st) items
  end.
Proof.
  intros old out. subst out. unfold ProductViewSet.add_to_cart.
  destruct (products st !! pk) as [p|] eqn:Hp; [|done].
  destruct (Z.leb_spec (default 1 cantidad) 0) as [|Hpos]; [done|].
  destruct (exceeds_stock (default 1 cantidad) p) eqn:Hx; [done|].
  destruct (get_or_create_cart (User.id u) st) as (Hitems & Hc & Hprods & Hsame).
  destruct (CartViewSet.get_or_create (User.id u) st) as [st1 items].
  simpl in Hitems, Hc, Hprods, Hsame. fold old in Hitems. subst items.
  destruct (filter _ old) as [|item [|item2 rest]] eqn:Hf.
  - simpl. exists (old ++ [CartItem.mk pk (default 1 cantidad)])%list, p.
    rewrite lookup_insert_eq, Hprods. repeat split; try done.
    + rewrite units_of_app, (units_of_none _ _ Hf). simpl.
      rewrite bool_decide_eq_true_2 by done. lia.
    + intros j Hj. rewrite units_of_app. simpl.
      rewrite bool_decide_eq_false_2 by done. lia.
    + rewrite units_of_app, (units_of_none _ _ Hf). simpl.
      rewrite bool_decide_eq_true_2 by done.
      by replace (0 + (default 1 cantidad + 0)) with (default 1 cantidad) by lia.
  - assert (is_Some (carts st !! User.id u)) as Hsome.
    { unfold old in Hf. destruct (carts st !! User.id u); [done|]. done. }
    destruct (units_of_single pk (CartItem.cantidad item + default 1 cantidad)
                item old Hf) as [Hu1 Hu2].
    destruct (exceeds_stock (CartItem.cantidad item + default 1 cantidad) p)
      eqn:Hx2; simpl.
    + by apply Hsame.
    + eexists _, p. rewrite lookup_insert_eq, Hprods.
      repeat split; try done.
      * rewrite Hu2, Hu1. done.
      * intros j Hj. by apply units_of_other.
      * by rewrite Hu2.
  - simpl. apply Hsame. unfold old in Hf.
    destruct (carts st !! User.id u); [done|]. done.
Qed.

Lemma set_cantidad_producto pk n (items : list CartItem.t) :
  CartItem.producto <$> (ProductViewSet.set_cantidad pk n <$> items) =
  CartItem.producto <$> items.
Proof.
  rewrite <- list_fmap_compose. apply list_fmap_ext. intros i it _. simpl.
  unfold ProductViewSet.set_cantidad. by case_bool_decide.
Qed.

Lemma add_to_cart_products u pk cantidad st :
  products (ProductViewSet.add_to_cart u pk cantidad st).1 = products st.
Proof.
  unfold ProductViewSet.add_to_cart.
  destruct (products st !! pk) as [p|]; [|done].
  destruct (_ <=? 0); [done|].
  destruct (exceeds_stock _ p); [done|].
  destruct (get_or_create_cart (User.id u) st) as (_ & _ & Hprods & _).
  destruct (CartViewSet.get_or_create (User.id u) st) as [st1 items].
  destruct (filter _ items) as [|item [|item2 rest]]; [done| |done].
  by destruct (exceeds_stock _ p).
Qed.

Lemma partial_update_products u i c st :
  products (CartItemViewSet.partial_update u i c st).1 = products st.
Proof.
  unfold CartItemViewSet.partial_update.
  destruct (carts st !! User.id u) as [items|]; [|done].
  destruct (items !! i) as [it|]; [|done].
  destruct c as [| |n]; try done;
    (destruct (_ <=? 0); [done|];
     destruct (products st !! CartItem.producto it) as [p|]; [|done];
     by destruct (exceeds_stock _ p)).
Qed.

Lemma destroy_products u i st :
  products (CartItemViewSet.destroy u i st).1 = products st.
Proof.
  unfold CartItemViewSet.destroy.
  destruct (carts st !! User.id u) as [items|]; [|done].
  destruct (items !! i) as [it|]; [|done].
  by destruct (products st !! CartItem.producto it).
Qed.

Lemma clear_products u st : products (CartViewSet_clear u st) = products st.
Proof.
  unfold CartViewSet_clear. simpl.
  by destruct (get_or_create_cart (User.id u) st) as (_ & _ & -> & _).
Qed.

Lemma run_cart_products u op st : products (run_cart u op st) = products st.
Proof.
  destruct op; simpl.
  - apply add_to_cart_products.
  - apply partial_update_products.
  - apply destroy_products.
  - apply clear_products.
Qed.

Lemma add_to_cart_in_order u pk cantidad st :
  cart_in_order u st →
  cart_in_order u (ProductViewSet.add_to_cart u pk cantidad st).1.
Proof.
  intros Hok. unfold ProductViewSet.add_to_cart.
  destruct (products st !! pk) as [p|] eqn:Hp; [|done].
  destruct (Z.leb_spec (default 1 cantidad) 0) as [|Hpos]; [done|].
  destruct (exceeds_stock (default 1 cantidad) p) eqn:Hx; [done|].
  unfold CartViewSet.get_or_create.
  destruct (carts st !! User.id u) as [old|] eqn:Hold.
  - destruct (Hok old Hold) as [Hnd Hall].
    destruct (filter _ old) as [|item [|item2 rest]] eqn:Hf; [| |done].
    + intros items. simpl. rewrite lookup_insert_eq. intros [= <-]. split.
      * rewrite fmap_app. apply NoDup_app. split; [done|]. split.
        -- intros x Hx' Hin. apply list_elem_of_singleton in Hin as ->.
           apply list_elem_of_fmap in Hx' as (it & He & Hit).
           by apply (filter_nil_not_elem_of _ _ it Hf).
        -- apply NoDup_singleton.
      * apply Forall_app. split; [done|]. apply Forall_singleton. simpl.
        split; [done|]. by exists p.
    + destruct (exceeds_stock (CartItem.cantidad item + default 1 cantidad) p)
        eqn:Hx2; [done|].
      assert (item ∈ filter (fun it => CartItem.producto it = pk) old) as Hin
        by (rewrite Hf; left).
      apply list_elem_of_filter in Hin as [Hpk Hin].
      rewrite Forall_forall in Hall. destruct (Hall item Hin) as [Hq _].
      intros items. simpl. rewrite lookup_insert_eq. intros [= <-]. split.
      * by rewrite set_cantidad_producto.
      * apply Forall_fmap, Forall_forall. intros it Hit. simpl.
        unfold ProductViewSet.set_cantidad. case_bool_decide; simpl.
        -- split; [lia|]. by exists p.
        -- by apply Hall.
  - simpl. intros items. simpl. rewrite lookup_insert_eq. intros [= <-]. split.
    + apply NoDup_singleton.
    + apply Forall_singleton. simpl. split; [done|]. by exists p.
Qed.

Lemma partial_update_in_order u i c st :
  cart_in_order u st →
  cart_in_order u (CartItemViewSet.partial_update u i c st).1.
Proof.
  intros Hok. unfold CartItemViewSet.partial_update.
  destruct (carts st !! User.id u) as [old|] eqn:Hold; [|done].
  destruct (old !! i) as [it|] eqn:Hi; [|done].
  destruct (Hok old Hold) as [Hnd Hall].
  assert (Hdel : cart_in_order u
            (set_carts (<[User.id u := delete i old]> (carts st)) st)).
  { intros items. simpl. rewrite lookup_insert_eq. intros [= <-]. split.
    - rewrite list_fmap_delete. eapply sublist_NoDup; [exact Hnd | apply sublist_delete].
    - by apply Forall_delete. }
  assert (Hset : ∀ n p, 0 < n →
            products st !! CartItem.producto it = Some p →
            exceeds_stock n p = false →
            cart_in_order u
              (set_carts (<[User.id u :=
                              <[i := CartItem.mk (CartItem.producto it) n]> old]>
                            (carts st)) st)).
  { intros n p Hn Hp Hx items. simpl. rewrite lookup_insert_eq.
    intros [= <-]. split.
    - rewrite list_fmap_insert. simpl. rewrite list_insert_id; [done|].
      by rewrite list_lookup_fmap, Hi.
    - apply Forall_insert; [done|]. simpl. split; [done|]. by exists p. }
  destruct c as [| |n]; [|done|].
  - destruct (Z.leb_spec (CartItem.cantidad it) 0); [done|].
    destruct (products st !! CartItem.producto it) as [p|] eqn:Hp; [|done].
    destruct (exceeds_stock (CartItem.cantidad it) p) eqn:Hx; [done|]. eauto.
  - destruct (Z.leb_spec n 0); [done|].
    destruct (products st !! CartItem.producto it) as [p|] eqn:Hp; [|done].
    destruct (exceeds_stock n p) eqn:Hx; [done|]. eauto.
Qed.

Lemma destroy_in_order u i st :
  cart_in_order u st → cart_in_order u (CartItemViewSet.destroy u i st).1.
Proof.
  intros Hok. unfold CartItemViewSet.destroy.
  destruct (carts st !! User.id u) as [old|] eqn:Hold; [|done].
  destruct (old !! i) as [it|] eqn:Hi; [|done].
  destruct (products st !! CartItem.producto it); [|done].
  destruct (Hok old Hold) as [Hnd Hall].
  intros items. simpl. rewrite lookup_insert_eq. intros [= <-]. split.
  - rewrite list_fmap_delete. eapply sublist_NoDup; [exact Hnd | apply sublist_delete].
  - by apply Forall_delete.
Qed.

Lemma clear_in_order u st : cart_in_order u (CartViewSet_clear u st).
Proof.
  intros items. unfold CartViewSet_clear, CartViewSet.limpiar. simpl.
  rewrite lookup_insert_eq. intros [= <-]. split; [apply NoDup_nil_2 | done].
Qed.

Lemma run_cart_in_order u op st :
  cart_in_order u st → cart_in_order u (run_cart u op st).
Proof.
  intros Hok. destruct op; simpl.
  - by apply add_to_cart_in_order.
  - by apply partial_update_in_order.
  - by apply destroy_in_order.
  - apply clear_in_order.
Qed.

Lemma run_cart_all_in_order u ops : ∀ st,
  cart_in_order u st → cart_in_order u (run_cart_all u ops st).
Proof.
  induction ops as [|op ops IH]; intros st Hok; [done|].
  simpl. by apply IH, run_cart_in_order.
Qed.

(** X2. The requests on a cart keep it in order: whatever a user adds, sets,
    removes or clears, their cart has one row per product, each for a
    positive quantity that the available stock covers. *)
Theorem cart_stays_in_order u ops st :
  cart_in_order u st → cart_in_order u (run_cart_all u ops st).
Proof.
  revert st. induction ops as [|op ops IH]; intros st Hok; [done|].
  simpl. apply IH. destruct op; simpl.
  - by apply add_to_cart_in_order.
  - by apply partial_update_in_order.
  - by apply destroy_in_order.
  - apply clear_in_order.
Qed.

Lemma cart_stays_in_order_witness :
  cart_in_order Sample.ana Demo.catalogue ∧
  cart_in_order Sample.ana
    (run_cart_all Sample.ana Demo.shopping Demo.catalogue) ∧
  carts (run_cart_all Sample.ana Demo.shopping Demo.catalogue) !! 1 =
    Some [CartItem.mk 1 4; CartItem.mk 2 1].
Proof.
  assert (H : cart_in_order Sample.ana Demo.catalogue).
  { intros items Hc. vm_compute in Hc. discriminate. }
  split; [exact H|]. split; [|reflexivity].
  apply (cart_stays_in_order Sample.ana Demo.shopping Demo.catalogue H).
Defined.

(** X3. A cart built through these requests checks out: served alone,
    checkout of a cart in order is refused only when the cart is empty,
    and otherwise creates the order with the total of the cart. *)
Theorem built_cart_checks_out u ops st :
  cart_in_order u st →
  let st1 := run_cart_all u ops st in
  match carts st1 !! User.id u with
  | None | Some [] => (CartViewSet.checkout u st1).2 = Failure EmptyCart
  | Some items =>
      ∃ st', CartViewSet.checkout u st1 =
               (st', Success (next_order st1, Cart_total (products st1) items))
  end.
Proof.
  intros Hok st1. pose proof (run_cart_all_in_order u ops st Hok) as Hok1.
  fold st1 in Hok1. clearbody st1. clear Hok.
  destruct (carts st1 !! User.id u) as [items|] eqn:Hc.
  - destruct (Hok1 items Hc) as [Hnd Hall].
    assert (Hall' : Forall (fun it =>
              ∃ p, products st1 !! CartItem.producto it = Some p ∧
                   exceeds_stock (CartItem.cantidad it) p = false) items).
    { eapply Forall_impl; [exact Hall|]. by intros it [_ ?]. }
    unfold CartViewSet.checkout, CartViewSet.checkout_with.
    rewrite (get_or_create_existing _ _ _ Hc).
    destruct items as [|it0 rest]; [done|]. simpl length. simpl Nat.eqb. cbv iota.
    rewrite (first_pass_passes _ _ Hall'). rewrite Hc. simpl default.
    unfold Order_create.
    edestruct (second_pass_passes (next_order st1) (it0 :: rest)) as [st3 H3];
      [exact Hnd | | rewrite H3; by eexists].
    exact Hall'.
  - unfold CartViewSet.checkout. by rewrite checkout_without_cart.
Qed.

Lemma built_cart_checks_out_witness :
  cart_in_order Sample.ana Demo.catalogue ∧
  ∃ st', CartViewSet.checkout Sample.ana
           (run_cart_all Sample.ana Demo.shopping Demo.catalogue) =
         (st', Success (1, 6500)).
Proof.
  assert (H : cart_in_order Sample.ana Demo.catalogue).
  { intros items Hc. vm_compute in Hc. discriminate. }
  split; [exact H|].
  exact (built_cart_checks_out Sample.ana Demo.shopping Demo.catalogue H).
Defined.

(** ** Checkout and the stock *)

Lemma never_oversold_insert k p (prods : gmap Z Product.t) :
  (∀ d, Product.stock_disponible p = Some d → 0 ≤ d) →
  never_oversold prods →
  never_oversold (<[k := p]> prods).
Proof.
  intros Hp Hinv j q d Hj Hd.
  destruct (decide (k = j)) as [->|Hne].
  - rewrite lookup_insert_eq in Hj. injection Hj as <-. by apply Hp.
  - rewrite lookup_insert_ne in Hj by done. by eapply Hinv.
Qed.

Lemma transfer_never_oversold k it p st :
  products st !! CartItem.producto it = Some p →
  exceeds_stock (CartItem.cantidad it) p = false →
  never_oversold (products st) →
  never_oversold (products (CartViewSet.transfer k it p st)).
Proof.
  intros Hp Hx Hinv. simpl. apply never_oversold_insert; [|done].
  unfold exceeds_stock, Product.stock_disponible in *. simpl.
  destruct (Product.stock_ilimitado p); [done|]. intros d [= <-]. lia.
Qed.

Lemma second_pass_never_oversold k items : ∀ st,
  never_oversold (products st) →
  never_oversold (products (CartViewSet.second_pass k items st).1).
Proof.
  induction items as [|it rest IH]; intros st Hinv; simpl; [done|].
  destruct (products st !! CartItem.producto it) as [p|] eqn:Hp; [|done].
  destruct (exceeds_stock (CartItem.cantidad it) p) eqn:Hx; [done|].
  by apply IH, transfer_never_oversold.
Qed.

(** X4. Checkout never sells beyond the stock: if no product is oversold
    before, none is after, whether the request succeeds or fails, even for
    a cart with two rows of one product, and whatever other requests write
    between the two loops as long as they do not oversell either. *)
Theorem checkout_never_oversells env u st :
  never_oversold (products st) →
  (∀ s, never_oversold (products s) → never_oversold (products (env s))) →
  never_oversold (products (CartViewSet.checkout_with env u st).1).
Proof.
  intros Hinv Henv. unfold CartViewSet.checkout_with.
  destruct (get_or_create_cart (User.id u) st) as (_ & _ & Hprods & _).
  destruct (CartViewSet.get_or_create (User.id u) st) as [st0 items].
  simpl in Hprods. rewrite <- Hprods in Hinv.
  destruct (length items =? 0)%nat; [done|].
  destruct (CartViewSet.first_pass (products st0) items); [done|].
  unfold Order_create.
  match goal with
  | |- context [CartViewSet.second_pass ?k ?l ?s] =>
      pose proof (second_pass_never_oversold k l s) as H2;
      destruct (CartViewSet.second_pass k l s) as [st3 [e|]]
  end; simpl in *; apply H2, Henv, Hinv.
Qed.

Lemma checkout_never_oversells_witness :
  never_oversold (products Sample.shop) ∧
  never_oversold
    (products (CartViewSet.checkout_with Sample.beto_checks_out Sample.ana
                 Sample.shop).1).
Proof.
  assert (H : never_oversold (products Sample.shop)).
  { simpl. apply never_oversold_insert; [intros d [= <-]; done|].
    apply never_oversold_insert; [intros d [= <-]; done|].
    intros k p d Hk. by rewrite lookup_empty in Hk. }
  split; [exact H|].
  apply (checkout_never_oversells Sample.beto_checks_out Sample.ana Sample.shop H).
  intros s Hs. unfold Sample.beto_checks_out, CartViewSet.checkout.
  apply (checkout_never_oversells (fun s => s) Sample.beto s Hs). auto.
Defined.

Lemma second_pass_frame k items : ∀ st,
  let st' := (CartViewSet.second_pass k items st).1 in
  carts st' = carts st ∧ pagos st' = pagos st ∧ envios st' = envios st ∧
  next_order st' = next_order st.
Proof.
  induction items as [|it rest IH]; intros st; simpl; [done|].
  destruct (products st !! CartItem.producto it) as [p|]; [|done].
  destruct (exceeds_stock (CartItem.cantidad it) p); [done|].
  destruct (IH (CartViewSet.transfer k it p st)) as (-> & -> & -> & ->). done.
Qed.

Lemma second_pass_books k (items : list CartItem.t) : ∀ st st',
  NoDup (CartItem.producto <$> items) →
  CartViewSet.second_pass k items st = (st', None) →
  (∀ it, it ∈ items →
     ∃ p, products st !! CartItem.producto it = Some p ∧
          exceeds_stock (CartItem.cantidad it) p = false ∧
          products st' !! CartItem.producto it =
            Some (Product.set_stock_vendido
                    (Product.stock_vendido p + CartItem.cantidad it) p)) ∧
  (∀ (i : nat) it, items !! i = Some it →
     ∃ p, products st !! CartItem.producto it = Some p ∧
          details st' !! (next_detail st + Z.of_nat i) =
            Some (OrderDetail.mk k (CartItem.producto it) (CartItem.cantidad it)
                    (CartItem.cantidad it * Product.precio p))) ∧
  (∀ j, j < next_detail st → details st' !! j = details st !! j) ∧
  next_detail st' = next_detail st + Z.of_nat (length items).
Proof.
  induction items as [|it rest IH]; intros st st' Hnd H; simpl in H.
  - injection H as <-. repeat split; try done.
    + intros it Hin. by apply elem_of_nil in Hin.
    + simpl. lia.
  - rewrite fmap_cons in Hnd. apply NoDup_cons in Hnd as [Hnotin Hnd].
    destruct (products st !! CartItem.producto it) as [p|] eqn:Hp; [|done].
    destruct (exceeds_stock (CartItem.cantidad it) p) eqn:Hx; [done|].
    pose proof (second_pass_other_products _ _ _ _ _ _ Hnotin H) as Hhead.
    destruct (IH _ _ Hnd H) as (Hsales & Hdet & Hold & Hnext). clear IH.
    assert (Hrest : ∀ it', it' ∈ rest →
              products (CartViewSet.transfer k it p st) !! CartItem.producto it'
              = products st !! CartItem.producto it').
    { intros it' Hin. simpl. rewrite lookup_insert_ne; [done|].
      intros Heq. apply Hnotin. rewrite Heq. by apply list_elem_of_fmap_2. }
    repeat split.
    + intros it' Hin. apply elem_of_cons in Hin as [->|Hin].
      * exists p. rewrite Hhead. simpl. by rewrite lookup_insert_eq.
      * destruct (Hsales it' Hin) as (p' & Hp' & Hx' & Hs).
        exists p'. by rewrite <- (Hrest it' Hin).
    + intros [|i] it' Hi; simpl in Hi.
      * injection Hi as <-. exists p. split; [done|].
        rewrite Hold by (simpl; lia). simpl.
        replace (next_detail st + Z.of_nat 0) with (next_detail st) by lia.
        by rewrite lookup_insert_eq.
      * destruct (Hdet i it' Hi) as (p' & Hp' & Hd).
        exists p'. rewrite <- (Hrest it') by (by eapply list_elem_of_lookup_2).
        split; [done|]. rewrite <- Hd. f_equal. simpl. lia.
    + intros j Hj. rewrite Hold by (simpl; lia). simpl.
      rewrite lookup_insert_ne by lia. done.
    + rewrite Hnext. simpl. lia.
Qed.

(** X5. What a successful checkout writes, for a cart without two rows of
    one product: the sold counter of each product of the cart rises by the
    quantity of its row and no other product changes; each row becomes one
    new detail of the order, with the quantity of the row and the subtotal
    quantity times price; the details that were there stay; payments,
    shipments and the carts of other users are untouched. *)
Theorem checkout_books_the_sale u st st' items k tot :
  carts st !! User.id u = Some items →
  NoDup (CartItem.producto <$> items) →
  CartViewSet.checkout u st = (st', Success (k, tot)) →
  (∀ it, it ∈ items →
     ∃ p, products st !! CartItem.producto it = Some p ∧
          exceeds_stock (CartItem.cantidad it) p = false ∧
          products st' !! CartItem.producto it =
            Some (Product.set_stock_vendido
                    (Product.stock_vendido p + CartItem.cantidad it) p)) ∧
  (∀ j, j ∉ CartItem.producto <$> items → products st' !! j = products st !! j) ∧
  (∀ (i : nat) it, items !! i = Some it →
     ∃ p, products st !! CartItem.producto it = Some p ∧
          details st' !! (next_detail st + Z.of_nat i) =
            Some (OrderDetail.mk k (CartItem.producto it) (CartItem.cantidad it)
                    (CartItem.cantidad it * Product.precio p))) ∧
  (∀ j, j < next_detail st → details st' !! j = details st !! j) ∧
  next_detail st' = next_detail st + Z.of_nat (length items) ∧
  pagos st' = pagos st ∧ envios st' = envios st ∧
  (∀ v, v ≠ User.id u → carts st' !! v = carts st !! v).
Proof.
  intros Hc Hnd. unfold CartViewSet.checkout, CartViewSet.checkout_with.
  rewrite (get_or_create_existing _ _ _ Hc).
  destruct (length items =? 0)%nat; [done|].
  destruct (CartViewSet.first_pass (products st) items); [done|].
  rewrite Hc. simpl default. unfold Order_create.
  match goal with
  | |- context [CartViewSet.second_pass ?k ?l ?s] =>
      pose proof (second_pass_frame k l s) as Hframe;
      pose proof (second_pass_other_products k l s) as Hother;
      pose proof (second_pass_books k l s) as Hbooks;
      destruct (CartViewSet.second_pass k l s) as [st3 [e|]] eqn:H2
  end; [done|].
  intros [= <- <- <-]. simpl in Hframe.
  destruct Hframe as (Hcarts & Hpagos & Henvios & _).
  destruct (Hbooks st3 Hnd eq_refl) as (Hsales & Hdet & Hold & Hnext).
  simpl in *. repeat split; try done.
  - intros j Hj. by apply (Hother st3 None).
  - intros v Hv. rewrite lookup_insert_ne by done. by rewrite Hcarts.
Qed.

Lemma checkout_books_the_sale_witness :
  carts Sample.shop !! User.id Sample.ana = Some Sample.cart_ana ∧
  NoDup (CartItem.producto <$> Sample.cart_ana) ∧
  (CartViewSet.checkout Sample.ana Sample.shop).2 = Success (1, 3500) ∧
  Product.stock_vendido <$>
    products (CartViewSet.checkout Sample.ana Sample.shop).1 !! 2 = Some 1 ∧
  details (CartViewSet.checkout Sample.ana Sample.shop).1 !! 2 =
    Some (OrderDetail.mk 1 2 1 2500).
Proof.
  split; [reflexivity|].
  assert (Hnd : NoDup (CartItem.producto <$> Sample.cart_ana))
    by (by apply (bool_decide_unpack _)).
  split; [exact Hnd|]. split; [reflexivity|].
  destruct (checkout_books_the_sale Sample.ana Sample.shop
              (CartViewSet.checkout Sample.ana Sample.shop).1
              Sample.cart_ana 1 3500 eq_refl Hnd eq_refl)
    as (Hsales & _ & Hdet & _).
  split.
  - destruct (Hsales (CartItem.mk 2 1)) as (p & Hp & _ & Hs).
    { right. left. }
    injection Hp as <-. simpl in Hs. rewrite Hs. reflexivity.
  - destruct (Hdet 1%nat (CartItem.mk 2 1) eq_refl) as (p & Hp & Hd).
    injection Hp as <-. exact Hd.
Defined.

(** X6. A checkout cannot be replayed: after a successful one, and after
    [clear], the cart is empty, so the next checkout of the same user is
    refused with [EmptyCart] and writes nothing. *)
Theorem checkout_not_replayed env env' u st :
  (∀ st' r, CartViewSet.checkout_with env u st = (st', Success r) →
            CartViewSet.checkout_with env' u st' = (st', Failure EmptyCart)) ∧
  CartViewSet.checkout_with env' u (CartViewSet_clear u st) =
    (CartViewSet_clear u st, Failure EmptyCart).
Proof.
  split.
  - intros st' [k tot] H. apply checkout_with_success in H as (_ & _ & _ & Hc).
    unfold CartViewSet.checkout_with.
    by rewrite (get_or_create_existing _ _ _ Hc).
  - assert (Hc : carts (CartViewSet_clear u st) !! User.id u = Some []).
    { unfold CartViewSet_clear, CartViewSet.limpiar. simpl.
      by rewrite lookup_insert_eq. }
    unfold CartViewSet.checkout_with.
    by rewrite (get_or_create_existing _ _ _ Hc).
Qed.

Lemma checkout_not_replayed_witness :
  (CartViewSet.checkout Sample.ana Sample.shop).2 = Success (1, 3500) ∧
  CartViewSet.checkout Sample.ana (CartViewSet.checkout Sample.ana Sample.shop).1 =
    ((CartViewSet.checkout Sample.ana Sample.shop).1, Failure EmptyCart).
Proof.
  split; [reflexivity|].
  apply (proj1 (checkout_not_replayed (fun s => s) (fun s => s) Sample.ana
                  Sample.shop) _ (1, 3500)).
  reflexivity.
Defined.

(** ** Payments over time *)







(** ** Who can change a payment *)




(** ** Orders that can no longer be paid *)

Lemma create_needs_pending is_url loads w d st pedido :
  orders st !! PaySerializer.data_pedido d = Some pedido →
  Order.estado pedido ≠ "pendiente" →
  ∃ e, PayViewSet.create is_url loads w d st = (st, Failure e).
Proof.
  intros Ho He. unfold PayViewSet.create.
  destruct (PaySerializer.to_internal_value _ _ _) as [e|[pedido' attrs]]
    eqn:Hi; [by eexists|].
  destruct (to_internal_value_inr _ _ _ _ _ Hi) as (Ho' & _).
  assert (pedido' = pedido) as -> by congruence.
  destruct (PaySerializer.validate _ _ _ _) as [e|vd]; [by eexists|].
  destruct (negb (User.is_staff w) && negb (Order.usuario pedido =? User.id w));
    [by eexists|].
  unfold in_list. simpl.
  destruct (String.eqb_spec (Order.estado pedido) "pendiente") as [Heq|_];
    [done|].
  simpl. by eexists.
Qed.








(** ** Deleting an order *)

Lemma set_stock_set_stock a b p :
  Product.set_stock a (Product.set_stock b p) = Product.set_stock a p.
Proof. by destruct p. Qed.

Lemma set_stock_same p : Product.set_stock (Product.stock p) p = p.
Proof. by destruct p. Qed.

Lemma set_products_same st : set_products (products st) st = st.
Proof. by destruct st. Qed.

Lemma restore_stock_spec dets st :
  (∀ d, d ∈ dets → is_Some (products st !! OrderDetail.producto d)) →
  ∃ st', restore_stock dets st = (st', None) ∧
         st' = set_products (products st') st ∧
         ∀ j, products st' !! j =
                (fun p => Product.set_stock
                            (Product.stock p + line_units j dets) p)
                  <$> products st !! j.
Proof.
  revert st. induction dets as [|det rest IH]; intros st Hex.
  - exists st. split; [done|]. split; [by rewrite set_products_same|].
    intros j. simpl. destruct (products st !! j) as [p|]; [|done]. simpl.
    by rewrite Z.add_0_r, set_stock_same.
  - destruct (Hex det) as [prod Hprod]; [by left|].
    simpl. rewrite Hprod.
    set (st1 := set_products _ st).
    destruct (IH st1) as (st' & Hrun & Hst' & Hlook).
    { intros d Hd. unfold st1. simpl. apply lookup_insert_is_Some.
      destruct (decide (OrderDetail.producto det = OrderDetail.producto d));
        [by left|right]. split; [done|]. apply Hex. by right. }
    exists st'. split; [exact Hrun|]. split; [by rewrite Hst' at 1|].
    intros j. rewrite Hlook. unfold st1. simpl.
    destruct (decide (OrderDetail.producto det = j)) as [<-|Hne].
    + rewrite lookup_insert_eq, Hprod, Z.eqb_refl. simpl.
      rewrite set_stock_set_stock. do 2 f_equal. lia.
    + rewrite lookup_insert_ne by done.
      apply Z.eqb_neq in Hne. rewrite Hne. done.
Qed.

Lemma filter_fail_open k (m : gmap Z Pay.t) :
  filter (fun kp => Pay.pedido kp.2 ≠ k) (fail_open k m) =
  filter (fun kp => Pay.pedido kp.2 ≠ k) m.
Proof.
  apply map_eq. intros i. apply option_eq. intros p.
  rewrite !map_lookup_filter_Some. unfold fail_open. rewrite lookup_fmap.
  simpl. split.
  - intros [H Hne]. destruct (m !! i) as [q|]; [|done].
    simpl in H. injection H as <-.
    destruct (bool_decide_reflect (Pay.pedido q = k)) as [Heq|Hneq];
      [|done].
    destruct (Pay.is_open q); simpl in Hne; done.
  - intros [H Hne]. rewrite H. simpl.
    by rewrite bool_decide_false.
Qed.

Lemma get_object_staff u k st :
  User.is_staff u = true → OrderViewSet.get_object u k st = orders st !! k.
Proof.
  intros Hs. unfold OrderViewSet.get_object, OrderViewSet.get_queryset.
  by rewrite Hs.
Qed.

Lemma force_delete_ok u k st order :
  User.is_staff u = true →
  orders st !! k = Some order →
  (∀ d, d ∈ order_lines k st →
        is_Some (products st !! OrderDetail.producto d)) →
  ∃ st',
    OrderViewSet_force_delete u k st = (st', Success tt) ∧
    orders st' = delete k (orders st) ∧
    pagos st' = filter (fun kp => Pay.pedido kp.2 ≠ k) (pagos st) ∧
    details st' =
      filter (fun kd => OrderDetail.pedido kd.2 ≠ k) (details st) ∧
    ∀ j, products st' !! j =
           (fun p => Product.set_stock
                       (Product.stock p +
                        if String.eqb (Order.estado order) "cancelado"
                        then 0 else line_units j (order_lines k st)) p)
             <$> products st !! j.
Proof.
  intros Hs Ho Hex. unfold OrderViewSet_force_delete.
  rewrite Hs, (get_object_staff u k st Hs), Ho. cbn [negb].
  destruct (String.eqb (Order.estado order) "cancelado") eqn:He; cbn [negb].
  - eexists. split; [reflexivity|]. simpl.
    split; [done|]. split; [apply filter_fail_open|]. split; [done|].
    intros j. destruct (products st !! j) as [p|]; [|done]. simpl.
    by rewrite Z.add_0_r, set_stock_same.
  - set (st1 := set_pagos (fail_open k (pagos st)) st).
    destruct (restore_stock_spec (order_lines k st1) st1)
      as (st2 & Hrun & Hst2 & Hlook); [exact Hex|].
    rewrite Hrun. eexists. split; [reflexivity|].
    rewrite Hst2. simpl.
    split; [done|]. split; [apply filter_fail_open|]. split; [done|].
    exact Hlook.
Qed.

(** X11. [force_delete] by staff removes the order together with every payment
    and every line that belongs to it, and nothing else: the other
    orders, the payments and the lines of other orders stay as they
    are. *)
Theorem force_delete_removes_order u k st order :
  User.is_staff u = true →
  orders st !! k = Some order →
  (∀ d, d ∈ order_lines k st →
        is_Some (products st !! OrderDetail.producto d)) →
  ∃ st',
    OrderViewSet_force_delete u k st = (st', Success tt) ∧
    orders st' !! k = None ∧
    (∀ i, i ≠ k → orders st' !! i = orders st !! i) ∧
    (∀ i p, pagos st' !! i = Some p ↔
            pagos st !! i = Some p ∧ Pay.pedido p ≠ k) ∧
    (∀ i d, details st' !! i = Some d ↔
            details st !! i = Some d ∧ OrderDetail.pedido d ≠ k).
Proof.
  intros Hs Ho Hex.
  destruct (force_delete_ok u k st order Hs Ho Hex)
    as (st' & Hrun & Hord & Hpag & Hdet & _).
  exists st'. split; [exact Hrun|].
  rewrite Hord, Hpag, Hdet.
  split; [apply lookup_delete_eq|].
  split; [intros i Hi; by rewrite lookup_delete_ne|].
  split; intros i x; by rewrite map_lookup_filter_Some.
Qed.

Lemma force_delete_removes_order_witness :
  ∃ st',
    OrderViewSet_force_delete Sample.admin 1 Sample.one_payment
      = (st', Success tt) ∧
    orders st' !! 1 = None ∧
    ¬ pagos st' !! 1 = Some Sample.pago_ana.
Proof.
  destruct (force_delete_removes_order Sample.admin 1 Sample.one_payment
              Sample.pedido_ana)
    as (st' & Hrun & Hk & _ & Hp & _).
  - reflexivity.
  - reflexivity.
  - intros d Hd. vm_compute in Hd. by apply elem_of_nil in Hd.
  - exists st'. split; [exact Hrun|]. split; [exact Hk|].
    intros H. apply Hp in H. destruct H as [_ H]. by apply H.
Defined.

(** X12. [force_delete] of an order that is not cancelled gives the units of
    its lines back to the stock column of their products, each product
    getting the sum over the lines that name it; what is available for
    sale, which is counted from the supplier stock and the sold counter,
    does not change for any product. *)
Theorem force_delete_returns_stock u k st order :
  User.is_staff u = true →
  orders st !! k = Some order →
  Order.estado order ≠ "cancelado" →
  (∀ d, d ∈ order_lines k st →
        is_Some (products st !! OrderDetail.producto d)) →
  ∃ st',
    OrderViewSet_force_delete u k st = (st', Success tt) ∧
    ∀ j p, products st !! j = Some p →
      ∃ p', products st' !! j = Some p' ∧
            Product.stock p' = Product.stock p + line_units j (order_lines k st) ∧
            Product.stock_disponible p' = Product.stock_disponible p.
Proof.
  intros Hs Ho He Hex.
  destruct (force_delete_ok u k st order Hs Ho Hex)
    as (st' & Hrun & _ & _ & _ & Hprod).
  exists st'. split; [exact Hrun|].
  intros j p Hj. rewrite Hprod, Hj. simpl. eexists. split; [reflexivity|].
  apply String.eqb_neq in He. rewrite He. done.
Qed.

Lemma force_delete_returns_stock_witness :
  ∃ st' p',
    OrderViewSet_force_delete Sample.admin 1 Sample.with_line
      = (st', Success tt) ∧
    products st' !! 1 = Some p' ∧
    Product.stock p' = 7 ∧
    Product.stock_disponible p' = Some 5.
Proof.
  destruct (force_delete_returns_stock Sample.admin 1 Sample.with_line
              (Order.mk 1 "pendiente" 2000 "Calle 1"))
    as (st' & Hrun & Hp).
  - reflexivity.
  - reflexivity.
  - discriminate.
  - intros d Hd. vm_compute in Hd. apply list_elem_of_singleton in Hd.
    subst d. by eexists.
  - destruct (Hp 1 Sample.reloj eq_refl) as (p' & Hp' & Hstock & Hav).
    exists st', p'. split; [exact Hrun|]. split; [exact Hp'|].
    split; [exact Hstock|exact Hav].
Defined.

(** ** What the order views leave alone *)

Lemma available_set_stock st j0 n prod j :
  products st !! j0 = Some prod →
  available
    (set_products (<[j0 := Product.set_stock n prod]> (products st)) st) j =
  available st j.
Proof.
  intros Hp. unfold available. simpl.
  destruct (decide (j0 = j)) as [<-|Hne].
  - by rewrite lookup_insert_eq, Hp.
  - by rewrite lookup_insert_ne.
Qed.

Lemma Order_total_update_products k st :
  products (Order_total_update k st) = products st.
Proof. unfold Order_total_update. by destruct (orders st !! k). Qed.

Lemma process_detail_available order dd st j :
  available (OrderViewSet.process_detail order dd st).1 j = available st j.
Proof.
  unfold OrderViewSet.process_detail.
  destruct (OrderViewSet.truthy (OrderViewSet.dd_producto dd)) as [pid|];
    [|done].
  destruct (products st !! pid) as [producto|] eqn:Hp; [|done].
  destruct (OrderViewSet.truthy (OrderViewSet.dd_id dd)) as [did|].
  - destruct (details st !! did) as [detalle|]; [|done].
    destruct (OrderDetail.pedido detalle =? order); [|done].
    destruct (OrderDetail.cantidad detalle =? OrderViewSet.dd_cantidad dd);
      [done|].
    destruct (_ <? _); [done|].
    exact (available_set_stock st pid _ producto j Hp).
  - by destruct (_ <? _).
Qed.

Lemma _process_order_details_available order dds st j :
  available (OrderViewSet._process_order_details order dds st).1 j =
  available st j.
Proof.
  revert st. induction dds as [|dd rest IH]; intros st; [done|].
  simpl. pose proof (process_detail_available order dd st j) as H1.
  destruct (OrderViewSet.process_detail order dd st) as [st1 [e|]];
    simpl in *; [done|].
  by rewrite IH.
Qed.

Lemma restore_stock_available dets st j :
  available (restore_stock dets st).1 j = available st j.
Proof.
  revert st. induction dets as [|det rest IH]; intros st; [done|].
  simpl. destruct (products st !! OrderDetail.producto det) as [prod|] eqn:Hp;
    [|done].
  rewrite IH. by apply available_set_stock.
Qed.

Lemma run_order_available op st j :
  available (run_order op st) j = available st j.
Proof.
  destruct op as [u k p dds|u k did|u k|u k|u k]; simpl.
  - unfold OrderViewSet.perform_update.
    destruct (OrderViewSet.get_object u k st) as [o|]; [|done].
    destruct (in_list _ _); [done|].
    match goal with
    | |- context [OrderViewSet._process_order_details k dds ?s] =>
        pose proof (_process_order_details_available k dds s j) as H;
        destruct (OrderViewSet._process_order_details k dds s) as [st2 [e|]]
    end; simpl in *; [done|].
    unfold available in *. by rewrite Order_total_update_products.
  - unfold OrderViewSet.remove_detail.
    destruct (OrderViewSet.get_object u k st) as [o|]; [|done].
    destruct (in_list _ _); [done|].
    destruct (details st !! did) as [d|]; [|done].
    destruct (OrderDetail.pedido d =? k); [|done].
    destruct (products st !! OrderDetail.producto d) as [prod|] eqn:Hp;
      [|done].
    simpl. unfold available. rewrite Order_total_update_products.
    exact (available_set_stock st _ _ prod j Hp).
  - unfold OrderViewSet.cancel.
    destruct (OrderViewSet.get_object u k st) as [o|]; [|done].
    destruct (String.eqb _ _); [done|]. by destruct (negb _).
  - unfold OrderViewSet_update_total.
    destruct (OrderViewSet.get_object u k st) as [o|]; [|done].
    simpl. unfold available. by rewrite Order_total_update_products.
  - unfold OrderViewSet_force_delete.
    destruct (negb (User.is_staff u)); [done|].
    destruct (OrderViewSet.get_object u k st) as [o|]; [|done].
    destruct (negb (String.eqb (Order.estado o) "cancelado")); [|done].
    match goal with
    | |- context [restore_stock ?l ?s] =>
        pose proof (restore_stock_available l s j) as H;
        destruct (restore_stock l s) as [st2 [e|]]
    end; simpl in *; done.
Qed.

(** X13. No request on an order changes what is on sale.  Editing an order
    and its lines, removing a line, cancelling, recomputing the total and
    deleting the order write, if anything, the stock column of a
    product; the supplier stock and the sold counter, from which the
    available stock is computed, are never touched, and no product is
    added or removed.  Units booked by a checkout are therefore not
    offered again by any of these requests. *)
Theorem order_requests_keep_availability ops st j :
  available (run_order_all ops st) j = available st j.
Proof.
  revert st. induction ops as [|op ops IH]; intros st; [done|].
  simpl. unfold run_order_all in IH. rewrite IH.
  apply run_order_available.
Qed.

Lemma get_object_stranger u k st :
  User.is_staff u = false →
  owns_nothing u st →
  OrderViewSet.get_object u k st = None.
Proof.
  intros Hs Hown. unfold OrderViewSet.get_object, OrderViewSet.get_queryset.
  rewrite Hs. apply map_lookup_filter_None. right.
  intros o Ho Hu. simpl in Hu. by apply (Hown k o Ho).
Qed.

Lemma stranger_run_order u op st :
  User.is_staff u = false →
  owns_nothing u st →
  order_op_user op = u →
  run_order op st = st.
Proof.
  intros Hs Hown Hu.
  destruct op as [v k p dds|v k did|v k|v k|v k]; simpl in Hu; subst v; simpl.
  - unfold OrderViewSet.perform_update.
    by rewrite (get_object_stranger u k st Hs Hown).
  - unfold OrderViewSet.remove_detail.
    by rewrite (get_object_stranger u k st Hs Hown).
  - unfold OrderViewSet.cancel.
    by rewrite (get_object_stranger u k st Hs Hown).
  - unfold OrderViewSet_update_total.
    by rewrite (get_object_stranger u k st Hs Hown).
  - unfold OrderViewSet_force_delete. by rewrite Hs.
Qed.

(** X14. A customer who owns no order changes nothing through the order
    endpoints: updates, line removals, cancellations, recomputations of
    the total and forced deletions they send, in any number and order,
    leave the whole store as it was. *)
Theorem stranger_changes_no_order u ops st :
  User.is_staff u = false →
  owns_nothing u st →
  Forall (fun op => order_op_user op = u) ops →
  run_order_all ops st = st.
Proof.
  intros Hs Hown Hops. induction Hops as [|op ops Hop _ IH]; [done|].
  simpl. rewrite (stranger_run_order u op st Hs Hown Hop). exact IH.
Qed.

Lemma stranger_changes_no_order_witness :
  run_order_all
    [OpCancel Sample.beto 1;
     OpRemoveDetail Sample.beto 1 1;
     OpUpdate Sample.beto 1
       (OrderViewSet.mkPatch (Some 2) (Some "entregado") None) [];
     OpForceDelete Sample.beto 1]
    Sample.with_line = Sample.with_line.
Proof.
  apply (stranger_changes_no_order Sample.beto).
  - reflexivity.
  - assert (Ho : orders Sample.with_line =
                 <[1 := Order.mk 1 "pendiente" 2000 "Calle 1"]> ∅)
      by reflexivity.
    intros k o Hk. rewrite Ho in Hk.
    destruct (decide (k = 1)) as [->|Hne].
    + rewrite lookup_insert_eq in Hk. injection Hk as <-. simpl. lia.
    + rewrite lookup_insert_ne in Hk by done. by rewrite lookup_empty in Hk.
  - repeat constructor.
Defined.

(** X15. The stock of a cancelled order never comes back.  Cancelling writes
    only the state of the order, and a later [force_delete] skips the
    loop that restores the stock because the order is cancelled: after
    both requests every product is exactly as it was before the
    cancellation, although the order and its lines are gone. *)
Theorem cancelled_stock_never_returns u v k st st1 :
  OrderViewSet.cancel u k st = (st1, Success tt) →
  User.is_staff v = true →
  ∃ st2,
    OrderViewSet_force_delete v k st1 = (st2, Success tt) ∧
    products st2 = products st ∧
    orders st2 !! k = None ∧
    ∀ i d, details st2 !! i = Some d → OrderDetail.pedido d ≠ k.
Proof.
  intros Hc Hv. unfold OrderViewSet.cancel in Hc.
  destruct (OrderViewSet.get_object u k st) as [order|] eqn:Hg; [|done].
  destruct (String.eqb (Order.estado order) "cancelado"); [done|].
  destruct (negb (in_list _ _)); [done|].
  injection Hc as <-.
  unfold OrderViewSet_force_delete.
  rewrite Hv, (get_object_staff v k _ Hv). simpl.
  rewrite lookup_insert_eq. simpl.
  eexists. split; [reflexivity|]. simpl.
  split; [done|]. split; [apply lookup_delete_eq|].
  intros i d Hd. apply map_lookup_filter_Some in Hd. by destruct Hd.
Qed.

Lemma cancelled_stock_never_returns_witness :
  ∃ st1 st2,
    OrderViewSet.cancel Sample.ana 1 Sample.with_line = (st1, Success tt) ∧
    OrderViewSet_force_delete Sample.admin 1 st1 = (st2, Success tt) ∧
    products st2 = products Sample.with_line ∧
    details st2 = ∅.
Proof.
  destruct (cancelled_stock_never_returns Sample.ana Sample.admin 1
              Sample.with_line
              (OrderViewSet.cancel Sample.ana 1 Sample.with_line).1)
    as (st2 & Hrun & Hp & _ & _); [reflexivity|reflexivity|].
  eexists _, st2. split; [reflexivity|]. split; [exact Hrun|].
  split; [exact Hp|].
  vm_compute in Hrun. injection Hrun as <-. reflexivity.
Defined.

(** ** Shipments over time *)

Lemma order_kept_refl o : order_kept o o.
Proof. unfold order_kept. repeat split; try done. by left. Qed.

Lemma order_kept_trans o1 o2 o3 :
  order_kept o1 o2 → order_kept o2 o3 → order_kept o1 o3.
Proof.
  intros (H1 & H2 & H3 & H4) (G1 & G2 & G3 & G4). unfold order_kept.
  split; [congruence|]. split; [congruence|]. split; [congruence|].
  destruct G4 as [G4|G4]; [|by right].
  destruct H4 as [H4|H4]; [left; congruence|right; by rewrite G4].
Qed.

Lemma shipment_kept_refl s : shipment_kept s s.
Proof. unfold shipment_kept. repeat split; try done. by left. Qed.

Lemma shipment_kept_trans s1 s2 s3 :
  shipment_kept s1 s2 → shipment_kept s2 s3 → shipment_kept s1 s3.
Proof.
  intros (H1 & H2 & H3 & H4 & H5) (G1 & G2 & G3 & G4 & G5).
  unfold shipment_kept.
  split; [congruence|]. split; [congruence|]. split; [congruence|].
  split; [congruence|].
  destruct G5 as [G5|G5]; [|by right].
  destruct H5 as [H5|H5]; [left; congruence|right; by rewrite G5].
Qed.

(** What [promote_order] does to the store: nothing, or it saves one
    existing order in the new state. *)
Lemma promote_order_shape k e st :
  promote_order_result k e st (ShipmentViewSet.promote_order k e st).
Proof.
  unfold ShipmentViewSet.promote_order, promote_order_result.
  destruct (orders st !! k) as [pedido|] eqn:Ho; [|by left].
  destruct (negb (String.eqb (Order.estado pedido) e)); [|by left].
  right. by exists pedido.
Qed.

Lemma run_shipment_shape op st :
  let st' := run_shipment op st in
  products st' = products st ∧ carts st' = carts st ∧
  details st' = details st ∧ pagos st' = pagos st ∧
  (orders st' = orders st ∨
   ∃ k pedido e,
     orders st !! k = Some pedido ∧
     in_list e ["procesando"; "enviado"; "entregado"] = true ∧
     orders st' = <[k := Order.set_estado e pedido]> (orders st)) ∧
  ((envios st' = envios st ∧ next_envio st' = next_envio st) ∨
   (∃ i s e,
      envios st !! i = Some s ∧
      in_list e ShipmentViewSet.estados_validos = true ∧
      envios st' = <[i := Shipment.set_estado e s]> (envios st) ∧
      next_envio st' = next_envio st) ∨
   (∃ data, envios st' = <[next_envio st := data]> (envios st) ∧
            next_envio st' = next_envio st + 1)).
Proof.
  destruct op as [data|u k nuevo]; simpl.
  - unfold ShipmentViewSet.create.
    destruct (orders st !! Shipment.pedido data) as [pedido|] eqn:Ho;
      [|by repeat split; left].
    destruct (ShipmentSerializer.validate pedido);
      [by repeat split; left|].
    unfold ShipmentSerializer.create.
    destruct (String.eqb (Order.estado pedido) "pendiente"); simpl.
    + repeat split; [right|right; right; by eexists].
      by exists (Shipment.pedido data), pedido, "procesando".
    + repeat split; [by left|right; right; by eexists].
  - unfold ShipmentViewSet.update_status.
    destruct (negb (User.is_staff u)); [by repeat split; left|].
    destruct (envios st !! k) as [s|] eqn:Hk; [|by repeat split; left].
    destruct nuevo as [e|]; [|by repeat split; left].
    destruct (in_list e ShipmentViewSet.estados_validos) eqn:He;
      [|by repeat split; left].
    cbn [negb fst].
    assert (Henv : ∀ st2, envios st2 = envios st →
              next_envio st2 = next_envio st →
              (envios (set_envios (<[k := Shipment.set_estado e s]> (envios st2)) st2)
                 = envios st ∧
               next_envio (set_envios (<[k := Shipment.set_estado e s]> (envios st2)) st2)
                 = next_envio st) ∨
              (∃ i s0 e0,
                 envios st !! i = Some s0 ∧
                 in_list e0 ShipmentViewSet.estados_validos = true ∧
                 envios (set_envios (<[k := Shipment.set_estado e s]> (envios st2)) st2)
                   = <[i := Shipment.set_estado e0 s0]> (envios st) ∧
                 next_envio (set_envios (<[k := Shipment.set_estado e s]> (envios st2)) st2)
                   = next_envio st) ∨
              (∃ data,
                 envios (set_envios (<[k := Shipment.set_estado e s]> (envios st2)) st2)
                   = <[next_envio st := data]> (envios st) ∧
                 next_envio (set_envios (<[k := Shipment.set_estado e s]> (envios st2)) st2)
                   = next_envio st + 1)).
    { intros st2 H1 H2. right. left. exists k, s, e. simpl.
      by rewrite H1, H2. }
    destruct (String.eqb_spec e "en camino") as [->|Hn1].
    + simpl.
      destruct (promote_order_shape (Shipment.pedido s) "enviado" st)
        as [->|(pedido & Ho & ->)].
      * repeat split; [by left|by apply Henv].
      * repeat split; [right|by apply Henv].
        by exists (Shipment.pedido s), pedido, "enviado".
    + destruct (String.eqb_spec e "entregado") as [->|Hn2].
      * destruct (promote_order_shape (Shipment.pedido s) "entregado" st)
          as [->|(pedido & Ho & ->)].
        -- repeat split; [by left|by apply Henv].
        -- repeat split; [right|by apply Henv].
           by exists (Shipment.pedido s), pedido, "entregado".
      * repeat split; [by left|by apply Henv].
Qed.

Lemma run_shipment_step op st :
  fresh_keys (next_envio st) (envios st) →
  let st' := run_shipment op st in
  fresh_keys (next_envio st') (envios st') ∧
  products st' = products st ∧ carts st' = carts st ∧
  details st' = details st ∧ pagos st' = pagos st ∧
  (∀ k, orders st !! k = None → orders st' !! k = None) ∧
  (∀ k o, orders st !! k = Some o →
          ∃ o', orders st' !! k = Some o' ∧ order_kept o o') ∧
  (∀ i s, envios st !! i = Some s →
          ∃ s', envios st' !! i = Some s' ∧ shipment_kept s s').
Proof.
  intros Hf st'.
  destruct (run_shipment_shape op st) as (Hp & Hc & Hd & Hpg & Ho & He).
  fold st' in Hp, Hc, Hd, Hpg, Ho, He.
  assert (Hord : (∀ k, orders st !! k = None → orders st' !! k = None) ∧
                 (∀ k o, orders st !! k = Some o →
                         ∃ o', orders st' !! k = Some o' ∧ order_kept o o')).
  { destruct Ho as [->|(k & pedido & e & Hk & He' & ->)].
    - split; [done|]. intros k o Hk. exists o. split; [done|].
      apply order_kept_refl.
    - split.
      + intros i Hi. rewrite lookup_insert_ne; [done|]. intros <-.
        by rewrite Hk in Hi.
      + intros i o Hi. destruct (decide (k = i)) as [<-|Hne].
        * rewrite lookup_insert_eq. eexists. split; [done|].
          assert (o = pedido) as -> by congruence.
          unfold order_kept. simpl. repeat split; try done. by right.
        * rewrite lookup_insert_ne by done. exists o. split; [done|].
          apply order_kept_refl. }
  destruct Hord as [Hnone Hsome].
  assert (Henv : fresh_keys (next_envio st') (envios st') ∧
                 (∀ i s, envios st !! i = Some s →
                         ∃ s', envios st' !! i = Some s' ∧ shipment_kept s s')).
  { destruct He as [[-> ->]|[(i & s & e & Hi & He' & -> & ->)|(data & -> & ->)]].
    - split; [done|]. intros i s Hi. exists s. split; [done|].
      apply shipment_kept_refl.
    - split.
      + intros j Hj. rewrite lookup_insert_ne; [by apply Hf|]. intros <-.
        rewrite (Hf i Hj) in Hi. done.
      + intros j s0 Hj. destruct (decide (i = j)) as [<-|Hne].
        * rewrite lookup_insert_eq. eexists. split; [done|].
          assert (s0 = s) as -> by congruence.
          unfold shipment_kept. simpl. repeat split; try done. by right.
        * rewrite lookup_insert_ne by done. exists s0. split; [done|].
          apply shipment_kept_refl.
    - split.
      + intros j Hj. rewrite lookup_insert_ne by lia. apply Hf. lia.
      + intros j s0 Hj. exists s0. split; [|apply shipment_kept_refl].
        rewrite lookup_insert_ne; [done|]. intros <-.
        rewrite Hf in Hj by lia. done. }
  destruct Henv as [Hf' Hrows].
  repeat split; assumption.
Qed.

(** X16. Shipment requests only move states.  Along any sequence of shipment
    creations and status updates no product, cart, order line or payment
    is written; no order is created or removed, and an order keeps its
    owner, total and address while its state is either untouched or one
    of processing, sent and delivered; a shipment is never removed and
    keeps its order, address, carrier and tracking number, its state
    being the original one or one of the four valid ones. *)
Theorem shipments_only_move_states ops st :
  fresh_keys (next_envio st) (envios st) →
  let st' := run_shipment_all ops st in
  products st' = products st ∧ carts st' = carts st ∧
  details st' = details st ∧ pagos st' = pagos st ∧
  (∀ k, orders st !! k = None → orders st' !! k = None) ∧
  (∀ k o, orders st !! k = Some o →
          ∃ o', orders st' !! k = Some o' ∧ order_kept o o') ∧
  (∀ i s, envios st !! i = Some s →
          ∃ s', envios st' !! i = Some s' ∧ shipment_kept s s').
Proof.
  revert st. induction ops as [|op ops IH]; intros st Hf.
  - simpl. repeat split; try done.
    + intros k o Hk. exists o. split; [done|apply order_kept_refl].
    + intros i s Hi. exists s. split; [done|apply shipment_kept_refl].
  - destruct (run_shipment_step op st Hf)
      as (Hf1 & Hp1 & Hc1 & Hd1 & Hg1 & Hn1 & Ho1 & Hs1).
    destruct (IH _ Hf1) as (Hp2 & Hc2 & Hd2 & Hg2 & Hn2 & Ho2 & Hs2).
    simpl. split; [congruence|]. split; [congruence|].
    split; [congruence|]. split; [congruence|].
    split; [intros k Hk; by apply Hn2, Hn1|].
    split.
    + intros k o Hk. destruct (Ho1 k o Hk) as (o1 & Hk1 & Hk1').
      destruct (Ho2 k o1 Hk1) as (o2 & Hk2 & Hk2').
      exists o2. split; [done|]. by apply (order_kept_trans o o1 o2).
    + intros i s Hi. destruct (Hs1 i s Hi) as (s1 & Hi1 & Hi1').
      destruct (Hs2 i s1 Hi1) as (s2 & Hi2 & Hi2').
      exists s2. split; [done|]. by apply (shipment_kept_trans s s1 s2).
Qed.

Lemma shipments_only_move_states_witness :
  let st' :=
    run_shipment_all
      [OpShip Sample.envio_ana;
       OpStatus Sample.admin 1 (Some "en camino");
       OpStatus Sample.ana 1 (Some "entregado");
       OpStatus Sample.admin 1 (Some "perdido")]
      Sample.one_order in
  pagos st' = pagos Sample.one_order ∧
  ∃ o', orders st' !! 1 = Some o' ∧ order_kept Sample.pedido_ana o'.
Proof.
  assert (Hf : fresh_keys (next_envio Sample.one_order)
                          (envios Sample.one_order))
    by (intros k _; apply lookup_empty).
  destruct (shipments_only_move_states
              [OpShip Sample.envio_ana;
               OpStatus Sample.admin 1 (Some "en camino");
               OpStatus Sample.ana 1 (Some "entregado");
               OpStatus Sample.admin 1 (Some "perdido")]
              Sample.one_order Hf)
    as (_ & _ & _ & Hg & _ & Ho & _).
  split; [exact Hg|]. exact (Ho 1 Sample.pedido_ana eq_refl).
Defined.

(** ** Shipments and the state of the order *)

Lemma run_shipment_all_orders ops st k o :
  orders st !! k = Some o →
  ∃ o', orders (run_shipment_all ops st) !! k = Some o' ∧ order_kept o o'.
Proof.
  revert st o. induction ops as [|op ops IH]; intros st o Hk.
  - exists o. split; [done|apply order_kept_refl].
  - assert (H1 : ∃ o1, orders (run_shipment op st) !! k = Some o1 ∧
                       order_kept o o1).
    { destruct (run_shipment_shape op st) as (_ & _ & _ & _ & Ho & _).
      destruct Ho as [->|(j & pedido & e & Hj & He & ->)].
      - exists o. split; [done|apply order_kept_refl].
      - destruct (decide (j = k)) as [->|Hne].
        + rewrite lookup_insert_eq. eexists. split; [done|].
          assert (o = pedido) as -> by congruence.
          unfold order_kept. simpl. repeat split; try done. by right.
        + rewrite lookup_insert_ne by done. exists o.
          split; [done|apply order_kept_refl]. }
    destruct H1 as (o1 & Hk1 & Hkept1).
    destruct (IH _ o1 Hk1) as (o2 & Hk2 & Hkept2).
    exists o2. split; [exact Hk2|]. by apply (order_kept_trans o o1 o2).
Qed.

(** X10. Creating a shipment for a pending order closes the order for
    payments, and for further shipments until it is delivered.  The
    creation moves the order to processing.  Through every later
    sequence of shipment creations and status updates the order is in one
    of the states processing, sent and delivered; every request to create
    a payment for it is refused; and a further shipment for it is refused
    as long as the order is not delivered.  Refused requests leave the
    store unchanged. *)
Theorem shipment_closes_pending_order is_url loads data st st' k pedido :
  orders st !! Shipment.pedido data = Some pedido →
  Order.estado pedido = "pendiente" →
  ShipmentViewSet.create data st = (st', Success k) →
  ∀ ops,
    let st'' := run_shipment_all ops st' in
    ∃ o',
      orders st'' !! Shipment.pedido data = Some o' ∧
      in_list (Order.estado o') ["procesando"; "enviado"; "entregado"] = true ∧
      (∀ u d, PaySerializer.data_pedido d = Shipment.pedido data →
         ∃ e, PayViewSet.create is_url loads u d st'' = (st'', Failure e)) ∧
      (∀ data', Shipment.pedido data' = Shipment.pedido data →
         Order.estado o' ≠ "entregado" →
         ShipmentViewSet.create data' st'' =
           (st'', Failure (ShipmentNotAllowed (Order.estado o')))).
Proof.
  intros Ho He Hc ops st''.
  assert (Ho' : orders st' !! Shipment.pedido data =
                  Some (Order.set_estado "procesando" pedido)).
  { unfold ShipmentViewSet.create in Hc. rewrite Ho in Hc.
    unfold ShipmentSerializer.validate, ShipmentSerializer.create in Hc.
    rewrite He in Hc. simpl in Hc. injection Hc as <- _. simpl.
    by rewrite lookup_insert_eq. }
  destruct (run_shipment_all_orders ops st' _ _ Ho')
    as (o' & Ho'' & _ & _ & _ & Hest).
  fold st'' in Ho''.
  assert (Hin : in_list (Order.estado o')
                  ["procesando"; "enviado"; "entregado"] = true).
  { destruct Hest as [->|H]; [reflexivity|exact H]. }
  exists o'. split; [exact Ho''|]. split; [exact Hin|].
  split.
  - intros u d Hd.
    apply (create_needs_pending is_url loads u d st'' o'); [by rewrite Hd|].
    intros Hp. rewrite Hp in Hin. discriminate.
  - intros data' Hd Hne. unfold ShipmentViewSet.create. rewrite Hd, Ho''.
    unfold ShipmentSerializer.validate.
    unfold in_list in Hin. simpl in Hin.
    destruct (String.eqb_spec (Order.estado o') "procesando") as [->|_];
      [done|].
    destruct (String.eqb_spec (Order.estado o') "enviado") as [->|_];
      [done|].
    destruct (String.eqb_spec (Order.estado o') "entregado") as [Hd'|_];
      [by destruct Hne|]. discriminate.
Qed.

Lemma shipment_closes_pending_order_witness :
  let st'' :=
    run_shipment_all [OpStatus Sample.admin 1 (Some "en camino")]
      Sample.shipped in
  ShipmentViewSet.create Sample.envio_ana st'' =
    (st'', Failure (ShipmentNotAllowed "enviado")) ∧
  ∃ e, PayViewSet.create Sample.is_url Sample.loads Sample.ana
         Sample.transferencia st'' = (st'', Failure e).
Proof.
  destruct (shipment_closes_pending_order Sample.is_url Sample.loads
              Sample.envio_ana Sample.one_order Sample.shipped 1
              Sample.pedido_ana eq_refl eq_refl eq_refl
              [OpStatus Sample.admin 1 (Some "en camino")])
    as (o' & Ho & _ & Hp & Hs).
  vm_compute in Ho. injection Ho as <-.
  split.
  - apply (Hs Sample.envio_ana); [reflexivity|discriminate].
  - apply (Hp Sample.ana Sample.transferencia). reflexivity.
Defined.

(** ** Resetting the sold counter *)

(** X17. [reset_stock_vendido] puts the whole supplier stock of the product
    on sale again, whatever had been sold: the answer and the available
    stock afterwards are the supplier stock, the other products are
    untouched, and a customer whose cart has no line of the product can
    add any positive quantity up to the supplier stock. *)
Theorem reset_stock_vendido_reopens_sales pk st p :
  products st !! pk = Some p →
  Product.stock_ilimitado p = false →
  let out := reset_stock_vendido pk st in
  out.2 = Some (Some (Product.stock_proveedor p)) ∧
  available out.1 pk = Some (Some (Product.stock_proveedor p)) ∧
  (∀ j, j ≠ pk → products out.1 !! j = products st !! j) ∧
  (∀ u q,
     0 < q ≤ Product.stock_proveedor p →
     filter (fun it => CartItem.producto it = pk)
            (default [] (carts st !! User.id u)) = [] →
     ∃ st' tot,
       ProductViewSet.add_to_cart u pk (Some q) out.1 = (st', inr (false, tot)) ∧
       units_of pk (default [] (carts st' !! User.id u)) = q).
Proof.
  intros Hp Hlim. unfold reset_stock_vendido. rewrite Hp. cbn [fst snd].
  assert (Hd : Product.stock_disponible (Product.set_stock_vendido 0 p) =
               Some (Product.stock_proveedor p)).
  { unfold Product.stock_disponible. simpl. rewrite Hlim. f_equal. lia. }
  split; [by rewrite Hd|].
  split; [unfold available; simpl; by rewrite lookup_insert_eq, <- Hd|].
  split; [intros j Hj; simpl; by rewrite lookup_insert_ne|].
  intros u q [Hq1 Hq2] Hnone.
  unfold ProductViewSet.add_to_cart. cbn [products set_products].
  rewrite lookup_insert_eq. change (default 1 (Some q)) with q.
  destruct (Z.leb_spec q 0) as [|_]; [lia|].
  unfold exceeds_stock. rewrite Hd.
  destruct (Z.ltb_spec (Product.stock_proveedor p) q) as [|_]; [lia|].
  unfold CartViewSet.get_or_create. cbn [carts set_products].
  destruct (carts st !! User.id u) as [items|] eqn:Hc; simpl in Hnone.
  - rewrite Hnone. eexists _, _. split; [reflexivity|].
    simpl. rewrite lookup_insert_eq. simpl.
    rewrite units_of_app, (units_of_none _ _ Hnone). simpl.
    rewrite bool_decide_eq_true_2 by done. lia.
  - simpl. eexists _, _. split; [reflexivity|].
    simpl. rewrite lookup_insert_eq. simpl.
    rewrite bool_decide_eq_true_2 by done. lia.
Qed.

Lemma reset_stock_vendido_reopens_sales_witness :
  available (Sample.beto_checks_out Sample.shop) 2 = Some (Some 0) ∧
  available (reset_stock_vendido 2 (Sample.beto_checks_out Sample.shop)).1 2
    = Some (Some 1).
Proof.
  split; [reflexivity|].
  destruct (reset_stock_vendido_reopens_sales 2
              (Sample.beto_checks_out Sample.shop)
              (Product.set_stock_vendido 1 Sample.correa))
    as (_ & H & _); [reflexivity|reflexivity|exact H].
Defined.

(** ** Favourites *)

Lemma matching_cases u pid fs :
  is_fav u pid fs ∨
  (¬ is_fav u pid fs ∧ FavoriteViewSet.matching u pid fs = []).
Proof.
  unfold FavoriteViewSet.matching.
  destruct (map_choose_or_empty
              (filter (fun kf : Z * Favorite.t =>
                         Favorite.user kf.2 = u ∧ Favorite.product kf.2 = pid)
                      (favs fs))) as [(k & f & Hk)|Hempty].
  - left. apply map_lookup_filter_Some in Hk. destruct Hk as [Hk [Hu Hp]].
    exists k. rewrite Hk. destruct f; simpl in *. by subst.
  - right. split; [|by rewrite Hempty, map_to_list_empty].
    intros [k Hk].
    assert (filter (fun kf : Z * Favorite.t =>
                      Favorite.user kf.2 = u ∧ Favorite.product kf.2 = pid)
                   (favs fs) !! k = Some (Favorite.mk u pid)) as H.
    { by apply map_lookup_filter_Some. }
    by rewrite Hempty, lookup_empty in H.
Qed.

Lemma matching_existing u pid fs k :
  favs_in_order fs →
  favs fs !! k = Some (Favorite.mk u pid) →
  FavoriteViewSet.matching u pid fs = [(k, Favorite.mk u pid)].
Proof.
  intros [_ Huniq] Hk. unfold FavoriteViewSet.matching.
  rewrite <- map_to_list_singleton. f_equal.
  apply map_eq. intros i. apply option_eq. intros f.
  rewrite map_lookup_filter_Some, lookup_singleton_Some. simpl. split.
  - intros [Hi [Hu Hp]].
    assert (f = Favorite.mk u pid) as -> by (destruct f; simpl in *; by subst).
    split; [by apply (Huniq k i (Favorite.mk u pid))|done].
  - intros [<- <-]. done.
Qed.

Lemma get_or_create_old prods u pid fs :
  favs_in_order fs →
  is_fav u pid fs →
  ∃ k, favs fs !! k = Some (Favorite.mk u pid) ∧
       FavoriteViewSet.get_or_create prods u pid fs = (fs, inr (k, false)).
Proof.
  intros Hok [k Hk]. exists k. split; [done|].
  unfold FavoriteViewSet.get_or_create.
  by rewrite (matching_existing u pid fs k Hok Hk).
Qed.

Lemma get_or_create_new prods u pid fs :
  ¬ is_fav u pid fs →
  is_Some (prods !! pid) →
  FavoriteViewSet.get_or_create prods u pid fs =
    (mkFavorites (<[next_fav fs := Favorite.mk u pid]> (favs fs))
                 (next_fav fs + 1),
     inr (next_fav fs, true)).
Proof.
  intros Hnot [p Hp]. unfold FavoriteViewSet.get_or_create.
  destruct (matching_cases u pid fs) as [H|[_ ->]]; [done|]. by rewrite Hp.
Qed.

Lemma favs_in_order_insert u pid fs :
  favs_in_order fs →
  ¬ is_fav u pid fs →
  favs_in_order
    (mkFavorites (<[next_fav fs := Favorite.mk u pid]> (favs fs))
                 (next_fav fs + 1)).
Proof.
  intros [Hf Huniq] Hnot. split; simpl.
  - intros k Hk. rewrite lookup_insert_ne by lia. apply Hf. lia.
  - intros i j f Hi Hj.
    destruct (decide (next_fav fs = i)) as [<-|Hi'];
      destruct (decide (next_fav fs = j)) as [<-|Hj']; try done.
    + rewrite lookup_insert_eq in Hi. rewrite lookup_insert_ne in Hj by done.
      injection Hi as <-. destruct Hnot. by exists j.
    + rewrite lookup_insert_eq in Hj. rewrite lookup_insert_ne in Hi by done.
      injection Hj as <-. destruct Hnot. by exists i.
    + rewrite lookup_insert_ne in Hi, Hj by done. by apply (Huniq i j f).
Qed.

Lemma merge_spec prods u l c fs :
  favs_in_order fs →
  (∀ pid, pid ∈ l → is_Some (prods !! pid)) →
  ∃ fs',
    FavoriteViewSet.merge prods u l c fs =
      (fs', inr (c + (Z.of_nat (size (favs fs')) - Z.of_nat (size (favs fs))))) ∧
    favs_in_order fs' ∧
    (∀ pid, pid ∈ l → is_fav u pid fs') ∧
    (∀ k f, favs fs !! k = Some f → favs fs' !! k = Some f) ∧
    (∀ k f, favs fs' !! k = Some f →
            favs fs !! k = Some f ∨
            (Favorite.user f = u ∧ Favorite.product f ∈ l)).
Proof.
  revert c fs. induction l as [|pid rest IH]; intros c fs Hok Hex.
  - exists fs. simpl. split; [do 2 f_equal; lia|]. split; [done|].
    split; [intros pid Hpid; by apply elem_of_nil in Hpid|].
    split; [done|]. intros k f Hk. by left.
  - simpl. destruct (matching_cases u pid fs) as [Hfav|[Hnot _]].
    + destruct (get_or_create_old prods u pid fs Hok Hfav) as (k & Hk & ->).
      destruct (IH c fs Hok) as (fs' & Hrun & Hok' & Hall & Hkeep & Hnew).
      { intros q Hq. apply Hex. by right. }
      exists fs'. split; [exact Hrun|]. split; [exact Hok'|].
      split; [|split].
      * intros q Hq. apply elem_of_cons in Hq. destruct Hq as [->|Hq].
        -- exists k. by apply Hkeep.
        -- by apply Hall.
      * exact Hkeep.
      * intros i f Hi. destruct (Hnew i f Hi) as [H|[H1 H2]]; [by left|].
        right. split; [done|by right].
    + rewrite (get_or_create_new prods u pid fs Hnot) by (apply Hex; by left).
      pose proof (favs_in_order_insert u pid fs Hok Hnot) as Hok1.
      destruct (IH (c + 1) _ Hok1) as (fs' & Hrun & Hok' & Hall & Hkeep & Hnew).
      { intros q Hq. apply Hex. by right. }
      simpl in Hrun, Hkeep, Hnew.
      assert (Hnone : favs fs !! next_fav fs = None)
        by (apply (proj1 Hok); lia).
      exists fs'. split.
      { rewrite Hrun. do 2 f_equal.
        rewrite map_size_insert_None by done. lia. }
      split; [exact Hok'|]. split; [|split].
      * intros q Hq. apply elem_of_cons in Hq. destruct Hq as [->|Hq].
        -- exists (next_fav fs). apply Hkeep. by rewrite lookup_insert_eq.
        -- by apply Hall.
      * intros k f Hk. apply Hkeep. rewrite lookup_insert_ne; [done|].
        intros <-. by rewrite Hnone in Hk.
      * intros i f Hi. destruct (Hnew i f Hi) as [H|[H1 H2]].
        -- destruct (decide (next_fav fs = i)) as [<-|Hne].
           ++ rewrite lookup_insert_eq in H. injection H as <-.
              right. split; [done|by left].
           ++ rewrite lookup_insert_ne in H by done. by left.
        -- right. split; [done|by right].
Qed.

Lemma merge_nothing_new prods u l c fs :
  favs_in_order fs →
  (∀ pid, pid ∈ l → is_fav u pid fs) →
  FavoriteViewSet.merge prods u l c fs = (fs, inr c).
Proof.
  intros Hok. induction l as [|pid rest IH]; intros Hall; [done|].
  simpl. destruct (get_or_create_old prods u pid fs Hok) as (k & _ & ->).
  { apply Hall. by left. }
  apply IH. intros q Hq. apply Hall. by right.
Qed.

(** X18. [bulk] merges each product once.  On a table without double rows and
    for a list of existing products, which may name a product several
    times, the request succeeds; afterwards every product of the list is
    a favourite of the user, the table still has no double rows, the
    rows it had are kept, every new row belongs to the user and to a
    product of the list, and the number in the answer is the number of
    rows added.  Sending the same list again adds nothing and answers
    zero. *)
Theorem bulk_merges_each_once prods u l fs :
  favs_in_order fs →
  (∀ pid, pid ∈ l → is_Some (prods !! pid)) →
  ∃ fs' n,
    FavoriteViewSet.bulk prods u (Ids l) fs = (fs', inr n) ∧
    favs_in_order fs' ∧
    (∀ pid, pid ∈ l → is_fav (User.id u) pid fs') ∧
    (∀ k f, favs fs !! k = Some f → favs fs' !! k = Some f) ∧
    (∀ k f, favs fs' !! k = Some f →
            favs fs !! k = Some f ∨
            (Favorite.user f = User.id u ∧ Favorite.product f ∈ l)) ∧
    Z.of_nat (size (favs fs')) = Z.of_nat (size (favs fs)) + n ∧
    FavoriteViewSet.bulk prods u (Ids l) fs' = (fs', inr 0).
Proof.
  intros Hok Hex.
  destruct (merge_spec prods (User.id u) l 0 fs Hok Hex)
    as (fs' & Hrun & Hok' & Hall & Hkeep & Hnew).
  exists fs', (0 + (Z.of_nat (size (favs fs')) - Z.of_nat (size (favs fs)))).
  split; [exact Hrun|]. split; [exact Hok'|]. split; [exact Hall|].
  split; [exact Hkeep|]. split; [exact Hnew|]. split; [lia|].
  simpl. by apply merge_nothing_new.
Qed.

Lemma bulk_merges_each_once_witness :
  ∃ fs',
    FavoriteViewSet.bulk (products Sample.shop) Sample.ana
      (Ids DemoFavs.wishlist) DemoFavs.none = (fs', inr 2) ∧
    FavoriteViewSet.bulk (products Sample.shop) Sample.ana
      (Ids DemoFavs.wishlist) fs' = (fs', inr 0).
Proof.
  destruct (bulk_merges_each_once (products Sample.shop) Sample.ana
              DemoFavs.wishlist DemoFavs.none)
    as (fs' & n & Hrun & _ & _ & _ & _ & _ & Hagain).
  - split; [intros k _; apply lookup_empty|].
    intros i j f Hi. simpl in Hi. by rewrite lookup_empty in Hi.
  - intros pid Hpid. unfold DemoFavs.wishlist in Hpid.
    repeat (apply elem_of_cons in Hpid; destruct Hpid as [->|Hpid];
            [by eexists|]).
    by apply elem_of_nil in Hpid.
  - exists fs'. split; [|exact Hagain].
    rewrite Hrun. vm_compute in Hrun. by injection Hrun as _ <-.
Defined.

(** X19. Adding a favourite and removing it by product is a round trip, and
    adding it twice makes one row.  For a product that exists and is not
    yet a favourite of the user, [create] answers 201 with a new row, a
    second [create] answers 200 with the same row and changes nothing,
    and [destroy] with the product in the query then leaves the rows of
    the table exactly as they were before the first request. *)
Theorem favourite_round_trip prods u pid uid pk fs :
  favs_in_order fs →
  ¬ is_fav (User.id u) pid fs →
  is_Some (prods !! pid) →
  pid ≠ 0 →
  ∃ fs1 k,
    FavoriteViewSet.create prods u (Some pid) fs = (fs1, inr (k, true)) ∧
    FavoriteViewSet.create prods u (Some pid) fs1 = (fs1, inr (k, false)) ∧
    ∃ fs2,
      FavoriteViewSet.destroy u uid (Some pid) pk fs1 = (fs2, None) ∧
      favs fs2 = favs fs.
Proof.
  intros Hok Hnot Hex Hpid.
  assert (Ht : OrderViewSet.truthy (Some pid) = Some pid)
    by (destruct pid; done).
  unfold FavoriteViewSet.create. rewrite Ht.
  rewrite (get_or_create_new prods (User.id u) pid fs Hnot Hex).
  pose proof (favs_in_order_insert (User.id u) pid fs Hok Hnot) as Hok1.
  set (fs1 := mkFavorites _ _) in *.
  assert (Hk : favs fs1 !! next_fav fs = Some (Favorite.mk (User.id u) pid))
    by (unfold fs1; simpl; by rewrite lookup_insert_eq).
  exists fs1, (next_fav fs). split; [done|].
  split.
  - unfold FavoriteViewSet.get_or_create.
    by rewrite (matching_existing _ _ fs1 _ Hok1 Hk).
  - unfold FavoriteViewSet.destroy.
    rewrite (matching_existing _ _ fs1 _ Hok1 Hk).
    eexists. split; [reflexivity|]. unfold fs1. simpl.
    rewrite delete_insert_id; [done|]. apply (proj1 Hok). lia.
Qed.

Lemma favourite_round_trip_witness :
  ∃ fs1 fs2,
    FavoriteViewSet.create (products Sample.shop) Sample.ana (Some 2)
      DemoFavs.none = (fs1, inr (1, true)) ∧
    FavoriteViewSet.destroy Sample.ana None (Some 2) 0 fs1 = (fs2, None) ∧
    favs fs2 = favs DemoFavs.none.
Proof.
  destruct (favourite_round_trip (products Sample.shop) Sample.ana 2 None 0
              DemoFavs.none)
    as (fs1 & k & Hc & _ & fs2 & Hd & Hf).
  - split; [intros i _; apply lookup_empty|].
    intros i j f Hi. simpl in Hi. by rewrite lookup_empty in Hi.
  - intros [i Hi]. simpl in Hi. by rewrite lookup_empty in Hi.
  - by eexists.
  - done.
  - exists fs1, fs2. split; [|split; [exact Hd|exact Hf]].
    rewrite Hc. vm_compute in Hc. by injection Hc as _ <-.
Defined.

(** ** Editing the lines of an order *)

Lemma process_detail_stock order dd st :
  stock_not_negative (products st) →
  stock_not_negative (products (OrderViewSet.process_detail order dd st).1).
Proof.
  intros Hst. unfold OrderViewSet.process_detail.
  destruct (OrderViewSet.truthy (OrderViewSet.dd_producto dd)) as [pid|];
    [|done].
  destruct (products st !! pid) as [producto|] eqn:Hp; [|done].
  destruct (OrderViewSet.truthy (OrderViewSet.dd_id dd)) as [did|].
  - destruct (details st !! did) as [detalle|]; [|done].
    destruct (OrderDetail.pedido detalle =? order); [|done].
    destruct (OrderDetail.cantidad detalle =? OrderViewSet.dd_cantidad dd);
      [done|].
    destruct (Z.ltb_spec (Product.stock producto + OrderDetail.cantidad detalle)
                (OrderViewSet.dd_cantidad dd)) as [|Hge]; [done|].
    simpl. intros j p Hj. destruct (decide (pid = j)) as [<-|Hne].
    + rewrite lookup_insert_eq in Hj. injection Hj as <-. simpl. lia.
    + rewrite lookup_insert_ne in Hj by done. by apply (Hst j).
  - by destruct (_ <? _).
Qed.

Lemma _process_order_details_stock order dds st :
  stock_not_negative (products st) →
  stock_not_negative
    (products (OrderViewSet._process_order_details order dds st).1).
Proof.
  revert st. induction dds as [|dd rest IH]; intros st Hst; [done|].
  simpl. pose proof (process_detail_stock order dd st Hst) as H1.
  destruct (OrderViewSet.process_detail order dd st) as [st1 [e|]];
    simpl in *; [done|].
  by apply IH.
Qed.

(** X20. [perform_update] never drives a stock below zero.  Whatever fields
    and whatever list of line changes the request carries, whether it is
    accepted or refused half way, if no product had a negative stock
    column before, none has one afterwards. *)
Theorem perform_update_keeps_stock_not_negative u k p dds st :
  stock_not_negative (products st) →
  stock_not_negative (products (OrderViewSet.perform_update u k p dds st).1).
Proof.
  intros Hst. unfold OrderViewSet.perform_update.
  destruct (OrderViewSet.get_object u k st) as [o|]; [|done].
  destruct (in_list _ _); [done|].
  match goal with
  | |- context [OrderViewSet._process_order_details k dds ?s] =>
      pose proof (_process_order_details_stock k dds s Hst) as H;
      destruct (OrderViewSet._process_order_details k dds s) as [st2 [e|]]
  end; simpl in *; [done|].
  by rewrite Order_total_update_products.
Qed.

Lemma perform_update_keeps_stock_not_negative_witness :
  stock_not_negative
    (products
       (OrderViewSet.perform_update Sample.ana 1
          (OrderViewSet.mkPatch None None None)
          [OrderViewSet.mkDetalleData (Some 1) 7 (Some 1);
           OrderViewSet.mkDetalleData (Some 2) 9 None]
          Sample.with_line).1).
Proof.
  apply perform_update_keeps_stock_not_negative.
  assert (Hp : products Sample.with_line =
               <[1 := Sample.reloj]> (<[2 := Sample.correa]> ∅))
    by reflexivity.
  intros j p Hj. rewrite Hp in Hj.
  destruct (decide (j = 1)) as [->|H1].
  - rewrite lookup_insert_eq in Hj. injection Hj as <-. simpl. lia.
  - rewrite lookup_insert_ne in Hj by done.
    destruct (decide (j = 2)) as [->|H2].
    + rewrite lookup_insert_eq in Hj. injection Hj as <-. simpl. lia.
    + rewrite lookup_insert_ne in Hj by done. by rewrite lookup_empty in Hj.
Defined.

(** X21. Changing the quantity of a line keeps the units of its product.  For
    a request of [perform_update] that names one line of the order and
    the product of that line: if the stock together with the units on
    the line does not cover the new quantity the request is refused and
    products and lines stay as they were; otherwise the line takes the
    new quantity and the stock of the product plus the units on the line
    is what it was before, the other products being untouched. *)
Theorem line_edit_conserves_units u k patch pid q did st order line prod :
  OrderViewSet.get_object u k st = Some order →
  in_list (Order.estado order) ["entregado"; "cancelado"] = false →
  details st !! did = Some line →
  OrderDetail.pedido line = k →
  OrderDetail.producto line = pid →
  products st !! pid = Some prod →
  0 ≤ Product.stock prod →
  pid ≠ 0 → did ≠ 0 →
  let out :=
    OrderViewSet.perform_update u k patch
      [OrderViewSet.mkDetalleData (Some pid) q (Some did)] st in
  if Product.stock prod + OrderDetail.cantidad line <? q
  then out.2 = Failure (InsufficientStock (Product.nombre prod)) ∧
       products out.1 = products st ∧
       details out.1 = details st
  else out.2 = Success tt ∧
       ∃ prod' line',
         products out.1 !! pid = Some prod' ∧
         details out.1 !! did = Some line' ∧
         OrderDetail.cantidad line' = q ∧
         Product.stock prod' + OrderDetail.cantidad line' =
           Product.stock prod + OrderDetail.cantidad line ∧
         ∀ j, j ≠ pid → products out.1 !! j = products st !! j.
Proof.
  intros Hget Hlock Hline Hk Hpid Hprod Hstock Hp0 Hd0.
  assert (Ht1 : OrderViewSet.truthy (Some pid) = Some pid)
    by (destruct pid; done).
  assert (Ht2 : OrderViewSet.truthy (Some did) = Some did)
    by (destruct did; done).
  unfold OrderViewSet.perform_update. rewrite Hget, Hlock.
  cbn [OrderViewSet._process_order_details].
  unfold OrderViewSet.process_detail.
  cbn [OrderViewSet.dd_producto OrderViewSet.dd_id OrderViewSet.dd_cantidad
       products details set_orders].
  rewrite Ht1, Hprod, Ht2, Hline, Hk, Z.eqb_refl.
  destruct (Z.eqb_spec (OrderDetail.cantidad line) q) as [Hq|Hq].
  - destruct (Z.ltb_spec (Product.stock prod + OrderDetail.cantidad line) q)
      as [|_]; [lia|].
    cbn [fst snd]. split; [done|].
    exists prod, (OrderDetail.mk k (OrderDetail.producto line) q
                    (OrderViewSet.OrderDetail_subtotal (products st)
                       (OrderDetail.producto line) q)).
    rewrite Order_total_update_products.
    split; [done|]. split.
    + unfold Order_total_update. destruct (orders _ !! k); simpl;
        by rewrite lookup_insert_eq.
    + split; [done|]. split; [simpl; lia|done].
  - destruct (Z.ltb_spec (Product.stock prod + OrderDetail.cantidad line) q)
      as [Hlt|Hge].
    + cbn [fst snd]. done.
    + cbn [fst snd]. split; [done|].
      exists (Product.set_stock
                (Product.stock prod + OrderDetail.cantidad line - q) prod),
             (OrderDetail.mk k (OrderDetail.producto line) q
                (OrderViewSet.OrderDetail_subtotal
                   (<[pid := Product.set_stock
                        (Product.stock prod + OrderDetail.cantidad line - q)
                        prod]> (products st))
                   (OrderDetail.producto line) q)).
      rewrite Order_total_update_products.
      split; [simpl; by rewrite lookup_insert_eq|]. split.
      * unfold Order_total_update. destruct (orders _ !! k); simpl;
          by rewrite lookup_insert_eq.
      * split; [done|]. split; [simpl; lia|].
        intros j Hj. simpl. by rewrite lookup_insert_ne.
Qed.

Lemma line_edit_conserves_units_witness :
  ∃ prod' line',
    products
      (OrderViewSet.perform_update Sample.ana 1
         (OrderViewSet.mkPatch None None None)
         [OrderViewSet.mkDetalleData (Some 1) 6 (Some 1)]
         Sample.with_line).1 !! 1 = Some prod' ∧
    details
      (OrderViewSet.perform_update Sample.ana 1
         (OrderViewSet.mkPatch None None None)
         [OrderViewSet.mkDetalleData (Some 1) 6 (Some 1)]
         Sample.with_line).1 !! 1 = Some line' ∧
    Product.stock prod' + OrderDetail.cantidad line' = 7.
Proof.
  pose proof (line_edit_conserves_units Sample.ana 1
                (OrderViewSet.mkPatch None None None) 1 6 1 Sample.with_line
                (Order.mk 1 "pendiente" 2000 "Calle 1")
                (OrderDetail.mk 1 1 2 2000) Sample.reloj
                eq_refl eq_refl eq_refl eq_refl eq_refl eq_refl) as H.
  simpl in H. destruct H as [_ (prod' & line' & H1 & H2 & _ & H3 & _)];
    [lia|lia|lia|].
  exists prod', line'. split; [exact H1|]. split; [exact H2|exact H3].
Defined.
